(** * Twilio account manager: gateway and file logger

    A shallow embedding of [app/gateways/file_logger.py] and
    [app/gateways/twilio_gateway.py], and the properties of the gateway's
    result normalisation and of the JSON logging discipline.

    Python values are modelled by the type [value]; the provider (the Twilio
    SDK client and the [requests] library) is an oracle over a hidden state;
    the file system, the text log and the wall clock are explicit state that
    every method threads through the monad [M]. *)

From stdpp Require Import gmap strings list fin_maps pretty.
From Stdlib Require Import ZArith QArith.
Local Open Scope string_scope.
Local Open Scope Z_scope.
Set Warnings "-register-all".

(** ** Python values *)

(** The values that travel through result dictionaries and JSON log records.
    A [dict] keeps its insertion order, so it is an association list. *)
Inductive value : Type :=
| VNone
| VBool (b : bool)
| VInt (n : Z)
| VFloat (q : Q)
| VStr (s : string)
| VList (l : list value)
| VDict (d : list (string * value)).

(** [type(v).__name__]. *)
Definition type_name (v : value) : string :=
  match v with
  | VNone => "NoneType"
  | VBool _ => "bool"
  | VInt _ => "int"
  | VFloat _ => "float"
  | VStr _ => "str"
  | VList _ => "list"
  | VDict _ => "dict"
  end.

(** [Optional[str]] arguments. *)
Definition opt_str (o : option string) : value :=
  match o with
  | Some s => VStr s
  | None => VNone
  end.

(** Truthiness of an [Optional[str]]: [None] and the empty string are falsy. *)
Definition truthy (o : option string) : bool :=
  match o with
  | Some s => negb (String.eqb s EmptyString)
  | None => false
  end.

(** [d[k] = v] on an insertion-ordered dict: replaces in place, or appends. *)
Fixpoint dict_set {A : Type} (d : list (string * A)) (k : string) (v : A)
  : list (string * A) :=
  match d with
  | [] => [(k, v)]
  | (k', v') :: d' =>
      if String.eqb k' k then (k', v) :: d' else (k', v') :: dict_set d' k v
  end.

(** [d.get(k, default)]. *)
Fixpoint dict_get {A : Type} (d : list (string * A)) (k : string) (default : A)
  : A :=
  match d with
  | [] => default
  | (k', v') :: d' => if String.eqb k' k then v' else dict_get d' k default
  end.

Fixpoint dict_lookup {A : Type} (d : list (string * A)) (k : string)
  : option A :=
  match d with
  | [] => None
  | (k', v') :: d' => if String.eqb k' k then Some v' else dict_lookup d' k
  end.

(** Field access on a record-shaped value ([None] when absent). *)
Definition field (k : string) (v : value) : option value :=
  match v with
  | VDict d => dict_lookup d k
  | _ => None
  end.

(** [s[:n]] and [len(s)] on strings. *)
Fixpoint str_take (n : nat) (s : string) : string :=
  match n, s with
  | O, _ => EmptyString
  | S n', String c s' => String c (str_take n' s')
  | S _, EmptyString => EmptyString
  end.

Definition len (s : string) : Z := Z.of_nat (String.length s).

(** [s.endswith(suffix)]. *)
Definition endswith (s suffix : string) : bool :=
  let n := String.length s in
  let k := String.length suffix in
  (k <=? n)%nat && String.eqb (String.substring (n - k) k s) suffix.

(** ** Wall clock *)

Record datetime : Type := Datetime {
  year : nat; month : nat; day : nat;
  hour : nat; minute : nat; second : nat; microsecond : nat
}.

Fixpoint zeros (n : nat) : string :=
  match n with
  | O => EmptyString
  | S n' => "0" ++ zeros n'
  end.

(** Decimal rendering, left-padded with zeros to [width] digits. *)
Definition pad (width : nat) (n : nat) : string :=
  let s := pretty (N.of_nat n) in
  zeros (width - String.length s) ++ s.

(** [strftime('%Y-%m-%d')]. *)
Definition strftime_Ymd (d : datetime) : string :=
  pad 4 (year d) ++ "-" ++ pad 2 (month d) ++ "-" ++ pad 2 (day d).

(** [isoformat()]: the fraction is printed only when it is not zero. *)
Definition isoformat (d : datetime) : string :=
  strftime_Ymd d ++ "T" ++ pad 2 (hour d) ++ ":" ++ pad 2 (minute d) ++ ":"
    ++ pad 2 (second d)
    ++ (if Nat.eqb (microsecond d) 0 then EmptyString else "." ++ pad 6 (microsecond d)).

(** [f"{price:.2f}"], with the float taken as the rational it denotes:
    rounded to the nearest hundredth, ties to even. *)
Definition format_2f (q : Q) : string :=
  let n := Z.abs (Qnum q) * 100 in
  let d := Z.pos (Qden q) in
  let c := n / d in
  let r := n mod d in
  let c := if (d <? 2 * r)%Z then c + 1
           else if (2 * r =? d) && Z.odd c then c + 1 else c in
  (if (Qnum q <? 0)%Z then "-" else EmptyString)
    ++ pretty (c / 100) ++ "." ++ pad 2 (Z.to_nat (c mod 100)).

(** ** Files, text log and the state of the world *)

(** A file of the log directory, up to JSON decoding: [json.load] either
    raises [JSONDecodeError] or returns the value the text denotes, and
    [json.dump] writes a text that denotes the value it is given. *)
Inductive file_content : Type :=
| Invalid (raw : string)
| Json (v : value).

Inductive level : Type := INFO | ERROR.

(** One line of [app.log]: the [levelname] and [message] parts of the
    handler's format. *)
Record log_line : Type := LogLine { levelname : level; message : string }.

(** What the gateway sends out: one constructor per SDK resource call, and
    one for the raw HTTP GET. *)
Inductive request : Type :=
| AvailableLocalList (country_code : string) (limit : Z)
                     (params : list (string * string))
| IncomingCreate (kwargs : list (string * string))
| IncomingList (account_sid : string)
| IncomingFetch (sid : string)
| IncomingDelete (sid : string)
| IncomingUpdate (sid : string) (kwargs : list (string * string))
| CallsCreate (kwargs : list (string * string))
| CallsList (limit : Z)
| MessagesCreate (to from_ body : string)
| MessagesList (limit : Z)
| AccountFetch (sid : string)
| AccountsList
| AccountsCreate (friendly_name : string)
| HttpGet (url : string) (params : list (string * value))
          (auth : string * string).

(** The exceptions that occur, each with its text. [TwilioException] is the
    SDK base class raised as such: it is what the SDK raises when a page of
    a listing is refused, and a handler for its subclass
    [TwilioRestException] does not catch it. [TypeError] is what Python
    raises when a call passes a keyword the callee does not have. *)
Inductive exn : Type :=
| TwilioRestException (str : string)
| TwilioException (str : string)
| RequestException (str : string)
| AttributeError (str : string)
| TypeError (str : string).

Inductive outcome (A : Type) : Type :=
| Return (a : A)
| Raise (e : exn).
Arguments Return {A} a.
Arguments Raise {A} e.

Section Model.

(** The provider's hidden state. *)
Context {P : Type}.

Record world : Type := World {
  provider : P;
  sent : list request;
  fs : gmap string file_content;
  app_log : list log_line;
  clock : nat -> datetime;
  tick : nat
}.

(** Computations that read and write the world and may raise. *)
Definition M (A : Type) : Type := world -> outcome A * world.

Definition ret {A : Type} (a : A) : M A := fun w => (Return a, w).

Definition raise {A : Type} (e : exn) : M A := fun w => (Raise e, w).

Definition bind {A B : Type} (m : M A) (k : A -> M B) : M B :=
  fun w =>
    match m w with
    | (Return a, w') => k a w'
    | (Raise e, w') => (Raise e, w')
    end.

(** [try: body / except TwilioRestException as e: handler(str(e))]. *)
Definition try_except {A : Type} (body : M A) (handler : string -> M A) : M A :=
  fun w =>
    match body w with
    | (Raise (TwilioRestException e), w') => handler e w'
    | r => r
    end.

End Model.

Arguments world P : clear implicits.
Arguments M P A : clear implicits.

Notation "'let!' x ':=' m 'in' k" := (bind m (fun x => k))
  (at level 10, x name, m at level 100, k at level 200).
Notation "'do!' m 'in' k" := (bind m (fun _ => k))
  (at level 10, m at level 100, k at level 200).

(** ** The file logger ([file_logger.py]) *)

Module FileLogger.
Section Logger.

Context {P : Type}.

(** The attributes of the logger object, fixed when it is constructed. *)
Record t : Type := Make { enabled : bool; log_path : string }.

Variable self : t.

(** [datetime.datetime.now()]: each read advances the clock. *)
Definition now : M P datetime :=
  fun w =>
    (Return (clock w (tick w)),
     World (provider w) (sent w) (fs w) (app_log w) (clock w) (S (tick w))).

(** [os.path.join(a, b)] for a relative [b]. *)
Definition path_join (a b : string) : string :=
  if String.eqb a EmptyString then b
  else if endswith a "/" then a ++ b else a ++ "/" ++ b.

Definition _get_log_file_path (log_type : string) : M P string :=
  let! today := now in
  ret (path_join (log_path self) (log_type ++ "_" ++ strftime_Ymd today ++ ".json")).

(** [os.path.exists] followed by [json.load] under
    [except json.JSONDecodeError]. *)
Definition read_logs (log_file : string) : M P value :=
  fun w =>
    match fs w !! log_file with
    | None => (Return (VList []), w)
    | Some (Invalid _) => (Return (VList []), w)
    | Some (Json v) => (Return v, w)
    end.

(** [logs.append(data)]: only a list has the method. *)
Definition append (logs : value) (data : value) : M P value :=
  match logs with
  | VList l => ret (VList (l ++ [data]))
  | _ =>
      raise (AttributeError
               ("'" ++ type_name logs ++ "' object has no attribute 'append'"))
  end.

(** [open(log_file, 'w')] and [json.dump]. *)
Definition write_logs (log_file : string) (logs : value) : M P unit :=
  fun w =>
    (Return tt,
     World (provider w) (sent w) (<[log_file := Json logs]> (fs w))
           (app_log w) (clock w) (tick w)).

Definition _write_json_log (log_type : string) (data : list (string * value))
  : M P unit :=
  if negb (enabled self) then ret tt
  else
    let! stamp := now in
    let data := dict_set data "timestamp" (VStr (isoformat stamp)) in
    let! log_file := _get_log_file_path log_type in
    let! logs := read_logs log_file in
    let! logs := append logs (VDict data) in
    write_logs log_file logs.

(** [self.logger.info] and [self.logger.error]. *)
Definition emit (lv : level) (msg : string) : M P unit :=
  fun w =>
    (Return tt,
     World (provider w) (sent w) (fs w) (app_log w ++ [LogLine lv msg])
           (clock w) (tick w)).

Definition mirror (log_msg : string) (error : option string) : M P unit :=
  if truthy error
  then emit ERROR (log_msg ++ " - Error: " ++ default EmptyString error)
  else emit INFO log_msg.

Definition log_call (from_number to_number status : string)
    (sid : option string) (duration : option Z) (error : option string)
  : M P unit :=
  let data :=
    [("from", VStr from_number); ("to", VStr to_number);
     ("status", VStr status); ("sid", opt_str sid);
     ("duration", from_option VInt VNone duration);
     ("error", opt_str error)] in
  do! _write_json_log "call" data in
  if enabled self then
    let log_msg := "Call from " ++ from_number ++ " to " ++ to_number ++ ": " ++ status in
    mirror log_msg error
  else ret tt.

(** [if body and len(body) > 100: body = body[:97] + '...']. *)
Definition truncated (body : option string) : option string :=
  match body with
  | Some b =>
      if negb (String.eqb b EmptyString) && (100 <? len b)%Z
      then Some (str_take 97 b ++ "...")
      else Some b
  | None => None
  end.

Definition log_message (from_number to_number status : string)
    (body : option string) (sid : option string) (error : option string)
  : M P unit :=
  let body := truncated body in
  let data :=
    [("from", VStr from_number); ("to", VStr to_number);
     ("status", VStr status); ("body", opt_str body);
     ("sid", opt_str sid); ("error", opt_str error)] in
  do! _write_json_log "message" data in
  if enabled self then
    let log_msg := "Message from " ++ from_number ++ " to " ++ to_number ++ ": " ++ status in
    mirror log_msg error
  else ret tt.

Definition log_purchase (phone_number status : string) (price : option Q)
    (sid : option string) (error : option string) : M P unit :=
  let data :=
    [("phone_number", VStr phone_number); ("status", VStr status);
     ("price", from_option VFloat VNone price); ("sid", opt_str sid);
     ("error", opt_str error)] in
  do! _write_json_log "purchase" data in
  if enabled self then
    let log_msg := "Purchase of " ++ phone_number ++ ": " ++ status in
    let log_msg :=
      match price with
      | Some p => log_msg ++ " ($" ++ format_2f p ++ ")"
      | None => log_msg
      end in
    mirror log_msg error
  else ret tt.

Definition log_error (error_type message : string)
    (details : option (list (string * value))) : M P unit :=
  let data :=
    [("type", VStr error_type); ("message", VStr message);
     ("details", VDict (default [] details))] in
  do! _write_json_log "error" data in
  if enabled self then emit ERROR (error_type ++ ": " ++ message)
  else ret tt.

End Logger.
End FileLogger.

(** ** The provider *)

(** The attributes the gateway reads from the SDK's resource objects. Where
    the gateway takes [str(x.date_created)], the field holds that text. *)
Record AvailableNumber : Type := {
  an_phone_number : value; an_friendly_name : value; an_locality : value;
  an_region : value; an_postal_code : value; an_iso_country : value;
  an_capabilities : list (string * value)
}.

Record IncomingNumber : Type := {
  in_sid : string; in_phone_number : string; in_friendly_name : value;
  in_date_created : string; in_capabilities : value;
  in_voice_url : value; in_sms_url : value;
  in_voice_method : value; in_sms_method : value;
  in_status_callback : value; in_status_callback_method : value
}.

Record Call : Type := {
  call_sid : string; call_from_ : value; call_to : value;
  call_status : string; call_direction : value; call_duration : value;
  call_price : value; call_date_created : string
}.

Record Message : Type := {
  msg_sid : string; msg_from_ : value; msg_to : value; msg_body : value;
  msg_status : string; msg_direction : value; msg_price : value;
  msg_date_created : string
}.

Record Account : Type := {
  acc_sid : value; acc_friendly_name : value; acc_status : value;
  acc_type : value; acc_date_created : string; acc_date_updated : string
}.

(** [requests.Response]: [json()] may itself raise. *)
Record Response : Type := {
  status_code : Z; text : string; json : outcome value
}.

(** The SDK client and [requests.get], as functions of the provider's hidden
    state: each call returns a resource or raises, and steps that state. *)
Record Client (P : Type) : Type := {
  available_phone_numbers_local_list :
    string -> Z -> list (string * string) -> P -> outcome (list AvailableNumber) * P;
  incoming_phone_numbers_create :
    list (string * string) -> P -> outcome IncomingNumber * P;
  incoming_phone_numbers_list : string -> P -> outcome (list IncomingNumber) * P;
  incoming_phone_numbers_fetch : string -> P -> outcome IncomingNumber * P;
  incoming_phone_numbers_delete : string -> P -> outcome bool * P;
  incoming_phone_numbers_update :
    string -> list (string * string) -> P -> outcome IncomingNumber * P;
  calls_create : list (string * string) -> P -> outcome Call * P;
  calls_list : Z -> P -> outcome (list Call) * P;
  messages_create : string -> string -> string -> P -> outcome Message * P;
  messages_list : Z -> P -> outcome (list Message) * P;
  accounts_fetch : string -> P -> outcome Account * P;
  accounts_list : P -> outcome (list Account) * P;
  accounts_create : string -> P -> outcome Account * P;
  requests_get :
    string -> list (string * value) -> string * string -> P -> outcome Response * P
}.
Arguments available_phone_numbers_local_list {P} _.
Arguments incoming_phone_numbers_create {P} _.
Arguments incoming_phone_numbers_list {P} _.
Arguments incoming_phone_numbers_fetch {P} _.
Arguments incoming_phone_numbers_delete {P} _.
Arguments incoming_phone_numbers_update {P} _.
Arguments calls_create {P} _.
Arguments calls_list {P} _.
Arguments messages_create {P} _.
Arguments messages_list {P} _.
Arguments accounts_fetch {P} _.
Arguments accounts_list {P} _.
Arguments accounts_create {P} _.
Arguments requests_get {P} _.

(** Issue one request: it is recorded as sent, and the provider answers. *)
Definition call_api {P A : Type} (r : request) (f : P -> outcome A * P)
  : M P A :=
  fun w =>
    let (o, p') := f (provider w) in
    (o, World p' (sent w ++ [r]) (fs w) (app_log w) (clock w) (tick w)).

(** ** The gateway ([twilio_gateway.py]) *)

Module TwilioGateway.
Section Gateway.

Context {P : Type}.

(** The attributes of the gateway object. *)
Record t : Type := Make {
  account_sid : string; auth_token : string; active_sid : string
}.

(** [self.client], the global [file_logger] and [self]. *)
Variable client : Client P.
Variable file_logger : FileLogger.t.
Variable self : t.

(** [if x: params[k] = v]. *)
Definition when {A : Type} (b : bool) (k : string) (v : A)
  : list (string * A) :=
  if b then [(k, v)] else [].

(** [if x is not None: kwargs[k] = x]. *)
Definition when_given (k : string) (o : option string)
  : list (string * string) :=
  match o with
  | Some v => [(k, v)]
  | None => []
  end.

Definition search_params (area_code contains : option string)
    (sms_enabled voice_enabled : bool) : list (string * string) :=
  (when (truthy area_code) "AreaCode" (default EmptyString area_code)
   ++ when (truthy contains) "Contains" (default EmptyString contains)
   ++ when sms_enabled "SmsEnabled" "true"
   ++ when voice_enabled "VoiceEnabled" "true")%list.

Definition available_number_dict (number : AvailableNumber) : value :=
  VDict
    [("phone_number", an_phone_number number);
     ("friendly_name", an_friendly_name number);
     ("locality", an_locality number);
     ("region", an_region number);
     ("postal_code", an_postal_code number);
     ("iso_country", an_iso_country number);
     ("capabilities",
      VDict
        [("voice", dict_get (an_capabilities number) "voice" (VBool false));
         ("sms", dict_get (an_capabilities number) "sms" (VBool false));
         ("mms", dict_get (an_capabilities number) "mms" (VBool false))])].

Definition search_phone_numbers (country_code : string)
    (area_code contains : option string) (sms_enabled voice_enabled : bool)
    (limit : Z) : M P (list value * bool) :=
  try_except
    (let params := search_params area_code contains sms_enabled voice_enabled in
     let! numbers :=
       call_api (AvailableLocalList country_code limit params)
         (available_phone_numbers_local_list client country_code limit params) in
     let results := map available_number_dict numbers in
     let has_more := (limit <=? Z.of_nat (length numbers)) in
     ret (results, has_more))
    (fun e =>
       do! FileLogger.log_error file_logger "twilio_search"
             ("Error searching for phone numbers: " ++ e) None in
       ret ([], false)).

Definition raw_search_url (country_code : string) : string :=
  "https://api.twilio.com/2010-04-01/Accounts/" ++ active_sid self
    ++ "/AvailablePhoneNumbers/" ++ country_code ++ "/Local.json".

Definition search_phone_numbers_raw (country_code : string)
    (params : list (string * value)) : M P value :=
  let url := raw_search_url country_code in
  let auth := (account_sid self, auth_token self) in
  let! response :=
    call_api (HttpGet url params auth) (requests_get client url params auth) in
  if (status_code response =? 200) then
    match json response with
    | Return v => ret v
    | Raise e => raise e
    end
  else
    let error_msg :=
      "Error " ++ pretty (status_code response) ++ ": " ++ text response in
    do! FileLogger.log_error file_logger "twilio_search_raw" error_msg None in
    ret (VDict [("available_phone_numbers", VList [])]).

Definition purchase_kwargs (phone_number : string)
    (friendly_name : option string) : list (string * string) :=
  ([("phone_number", phone_number); ("account_sid", active_sid self)]
   ++ when (truthy friendly_name) "friendly_name" (default EmptyString friendly_name))%list.

Definition purchase_phone_number (phone_number : string)
    (friendly_name : option string) : M P value :=
  try_except
    (let kwargs := purchase_kwargs phone_number friendly_name in
     let! incoming_number :=
       call_api (IncomingCreate kwargs)
         (incoming_phone_numbers_create client kwargs) in
     let result :=
       VDict
         [("success", VBool true);
          ("sid", VStr (in_sid incoming_number));
          ("phone_number", VStr (in_phone_number incoming_number));
          ("friendly_name", in_friendly_name incoming_number);
          ("date_created", VStr (in_date_created incoming_number));
          ("capabilities", in_capabilities incoming_number)] in
     do! FileLogger.log_purchase file_logger
           (in_phone_number incoming_number) "purchased" None
           (Some (in_sid incoming_number)) None in
     ret result)
    (fun e =>
       let error_msg := "Error purchasing phone number: " ++ e in
       do! FileLogger.log_purchase file_logger phone_number "failed" None None
             (Some error_msg) in
       ret (VDict
              [("success", VBool false);
               ("error", VStr error_msg);
               ("phone_number", VStr phone_number)])).

Definition incoming_number_dict (number : IncomingNumber) : value :=
  VDict
    [("sid", VStr (in_sid number));
     ("phone_number", VStr (in_phone_number number));
     ("friendly_name", in_friendly_name number);
     ("date_created", VStr (in_date_created number));
     ("capabilities", in_capabilities number);
     ("voice_url", in_voice_url number);
     ("sms_url", in_sms_url number);
     ("voice_method", in_voice_method number);
     ("sms_method", in_sms_method number);
     ("status_callback", in_status_callback number);
     ("status_callback_method", in_status_callback_method number)].

Definition get_account_phone_numbers : M P (list value) :=
  try_except
    (let! numbers :=
       call_api (IncomingList (active_sid self))
         (incoming_phone_numbers_list client (active_sid self)) in
     ret (map incoming_number_dict numbers))
    (fun e =>
       do! FileLogger.log_error file_logger "twilio_get_numbers"
             ("Error getting phone numbers: " ++ e) None in
       ret []).

Definition release_phone_number (sid : string) : M P bool :=
  try_except
    (let! number :=
       call_api (IncomingFetch sid) (incoming_phone_numbers_fetch client sid) in
     let phone_number := in_phone_number number in
     do! call_api (IncomingDelete sid) (incoming_phone_numbers_delete client sid) in
     do! FileLogger.log_purchase file_logger phone_number "released" None
           (Some sid) None in
     ret true)
    (fun e =>
       let error_msg := "Error releasing phone number: " ++ e in
       do! FileLogger.log_error file_logger "twilio_release" error_msg None in
       ret false).

Definition update_kwargs
    (friendly_name sms_url sms_method voice_url voice_method : option string)
  : list (string * string) :=
  (when_given "friendly_name" friendly_name
   ++ when_given "sms_url" sms_url
   ++ when_given "sms_method" sms_method
   ++ when_given "voice_url" voice_url
   ++ when_given "voice_method" voice_method)%list.

Definition update_phone_number (sid : string)
    (friendly_name sms_url sms_method voice_url voice_method : option string)
  : M P value :=
  try_except
    (let kwargs :=
       update_kwargs friendly_name sms_url sms_method voice_url voice_method in
     let! number :=
       call_api (IncomingUpdate sid kwargs)
         (incoming_phone_numbers_update client sid kwargs) in
     ret (VDict
            [("success", VBool true);
             ("sid", VStr (in_sid number));
             ("phone_number", VStr (in_phone_number number));
             ("friendly_name", in_friendly_name number);
             ("voice_url", in_voice_url number);
             ("sms_url", in_sms_url number);
             ("voice_method", in_voice_method number);
             ("sms_method", in_sms_method number)]))
    (fun e =>
       let error_msg := "Error updating phone number: " ++ e in
       do! FileLogger.log_error file_logger "twilio_update" error_msg None in
       ret (VDict
              [("success", VBool false);
               ("error", VStr error_msg);
               ("sid", VStr sid)])).

Definition make_call_kwargs (from_number to_number : string)
    (url twiml : option string) : list (string * string) :=
  let kwargs := [("to", to_number); ("from_", from_number)] in
  if truthy url then dict_set kwargs "url" (default EmptyString url)
  else if truthy twiml then dict_set kwargs "twiml" (default EmptyString twiml)
  else kwargs.

Definition make_call (from_number to_number : string)
    (url twiml : option string) : M P value :=
  try_except
    (let kwargs := make_call_kwargs from_number to_number url twiml in
     let! call := call_api (CallsCreate kwargs) (calls_create client kwargs) in
     do! FileLogger.log_call file_logger from_number to_number
           (call_status call) (Some (call_sid call)) None None in
     ret (VDict
            [("success", VBool true);
             ("sid", VStr (call_sid call));
             ("status", VStr (call_status call));
             ("from", VStr from_number);
             ("to", VStr to_number);
             ("direction", call_direction call);
             ("date_created", VStr (call_date_created call))]))
    (fun e =>
       let error_msg := "Error making call: " ++ e in
       do! FileLogger.log_call file_logger from_number to_number "failed"
             None None (Some error_msg) in
       ret (VDict
              [("success", VBool false);
               ("error", VStr error_msg);
               ("from", VStr from_number);
               ("to", VStr to_number)])).

Definition send_message (from_number to_number body : string) : M P value :=
  try_except
    (let! message :=
       call_api (MessagesCreate to_number from_number body)
         (messages_create client to_number from_number body) in
     do! FileLogger.log_message file_logger from_number to_number
           (msg_status message) (Some body) (Some (msg_sid message)) None in
     ret (VDict
            [("success", VBool true);
             ("sid", VStr (msg_sid message));
             ("status", VStr (msg_status message));
             ("from", VStr from_number);
             ("to", VStr to_number);
             ("body", VStr body);
             ("date_created", VStr (msg_date_created message))]))
    (fun e =>
       let error_msg := "Error sending message: " ++ e in
       do! FileLogger.log_message file_logger from_number to_number "failed"
             (Some body) None (Some error_msg) in
       ret (VDict
              [("success", VBool false);
               ("error", VStr error_msg);
               ("from", VStr from_number);
               ("to", VStr to_number);
               ("body", VStr body)])).

Definition call_dict (call : Call) : value :=
  VDict
    [("sid", VStr (call_sid call));
     ("from", call_from_ call);
     ("to", call_to call);
     ("status", VStr (call_status call));
     ("direction", call_direction call);
     ("duration", call_duration call);
     ("price", call_price call);
     ("date_created", VStr (call_date_created call))].

Definition get_call_logs (limit : Z) : M P (list value) :=
  try_except
    (let! calls := call_api (CallsList limit) (calls_list client limit) in
     ret (map call_dict calls))
    (fun e =>
       do! FileLogger.log_error file_logger "twilio_call_logs"
             ("Error getting call logs: " ++ e) None in
       ret []).

Definition message_dict (message : Message) : value :=
  VDict
    [("sid", VStr (msg_sid message));
     ("from", msg_from_ message);
     ("to", msg_to message);
     ("body", msg_body message);
     ("status", VStr (msg_status message));
     ("direction", msg_direction message);
     ("price", msg_price message);
     ("date_created", VStr (msg_date_created message))].

Definition get_message_logs (limit : Z) : M P (list value) :=
  try_except
    (let! messages := call_api (MessagesList limit) (messages_list client limit) in
     ret (map message_dict messages))
    (fun e =>
       do! FileLogger.log_error file_logger "twilio_message_logs"
             ("Error getting message logs: " ++ e) None in
       ret []).

Definition get_account_info : M P value :=
  try_except
    (let! account :=
       call_api (AccountFetch (active_sid self))
         (accounts_fetch client (active_sid self)) in
     ret (VDict
            [("sid", acc_sid account);
             ("friendly_name", acc_friendly_name account);
             ("status", acc_status account);
             ("type", acc_type account);
             ("date_created", VStr (acc_date_created account));
             ("date_updated", VStr (acc_date_updated account))]))
    (fun e =>
       do! FileLogger.log_error file_logger "twilio_account_info"
             ("Error getting account info: " ++ e) None in
       ret (VDict [("error", VStr e)])).

Definition subaccount_dict (account : Account) : value :=
  VDict
    [("sid", acc_sid account);
     ("friendly_name", acc_friendly_name account);
     ("status", acc_status account);
     ("type", acc_type account);
     ("date_created", VStr (acc_date_created account))].

Definition get_subaccounts : M P (list value) :=
  try_except
    (if String.eqb (active_sid self) (account_sid self) then
       let! accounts := call_api AccountsList (accounts_list client) in
       ret (map subaccount_dict accounts)
     else ret [])
    (fun e =>
       do! FileLogger.log_error file_logger "twilio_subaccounts"
             ("Error getting subaccounts: " ++ e) None in
       ret []).

Definition create_subaccount (friendly_name : string) : M P value :=
  try_except
    (let! account :=
       call_api (AccountsCreate friendly_name)
         (accounts_create client friendly_name) in
     ret (VDict
            [("success", VBool true);
             ("sid", acc_sid account);
             ("friendly_name", acc_friendly_name account);
             ("status", acc_status account);
             ("date_created", VStr (acc_date_created account))]))
    (fun e =>
       let error_msg := "Error creating subaccount: " ++ e in
       do! FileLogger.log_error file_logger "twilio_create_subaccount"
             error_msg None in
       ret (VDict [("success", VBool false); ("error", VStr error_msg)])).

End Gateway.
End TwilioGateway.

(** ** What is observed of a run *)

Section Observations.

Context {P : Type}.
Variable lg : FileLogger.t.

(** The day file a write of category [log_type] started in [w] goes to: the
    record is stamped at the first clock read, the file is named at the
    second. *)
Definition log_file_of (log_type : string) (w : world P) : string :=
  FileLogger.path_join (FileLogger.log_path lg)
    (log_type ++ "_" ++ strftime_Ymd (clock w (S (tick w))) ++ ".json").

Definition stamp_of (w : world P) : value :=
  VStr (isoformat (clock w (tick w))).

(** The records a file holds: none when it is missing or does not decode. *)
Definition entries (c : option file_content) : list value :=
  match c with
  | Some (Json (VList l)) => l
  | _ => []
  end.

(** A file [logs.append] works on: missing, undecodable, or a JSON array. *)
Definition appendable (c : option file_content) : bool :=
  match c with
  | None | Some (Invalid _) | Some (Json (VList _)) => true
  | Some (Json _) => false
  end.

(** The number of records in all the files of the log directory. *)
Definition record_count (files : gmap string file_content) : nat :=
  map_fold (fun _ c n => (length (entries (Some c)) + n)%nat) O files.

(** The world after one write of [data] to category [log_type]. *)
Definition written (log_type : string) (data : list (string * value))
    (w : world P) : world P :=
  let path := log_file_of log_type w in
  let rec := VDict (dict_set data "timestamp" (stamp_of w)) in
  World (provider w) (sent w)
    (<[path := Json (VList (entries (fs w !! path) ++ [rec]))]> (fs w))
    (app_log w) (clock w) (S (S (tick w))).

(** The world after one line of the text log. *)
Definition emitted (lv : level) (msg : string) (w : world P) : world P :=
  World (provider w) (sent w) (fs w) (app_log w ++ [LogLine lv msg])
    (clock w) (tick w).

(** The world after the text-log line of a structured call. *)
Definition mirrored (log_msg : string) (error : option string)
    (w : world P) : world P :=
  if truthy error
  then emitted ERROR (log_msg ++ " - Error: " ++ default EmptyString error) w
  else emitted INFO log_msg w.

Definition error_fields (error_type message : string) : list (string * value) :=
  [("type", VStr error_type); ("message", VStr message); ("details", VDict [])].

Definition purchase_fields (phone_number status : string)
    (sid error : option string) : list (string * value) :=
  [("phone_number", VStr phone_number); ("status", VStr status);
   ("price", VNone); ("sid", opt_str sid); ("error", opt_str error)].

Definition call_fields (from_number to_number status : string)
    (sid error : option string) : list (string * value) :=
  [("from", VStr from_number); ("to", VStr to_number); ("status", VStr status);
   ("sid", opt_str sid); ("duration", VNone); ("error", opt_str error)].

Definition message_fields (from_number to_number status : string)
    (body sid error : option string) : list (string * value) :=
  [("from", VStr from_number); ("to", VStr to_number); ("status", VStr status);
   ("body", opt_str body); ("sid", opt_str sid); ("error", opt_str error)].

(** The world after request [r] was sent and the provider moved to [p']. *)
Definition called (r : request) (p' : P) (w : world P) : world P :=
  World p' (sent w ++ [r]) (fs w) (app_log w) (clock w) (tick w).

(** A file rewritten with one more record. *)
Definition appended (path : string) (rec : value)
    (files : gmap string file_content) : gmap string file_content :=
  <[path := Json (VList (entries (files !! path) ++ [rec]))]> files.

Definition error_logged (error_type message : string) (w : world P) : world P :=
  emitted ERROR (error_type ++ ": " ++ message)
    (written "error" (error_fields error_type message) w).

Definition same_traffic (w w' : world P) : Prop :=
  sent w' = sent w /\ provider w' = provider w.

(** A logging call returns, or raises what [logs.append] raises. *)
Definition logger_outcome (o : outcome unit) : Prop :=
  o = Return tt \/ exists msg, o = Raise (AttributeError msg).

(** The method came back to its caller with a value. *)
Definition returned {A : Type} (r : outcome A * world P) : Prop :=
  exists a, fst r = Return a.

(** The provider answered, or rejected the request. *)
Definition handled {A : Type} (o : outcome A) : bool :=
  match o with
  | Return _ | Raise (TwilioRestException _) => true
  | Raise _ => false
  end.

Definition answered {A : Type} (o : outcome A) : bool :=
  match o with
  | Return _ => true
  | Raise _ => false
  end.

(** Between [w] and [w'] exactly one record went to the day file of
    [log_type], and no other file changed. *)
Definition wrote_one (log_type : string) (w w' : world P) : Prop :=
  exists rec,
    fs w' = appended (log_file_of log_type w) rec (fs w)
    /\ record_count (fs w') = S (record_count (fs w)).

Definition wrote_none (w w' : world P) : Prop := fs w' = fs w.

(** The invocation returned and wrote exactly one record, of category
    [log_type]. *)
Definition one_record {A : Type} (log_type : string) (w : world P)
    (r : outcome A * world P) : Prop :=
  returned r /\ wrote_one log_type w (snd r).

(** The invocation returned and wrote no record. *)
Definition no_record {A : Type} (w : world P) (r : outcome A * world P) : Prop :=
  returned r /\ wrote_none w (snd r).

End Observations.

(** ** A small provider to run the gateway on *)

Module Demo.

(** The account owns numbers (SID and phone number), the provider has numbers
    in stock, and the network is up or down. *)
Record state : Type := State {
  owned : list (string * string);
  stock : list string;
  offline : bool
}.

Definition not_found (sid : string) : exn :=
  TwilioRestException
    ("HTTP 404 error: The requested resource " ++ sid ++ " was not found").

Definition available (phone : string) : AvailableNumber :=
  {| an_phone_number := VStr phone; an_friendly_name := VStr phone;
     an_locality := VNone; an_region := VStr "CA"; an_postal_code := VNone;
     an_iso_country := VStr "US";
     an_capabilities := [("voice", VBool true); ("sms", VBool true)] |}.

Definition incoming (sid phone : string) : IncomingNumber :=
  {| in_sid := sid; in_phone_number := phone; in_friendly_name := VStr phone;
     in_date_created := "2026-11-04 09:58:00+00:00";
     in_capabilities := VDict [("voice", VBool true); ("sms", VBool true)];
     in_voice_url := VNone; in_sms_url := VNone;
     in_voice_method := VStr "POST"; in_sms_method := VStr "POST";
     in_status_callback := VNone; in_status_callback_method := VStr "POST" |}.

Definition has (phone : string) (l : list string) : bool :=
  existsb (String.eqb phone) l.

Definition owns (phone : string) (s : state) : bool :=
  existsb (fun n => String.eqb phone (snd n)) (owned s).

(** A positive limit caps the page; a limit of zero lists everything. *)
Definition page {A : Type} (limit : Z) (l : list A) : list A :=
  if (0 <? limit) then take (Z.to_nat limit) l else l.

Definition account (sid : string) : Account :=
  {| acc_sid := VStr sid; acc_friendly_name := VStr "Main";
     acc_status := VStr "active"; acc_type := VStr "Full";
     acc_date_created := "2026-01-01 00:00:00+00:00";
     acc_date_updated := "2026-01-01 00:00:00+00:00" |}.

(** The keywords of the SDK methods that the gateway calls with keywords of
    its own choice: those of [LocalList.list] besides [limit], and those of
    [IncomingPhoneNumberList.create]. A call that names another keyword
    does not reach the method body: Python raises [TypeError] for the first
    such keyword. [IncomingPhoneNumberList.list] has no keyword
    [account_sid] either. *)
Definition local_list_keywords : list string :=
  ["area_code"; "contains"; "sms_enabled"; "mms_enabled"; "voice_enabled";
   "exclude_all_address_required"; "exclude_local_address_required";
   "exclude_foreign_address_required"; "beta"; "near_number";
   "near_lat_long"; "distance"; "in_postal_code"; "in_region";
   "in_rate_center"; "in_lata"; "in_locality"; "fax_enabled"; "page_size"].

Definition create_keywords : list string :=
  ["api_version"; "friendly_name"; "sms_application_sid";
   "sms_fallback_method"; "sms_fallback_url"; "sms_method"; "sms_url";
   "status_callback"; "status_callback_method"; "voice_application_sid";
   "voice_caller_id_lookup"; "voice_fallback_method"; "voice_fallback_url";
   "voice_method"; "voice_url"; "emergency_status"; "emergency_address_sid";
   "trunk_sid"; "identity_sid"; "address_sid"; "voice_receive_mode";
   "bundle_sid"; "phone_number"; "area_code"].

Fixpoint first_unexpected {A : Type} (keywords : list string)
    (kwargs : list (string * A)) : option string :=
  match kwargs with
  | [] => None
  | (k, _) :: rest =>
      if has k keywords then first_unexpected keywords rest else Some k
  end.

Definition unexpected (method key : string) : exn :=
  TypeError
    (method ++ "() got an unexpected keyword argument '" ++ key ++ "'").

(** What the SDK raises when the provider refuses a page of a listing. *)
Definition page_refused : exn := TwilioException "Unable to fetch page".

(** The SDK over this provider. A listing raises [TwilioException] when its
    page is refused; the calls on one resource raise [TwilioRestException]
    when the provider rejects them. *)
Definition client : Client state := {|
  available_phone_numbers_local_list country_code limit params s :=
    match first_unexpected local_list_keywords params with
    | Some key => (Raise (unexpected "LocalList.list" key), s)
    | None =>
        if String.eqb country_code "US"
        then (Return (page limit (map available (stock s))), s)
        else (Raise page_refused, s)
    end;
  incoming_phone_numbers_create kwargs s :=
    match first_unexpected create_keywords kwargs with
    | Some key => (Raise (unexpected "IncomingPhoneNumberList.create" key), s)
    | None =>
        let phone := dict_get kwargs "phone_number" EmptyString in
        if has phone (stock s)
        then (Return (incoming ("PN" ++ phone) phone),
              State (owned s ++ [("PN" ++ phone, phone)])
                    (filter (fun n => negb (String.eqb phone n)) (stock s))
                    (offline s))
        else (Raise (TwilioRestException
                       ("HTTP 400 error: " ++ phone ++ " is not available")), s)
    end;
  incoming_phone_numbers_list account_sid s :=
    (Raise (unexpected "IncomingPhoneNumberList.list" "account_sid"), s);
  incoming_phone_numbers_fetch sid s :=
    match dict_lookup (owned s) sid with
    | Some phone => (Return (incoming sid phone), s)
    | None => (Raise (not_found sid), s)
    end;
  incoming_phone_numbers_delete sid s :=
    match dict_lookup (owned s) sid with
    | Some phone =>
        (Return true,
         State (filter (fun n => negb (String.eqb sid (fst n))) (owned s))
               (stock s) (offline s))
    | None => (Raise (not_found sid), s)
    end;
  incoming_phone_numbers_update sid kwargs s :=
    match dict_lookup (owned s) sid with
    | Some phone => (Return (incoming sid phone), s)
    | None => (Raise (not_found sid), s)
    end;
  calls_create kwargs s :=
    if owns (dict_get kwargs "from_" EmptyString) s
    then (Return {| call_sid := "CA1"; call_from_ := VNone; call_to := VNone;
                    call_status := "queued";
                    call_direction := VStr "outbound-api";
                    call_duration := VNone; call_price := VNone;
                    call_date_created := "2026-11-04 09:58:00+00:00" |}, s)
    else (Raise (TwilioRestException
                   "HTTP 400 error: The source phone number is not yours"), s);
  calls_list limit s := (Return [], s);
  messages_create to from_ body s :=
    if owns from_ s
    then (Return {| msg_sid := "SM1"; msg_from_ := VStr from_;
                    msg_to := VStr to; msg_body := VStr body;
                    msg_status := "queued";
                    msg_direction := VStr "outbound-api"; msg_price := VNone;
                    msg_date_created := "2026-11-04 09:58:00+00:00" |}, s)
    else (Raise (TwilioRestException
                   "HTTP 400 error: The From phone number is not yours"), s);
  messages_list limit s := (Return [], s);
  accounts_fetch sid s :=
    if String.eqb sid "AC1" then (Return (account sid), s)
    else (Raise (TwilioRestException "HTTP 401 error: Authenticate"), s);
  accounts_list s := (Return [], s);
  accounts_create friendly_name s := (Return (account "AC2"), s);
  requests_get url params auth s :=
    if offline s
    then (Raise (RequestException "Connection refused"), s)
    else (Return {| status_code := 401; text := "Authenticate";
                    json := Return (VDict []) |}, s)
|}.

Definition logger : FileLogger.t := FileLogger.Make true "logs".

Definition gateway : TwilioGateway.t := TwilioGateway.Make "AC1" "secret" "AC1".

(** A gateway whose active account the provider does not know. *)
Definition stranger : TwilioGateway.t := TwilioGateway.Make "AC1" "secret" "AC9".

Definition morning (n : nat) : datetime := Datetime 2026 11 4 9 58 n 0.

(** One number owned, two in stock, an empty log directory. *)
Definition start : world state :=
  World (State [("PN1", "+14155550100")] ["+14155550101"; "+14155550102"] false)
        [] ∅ [] morning O.

(** A message of 110 characters. *)
Definition long_body : string :=
  "Your appointment is confirmed for Thursday at 10:30. Reply YES to keep it, NO to cancel, or call us to rebook.".

Definition with_files (files : gmap string file_content) (w : world state)
  : world state :=
  World (provider w) (sent w) files (app_log w) (clock w) (tick w).

Definition unplugged (w : world state) : world state :=
  World (State (owned (provider w)) (stock (provider w)) true)
        (sent w) (fs w) (app_log w) (clock w) (tick w).

End Demo.

(** ** Strings as Python reads them *)

(** A Python [str] is a string with one element for each character; the
    characters are those with code points 0 to 255, and an element stands
    for the character with its code. *)

(** [str.isspace] on one character: tab to carriage return, the four
    separators, the space, the next-line control (code 133) and the
    no-break space (code 160). *)
Definition isspace (c : Ascii.ascii) : bool :=
  let n := Ascii.nat_of_ascii c in
  ((9 <=? n) && (n <=? 13) || (28 <=? n) && (n <=? 32)
   || (n =? 133) || (n =? 160))%nat.

Fixpoint lstrip_by (p : Ascii.ascii -> bool) (s : string) : string :=
  match s with
  | EmptyString => EmptyString
  | String c s' => if p c then lstrip_by p s' else s
  end.

Fixpoint rstrip_by (p : Ascii.ascii -> bool) (s : string) : string :=
  match s with
  | EmptyString => EmptyString
  | String c s' =>
      let r := rstrip_by p s' in
      if p c && String.eqb r EmptyString then EmptyString else String c r
  end.

(** [s.strip()] and [s.strip(chars)]. *)
Definition strip_by (p : Ascii.ascii -> bool) (s : string) : string :=
  rstrip_by p (lstrip_by p s).

Definition strip (s : string) : string := strip_by isspace s.

(** [s.lower()]: the capital letters are A to Z and, of the codes above
    127, 192 to 222 without the multiplication sign (215); the small letter
    is 32 further. *)
Definition lower_char (c : Ascii.ascii) : Ascii.ascii :=
  let n := Ascii.nat_of_ascii c in
  if ((65 <=? n) && (n <=? 90)
      || (192 <=? n) && (n <=? 222) && negb (n =? 215))%nat
  then Ascii.ascii_of_nat (n + 32) else c.

Fixpoint lower (s : string) : string :=
  match s with
  | EmptyString => EmptyString
  | String c s' => String (lower_char c) (lower s')
  end.

Fixpoint repeat_char (c : Ascii.ascii) (n : nat) : string :=
  match n with
  | O => EmptyString
  | S n' => String c (repeat_char c n')
  end.

(** [s * n] for a one-character [s]: empty when [n] is not positive. *)
Definition times (c : Ascii.ascii) (n : Z) : string :=
  repeat_char c (Z.to_nat n).

Definition space : Ascii.ascii := Ascii.ascii_of_nat 32.

(** [s.ljust(width)]. *)
Definition ljust (s : string) (width : Z) : string :=
  s ++ times space (width - len s).

(** [s.center(width)]: when the padding is odd, the extra space goes to the
    left if the width is odd too, to the right otherwise. *)
Definition center (s : string) (width : Z) : string :=
  let marg := width - len s in
  if (marg <=? 0) then s
  else
    let left := marg / 2 + Z.land (Z.land marg width) 1 in
    times space left ++ s ++ times space (marg - left).

Definition newline : string := String (Ascii.ascii_of_nat 10) EmptyString.

Fixpoint all_chars (p : Ascii.ascii -> bool) (s : string) : bool :=
  match s with
  | EmptyString => true
  | String c s' => p c && all_chars p s'
  end.

(** A string that stripping leaves as it is. *)
Definition trimmed (p : Ascii.ascii -> bool) (s : string) : Prop :=
  lstrip_by p s = s /\ rstrip_by p s = s.

(** ** Configuration ([config.py]) *)

Module Config.

Record TwilioConfig : Type := MakeTwilio {
  account_sid : string;
  auth_token : string;
  subaccount_sid : option string
}.

(** The [active_sid] property. *)
Definition active_sid (c : TwilioConfig) : string :=
  if truthy (subaccount_sid c) then default EmptyString (subaccount_sid c)
  else account_sid c.

Record AppConfig : Type := MakeApp {
  twilio : TwilioConfig;
  log_to_file : bool;
  log_path : option string;
  debug_mode : bool
}.

Definition to_dict (c : AppConfig) : value :=
  VDict
    [("twilio",
      VDict [("account_sid", VStr (account_sid (twilio c)));
             ("auth_token", VStr "***REDACTED***");
             ("subaccount_sid", opt_str (subaccount_sid (twilio c)))]);
     ("log_to_file", VBool (log_to_file c));
     ("log_path", opt_str (log_path c));
     ("debug_mode", VBool (debug_mode c))].

(** The line split once at the equals sign (code 61) and unpacked into two
    names: [None] when there is no such sign and the unpacking raises
    [ValueError]. *)
Fixpoint split_eq (s : string) : option (string * string) :=
  match s with
  | EmptyString => None
  | String c s' =>
      if Ascii.eqb c (Ascii.ascii_of_nat 61) then Some (EmptyString, s')
      else match split_eq s' with
           | Some (k, v) => Some (String c k, v)
           | None => None
           end
  end.

(** The two quote characters that the value is stripped of: codes 34
    and 39. *)
Definition is_quote (c : Ascii.ascii) : bool :=
  Ascii.eqb c (Ascii.ascii_of_nat 34) || Ascii.eqb c (Ascii.ascii_of_nat 39).

Fixpoint has_nul (s : string) : bool :=
  match s with
  | EmptyString => false
  | String c s' => Ascii.eqb c Ascii.zero || has_nul s'
  end.

(** [os.environ[key] = value] on POSIX: an empty name is refused by
    [setenv] ([OSError]), a NUL byte by the conversion ([ValueError]). *)
Definition setenv (key value : string) (environ : gmap string string)
  : string + gmap string string :=
  if has_nul key || has_nul value then inl "embedded null byte"
  else if String.eqb key EmptyString then inl "[Errno 22] Invalid argument"
  else inr (<[key := value]> environ).

(** Whether the line starts a comment (the hash sign, code 35). *)
Definition startswith_hash (s : string) : bool :=
  match s with
  | String c _ => Ascii.eqb c (Ascii.ascii_of_nat 35)
  | EmptyString => false
  end.

(** The loop over the lines of [.env], inside the [try]: the first line that
    raises ends the loop, with the text of the exception. *)
Fixpoint load_lines (lines : list string) (environ : gmap string string)
  : gmap string string * option string :=
  match lines with
  | [] => (environ, None)
  | line :: rest =>
      let line := strip line in
      if negb (String.eqb line EmptyString) && negb (startswith_hash line) then
        match split_eq line with
        | None =>
            (environ, Some "not enough values to unpack (expected 2, got 1)")
        | Some (key, value) =>
            match setenv (strip key) (strip_by is_quote (strip value)) environ with
            | inr environ' => load_lines rest environ'
            | inl e => (environ, Some e)
            end
        end
      else load_lines rest environ
  end.

(** What [load_config] leaves: the configuration or the [ValueError] it
    raises, the process environment, and what it printed. *)
Record loaded : Type := Loaded {
  result : option AppConfig;
  environ_after : gmap string string;
  printed : list string
}.

(** [os.environ.get(name, 'false').lower() == 'true']. *)
Definition flag (name : string) (environ : gmap string string) : bool :=
  String.eqb (lower (default "false" (environ !! name))) "true".

(** [load_config()]: [dotenv] holds the lines of [.env] when the file
    exists. *)
Definition load_config (dotenv : option (list string))
    (environ : gmap string string) : loaded :=
  let (environ, warning) :=
    match dotenv with
    | Some lines => load_lines lines environ
    | None => (environ, None)
    end in
  let printed :=
    match warning with
    | Some e => ["Warning: Error loading .env file: " ++ e]
    | None => []
    end in
  let account_sid := environ !! "TWILIO_ACCOUNT_SID" in
  let auth_token := environ !! "TWILIO_AUTH_TOKEN" in
  if negb (truthy account_sid) || negb (truthy auth_token) then
    Loaded None environ printed
  else
    Loaded
      (Some (MakeApp
               (MakeTwilio (default EmptyString account_sid)
                  (default EmptyString auth_token)
                  (environ !! "TWILIO_SUBACCOUNT_SID"))
               (flag "LOG_TO_FILE" environ)
               (environ !! "LOG_PATH")
               (flag "DEBUG_MODE" environ)))
      environ printed.

(** [switch_subaccount]: the global configuration is changed in place. *)
Definition switch_subaccount (subaccount : option string) (c : AppConfig)
  : AppConfig :=
  MakeApp (MakeTwilio (account_sid (twilio c)) (auth_token (twilio c)) subaccount)
    (log_to_file c) (log_path c) (debug_mode c).

(** [FileLogger.__init__]: the attributes it takes from the configuration. *)
Definition file_logger (c : AppConfig) : FileLogger.t :=
  FileLogger.Make (log_to_file c)
    (if truthy (log_path c) then default EmptyString (log_path c) else "logs").

(** [TwilioGateway.__init__]. *)
Definition gateway (c : AppConfig) : TwilioGateway.t :=
  TwilioGateway.Make (account_sid (twilio c)) (auth_token (twilio c))
    (if truthy (subaccount_sid (twilio c))
     then default EmptyString (subaccount_sid (twilio c))
     else account_sid (twilio c)).

(** [TwilioGateway.refresh_client]: the credentials are the gateway's own,
    the active account is read from the configuration. *)
Definition refresh_client (c : AppConfig) (self : TwilioGateway.t)
  : TwilioGateway.t :=
  TwilioGateway.Make (TwilioGateway.account_sid self)
    (TwilioGateway.auth_token self) (active_sid (twilio c)).

End Config.

(** ** The menu base class ([base_menu.py]) *)

Module Menu.

(** The terminal: the lines the user will type, and what was shown, in
    order. [Input] is the prompt of one [input] call. *)
Inductive event : Type :=
| Clear
| Print (s : string)
| Input (prompt : string).

Record console : Type := Console { stdin : list string; stdout : list event }.

Inductive error : Type := EOFError | IndexError.

Inductive res (A : Type) : Type :=
| Ok (a : A)
| Fail (e : error).
Arguments Ok {A} a.
Arguments Fail {A} e.

Definition IO (A : Type) : Type := console -> res A * console.

Definition print (s : string) : IO unit :=
  fun c => (Ok tt, Console (stdin c) (stdout c ++ [Print s])%list).

(** [input(prompt)]: the prompt is shown, then a line is read; at the end of
    the input it raises [EOFError]. *)
Definition input (prompt : string) : IO string :=
  fun c =>
    let shown := (stdout c ++ [Input prompt])%list in
    match stdin c with
    | [] => (Fail EOFError, Console [] shown)
    | line :: rest => (Ok line, Console rest shown)
    end.

Definition seq {A B : Type} (m : IO A) (k : A -> IO B) : IO B :=
  fun c =>
    match m c with
    | (Ok a, c') => k a c'
    | (Fail e, c') => (Fail e, c')
    end.

Fixpoint print_all (lines : list string) : IO unit :=
  match lines with
  | [] => fun c => (Ok tt, c)
  | l :: rest => seq (print l) (fun _ => print_all rest)
  end.

Definition clear_screen : IO unit :=
  fun c => (Ok tt, Console (stdin c) (stdout c ++ [Clear])%list).

Definition render_header (title : string) : IO unit :=
  seq clear_screen (fun _ =>
  print_all [times (Ascii.ascii_of_nat 61) 60; center title 60;
             times (Ascii.ascii_of_nat 61) 60; EmptyString]).

Definition prompt_for_input (message : string) (default : option string)
  : IO string :=
  if truthy default then
    seq (input (message ++ " [" ++ from_option id EmptyString default ++ "]: "))
      (fun user_input =>
         let user_input := strip user_input in
         fun c =>
           (Ok (if negb (String.eqb user_input EmptyString) then user_input
                else from_option id EmptyString default), c))
  else
    seq (input (message ++ ": ")) (fun user_input c => (Ok (strip user_input), c)).

(** The blanks that [int] passes over around the number: of the characters
    of [isspace], the four separators (codes 28 to 31) are not among
    them. *)
Definition int_blank (c : Ascii.ascii) : bool :=
  let n := Ascii.nat_of_ascii c in
  ((9 <=? n) && (n <=? 13) || (n =? 32) || (n =? 133) || (n =? 160))%nat.

(** The decimal digits are 0 to 9: no character with a code from 128 to 255
    is one. *)
Definition digit_of (c : Ascii.ascii) : option Z :=
  let n := Ascii.nat_of_ascii c in
  if ((48 <=? n) && (n <=? 57))%nat then Some (Z.of_nat (n - 48)) else None.

(** The digits of the number, single underscores between them: the value
    and how many digits there were. *)
Fixpoint digits (acc : Z) (count : nat) (after_digit : bool) (s : string)
  : option (Z * nat) :=
  match s with
  | EmptyString => if after_digit then Some (acc, count) else None
  | String c s' =>
      match digit_of c with
      | Some d => digits (10 * acc + d) (S count) true s'
      | None =>
          if Ascii.eqb c (Ascii.ascii_of_nat 95) && after_digit
          then digits acc count false s'
          else None
      end
  end.

(** [sys.int_info.default_max_str_digits]. *)
Definition max_str_digits : nat := 4300.

(** A number of more digits than the interpreter converts is refused. *)
Definition within_limit (r : option (Z * nat)) : option Z :=
  match r with
  | Some (n, count) => if (count <=? max_str_digits)%nat then Some n else None
  | None => None
  end.

(** [int(s)]: blanks around, a sign, then the digits. [None] is
    [ValueError]. *)
Definition py_int (s : string) : option Z :=
  match strip_by int_blank s with
  | String c s' =>
      if Ascii.eqb c (Ascii.ascii_of_nat 45)
      then Z.opp <$> within_limit (digits 0 0 false s')
      else if Ascii.eqb c (Ascii.ascii_of_nat 43)
      then within_limit (digits 0 0 false s')
      else within_limit (digits 0 0 false (String c s'))
  | EmptyString => None
  end.

(** The lines of [enumerate(options, 1)]. *)
Fixpoint numbered (i : nat) (options : list string) : list string :=
  match options with
  | [] => []
  | option :: rest =>
      (pretty (Z.of_nat i) ++ ". " ++ option) :: numbered (S i) rest
  end.

Definition enter_your_choice : string := newline ++ "Enter your choice: ".

Definition out_of_range (allow_back : bool) (n : nat) : string :=
  "Please enter a number between " ++ (if allow_back then "0" else "1")
    ++ " and " ++ pretty (Z.of_nat n).

(** The [while True] loop: it ends at the first accepted line, or with
    [EOFError] when the input runs out. *)
Fixpoint choice_loop (allow_back : bool) (n : nat) (lines : list string)
    (shown : list event) : res Z * console :=
  let shown := (shown ++ [Input enter_your_choice])%list in
  match lines with
  | [] => (Fail EOFError, Console [] shown)
  | line :: rest =>
      match py_int line with
      | Some choice =>
          if allow_back && (choice =? 0) then (Ok (-1), Console rest shown)
          else if (1 <=? choice) && (choice <=? Z.of_nat n)
          then (Ok (choice - 1), Console rest shown)
          else choice_loop allow_back n rest
                 (shown ++ [Print (out_of_range allow_back n)])%list
      | None =>
          choice_loop allow_back n rest
            (shown ++ [Print "Please enter a valid number"])%list
      end
  end.

Definition prompt_for_choice (message : string) (options : list string)
    (allow_back : bool) : IO Z :=
  seq (print (message ++ ":")) (fun _ =>
  seq (print_all (numbered 1 options)) (fun _ =>
  seq (if allow_back then print "0. Back" else fun c => (Ok tt, c)) (fun _ c =>
  choice_loop allow_back (length options) (stdin c) (stdout c)))).

Definition prompt_for_confirmation (message : string) : IO bool :=
  seq (input (message ++ " (y/n): ")) (fun response c =>
    let response := lower (strip response) in
    (Ok (String.eqb response "y" || String.eqb response "yes"), c)).

Definition display_error (message : string) : IO unit :=
  seq (print (newline ++ "ERROR: " ++ message)) (fun _ =>
  seq (input (newline ++ "Press Enter to continue...")) (fun _ c => (Ok tt, c))).

Definition display_success (message : string) : IO unit :=
  seq (print (newline ++ "SUCCESS: " ++ message)) (fun _ =>
  seq (input (newline ++ "Press Enter to continue...")) (fun _ c => (Ok tt, c))).

(** [col_widths[i] = max(col_widths[i], len(str(cell)))] along one row; a
    cell is given as its [str]. [None] is [IndexError]. *)
Fixpoint widen (col_widths : list Z) (i : nat) (row : list string)
  : option (list Z) :=
  match row with
  | [] => Some col_widths
  | cell :: rest =>
      match col_widths !! i with
      | Some w => widen (<[i := Z.max w (len cell)]> col_widths) (S i) rest
      | None => None
      end
  end.

Fixpoint widen_all (col_widths : list Z) (rows : list (list string))
  : option (list Z) :=
  match rows with
  | [] => Some col_widths
  | row :: rest =>
      match widen col_widths 0 row with
      | Some col_widths' => widen_all col_widths' rest
      | None => None
      end
  end.

Definition sum (l : list Z) : Z := foldr Z.add 0 l.

(** One printed row: each cell padded to its column, a bar after every cell
    but the last of the [n]. *)
Fixpoint cells (col_widths : list Z) (n : nat) (i : nat) (row : list string)
  : option string :=
  match row with
  | [] => Some EmptyString
  | cell :: rest =>
      match col_widths !! i with
      | Some w =>
          match cells col_widths n (S i) rest with
          | Some s =>
              Some (ljust cell w
                    ++ (if (Z.of_nat i <? Z.of_nat n - 1) then "|" else EmptyString)
                    ++ s)
          | None => None
          end
      | None => None
      end
  end.

Fixpoint print_rows (col_widths : list Z) (rows : list (list string)) : IO unit :=
  match rows with
  | [] => fun c => (Ok tt, c)
  | row :: rest =>
      match cells col_widths (length row) 0 row with
      | Some row_str =>
          seq (print row_str) (fun _ => print_rows col_widths rest)
      | None => fun c => (Fail IndexError, c)
      end
  end.

Definition render_table (headers : list string) (rows : list (list string))
    (title : option string) : IO unit :=
  match rows with
  | [] => print "No data to display."
  | _ =>
      match widen_all (map len headers) rows with
      | None => fun c => (Fail IndexError, c)
      | Some col_widths =>
          let col_widths := map (fun w => w + 2) col_widths in
          let total_width := sum col_widths + Z.of_nat (length headers) - 1 in
          let rule := times (Ascii.ascii_of_nat 45) total_width in
          seq (if truthy title
               then print_all [newline ++ default EmptyString title; rule]
               else fun c => (Ok tt, c)) (fun _ =>
          match cells col_widths (length headers) 0 headers with
          | None => fun c => (Fail IndexError, c)
          | Some header_row =>
              seq (print_all [header_row; rule]) (fun _ =>
              print_rows col_widths rows)
          end)
      end
  end.

End Menu.

(** ** Further observations *)

Section MoreObservations.

Context {P : Type}.

(** A logging call that raised what [logs.append] raises and changed neither
    the files nor the text log. *)
Definition refused (w : world P) (r : outcome unit * world P) : Prop :=
  exists msg,
    fst r = Raise (AttributeError msg)
    /\ fs (snd r) = fs w /\ app_log (snd r) = app_log w.

(** The severity of the text line that goes with an error argument. *)
Definition severity (error : option string) : level :=
  if truthy error then ERROR else INFO.

(** The logs are as they were. *)
Definition logs_untouched (w w' : world P) : Prop :=
  fs w' = fs w /\ app_log w' = app_log w /\ tick w' = tick w.

(** A method that raised what [logs.append] raises, after the requests
    [reqs] went out and the provider moved to [p']; the logs are as they
    were. *)
Definition raised_by_logger {A : Type} (w : world P) (reqs : list request)
    (p' : P) (r : outcome A * world P) : Prop :=
  exists msg,
    fst r = Raise (AttributeError msg)
    /\ sent (snd r) = (sent w ++ reqs)%list
    /\ provider (snd r) = p'
    /\ fs (snd r) = fs w /\ app_log (snd r) = app_log w.

(** A computation that sends exactly the requests [l], whatever happens. *)
Definition sends {A : Type} (l : list request) (m : M P A) : Prop :=
  forall w, sent (snd (m w)) = (sent w ++ l)%list.

(** A computation that talks to no one: the requests and the provider are
    as they were. *)
Definition keeps_traffic {A : Type} (m : M P A) : Prop :=
  forall w, same_traffic w (snd (m w)).

(** A computation that leaves the logs as they were. *)
Definition keeps_logs {A : Type} (m : M P A) : Prop :=
  forall w, logs_untouched w (snd (m w)).

(** An exception that the gateway has no handler for. *)
Definition foreign (e : exn) : bool :=
  match e with
  | TwilioRestException _ => false
  | _ => true
  end.

(** A log directory in which every file is missing, undecodable or an
    array. *)
Definition well_kept (files : gmap string file_content) : Prop :=
  forall path, appendable (files !! path) = true.

(** A logging computation that, on a well kept log directory, returns,
    leaves the provider alone and keeps the directory well kept. *)
Definition harmless (m : M P unit) : Prop :=
  forall w,
    well_kept (fs w) ->
    fst (m w) = Return tt
    /\ provider (snd (m w)) = provider w
    /\ well_kept (fs (snd (m w))).

(** Two worlds with the same provider state, whatever their logs, clocks and
    text logs. *)
Definition agree (w1 w2 : world P) : Prop :=
  provider w1 = provider w2 /\ well_kept (fs w1) /\ well_kept (fs w2).

(** Two computations that, from worlds that agree, give the same outcome and
    worlds that agree. *)
Definition alike {A : Type} (m1 m2 : M P A) : Prop :=
  forall w1 w2,
    agree w1 w2 ->
    fst (m1 w1) = fst (m2 w2) /\ agree (snd (m1 w1)) (snd (m2 w2)).

End MoreObservations.

(** ** A provider that cannot be reached *)

Module Unreachable.

(** Every call that gets as far as the network ends in the transport's
    exception; there is no state. A keyword that the SDK method does not
    have stops the call before that. *)
Definition down {A : Type} (s : unit) : outcome A * unit :=
  (Raise (RequestException "Connection refused"), s).

Definition client : Client unit := {|
  available_phone_numbers_local_list _ _ params :=
    match Demo.first_unexpected Demo.local_list_keywords params with
    | Some key => fun s => (Raise (Demo.unexpected "LocalList.list" key), s)
    | None => down
    end;
  incoming_phone_numbers_create kwargs :=
    match Demo.first_unexpected Demo.create_keywords kwargs with
    | Some key =>
        fun s =>
          (Raise (Demo.unexpected "IncomingPhoneNumberList.create" key), s)
    | None => down
    end;
  incoming_phone_numbers_list _ :=
    fun s =>
      (Raise (Demo.unexpected "IncomingPhoneNumberList.list" "account_sid"), s);
  incoming_phone_numbers_fetch _ := down;
  incoming_phone_numbers_delete _ := down;
  incoming_phone_numbers_update _ _ := down;
  calls_create _ := down;
  calls_list _ := down;
  messages_create _ _ _ := down;
  messages_list _ := down;
  accounts_fetch _ := down;
  accounts_list := down;
  accounts_create _ := down;
  requests_get _ _ _ := down
|}.

Definition start : world unit := World tt [] ∅ [] Demo.morning O.

End Unreachable.

(** ** What a log write does to the files *)

Section LogFacts.

Context {P : Type}.
Variable lg : FileLogger.t.

Lemma write_json_log_disabled log_type data (w : world P) :
  FileLogger.enabled lg = false ->
  FileLogger._write_json_log lg log_type data w = (Return tt, w).
Proof.
  intros Hoff. unfold FileLogger._write_json_log. now rewrite Hoff.
Qed.

Lemma write_json_log_enabled log_type data (w : world P) :
  FileLogger.enabled lg = true ->
  appendable (fs w !! log_file_of lg log_type w) = true ->
  FileLogger._write_json_log lg log_type data w
  = (Return tt, written lg log_type data w).
Proof.
  intros Hon Hok.
  unfold FileLogger._write_json_log, FileLogger._get_log_file_path.
  rewrite Hon. cbn [negb].
  unfold bind, FileLogger.now, ret, FileLogger.read_logs; cbn [fs clock tick].
  fold (log_file_of lg log_type w).
  unfold written, stamp_of.
  destruct (fs w !! log_file_of lg log_type w) as [[raw|v]|] eqn:Hf; cbn in Hok |- *;
    try reflexivity.
  destruct v; try discriminate Hok. reflexivity.
Qed.

Lemma write_json_log_not_a_list log_type data (w : world P) :
  FileLogger.enabled lg = true ->
  appendable (fs w !! log_file_of lg log_type w) = false ->
  exists msg w',
    FileLogger._write_json_log lg log_type data w = (Raise (AttributeError msg), w')
    /\ fs w' = fs w.
Proof.
  intros Hon Hbad.
  unfold FileLogger._write_json_log, FileLogger._get_log_file_path.
  rewrite Hon. cbn [negb].
  unfold bind, FileLogger.now, ret, FileLogger.read_logs; cbn [fs clock tick].
  fold (log_file_of lg log_type w).
  destruct (fs w !! log_file_of lg log_type w) as [[raw|v]|]; try discriminate Hbad.
  destruct v; try discriminate Hbad; cbn; eauto.
Qed.

(** Rewriting one file with one more record adds one to the count, whatever
    the file held before. *)
Lemma record_count_insert (files : gmap string file_content) path rec :
  record_count
    (<[path := Json (VList (entries (files !! path) ++ [rec]))]> files)
  = S (record_count files).
Proof.
  unfold record_count.
  assert (Hcomm : forall (m : gmap string file_content)
            (j1 j2 : string) (z1 z2 : file_content) (y : nat),
            j1 <> j2 -> m !! j1 = Some z1 -> m !! j2 = Some z2 ->
            (length (entries (Some z1)) + (length (entries (Some z2)) + y)
             = length (entries (Some z2)) + (length (entries (Some z1)) + y))%nat)
    by (intros; lia).
  destruct (files !! path) as [c|] eqn:Hf.
  - rewrite <- insert_delete_eq.
    rewrite map_fold_insert_L; [| apply Hcomm | apply lookup_delete_eq].
    rewrite (map_fold_delete_L _ _ path c files); [| apply Hcomm | exact Hf].
    cbn [entries]. rewrite length_app. cbn [length]. lia.
  - rewrite map_fold_insert_L; [| apply Hcomm | exact Hf].
    cbn. reflexivity.
Qed.

Lemma record_count_written log_type data (w : world P) :
  record_count (fs (written lg log_type data w)) = S (record_count (fs w)).
Proof. unfold written; cbn [fs]. apply record_count_insert. Qed.

End LogFacts.

(** ** What each logging call does *)

Section LoggerCalls.

Context {P : Type}.
Variable lg : FileLogger.t.

Lemma mirror_eq log_msg error (w : world P) :
  FileLogger.mirror log_msg error w = (Return tt, mirrored log_msg error w).
Proof.
  unfold FileLogger.mirror, mirrored. now destruct (truthy error).
Qed.

Hypothesis Hon : FileLogger.enabled lg = true.

Lemma log_error_enabled error_type message (w : world P) :
  appendable (fs w !! log_file_of lg "error" w) = true ->
  FileLogger.log_error lg error_type message None w
  = (Return tt,
     emitted ERROR (error_type ++ ": " ++ message)
       (written lg "error" (error_fields error_type message) w)).
Proof.
  intros Hok. unfold FileLogger.log_error, bind.
  cbn [default]. fold (error_fields error_type message).
  rewrite (write_json_log_enabled lg _ _ w Hon Hok), Hon. reflexivity.
Qed.

Lemma log_purchase_enabled phone_number status sid error (w : world P) :
  appendable (fs w !! log_file_of lg "purchase" w) = true ->
  FileLogger.log_purchase lg phone_number status None sid error w
  = (Return tt,
     mirrored ("Purchase of " ++ phone_number ++ ": " ++ status) error
       (written lg "purchase" (purchase_fields phone_number status sid error) w)).
Proof.
  intros Hok. unfold FileLogger.log_purchase, bind.
  cbn [from_option]. fold (purchase_fields phone_number status sid error).
  rewrite (write_json_log_enabled lg _ _ w Hon Hok), Hon. apply mirror_eq.
Qed.

Lemma log_call_enabled from_number to_number status sid error (w : world P) :
  appendable (fs w !! log_file_of lg "call" w) = true ->
  FileLogger.log_call lg from_number to_number status sid None error w
  = (Return tt,
     mirrored ("Call from " ++ from_number ++ " to " ++ to_number ++ ": " ++ status)
       error
       (written lg "call" (call_fields from_number to_number status sid error) w)).
Proof.
  intros Hok. unfold FileLogger.log_call, bind.
  cbn [from_option]. fold (call_fields from_number to_number status sid error).
  rewrite (write_json_log_enabled lg _ _ w Hon Hok), Hon. apply mirror_eq.
Qed.

Lemma log_message_enabled from_number to_number status body sid error
    (w : world P) :
  appendable (fs w !! log_file_of lg "message" w) = true ->
  FileLogger.log_message lg from_number to_number status body sid error w
  = (Return tt,
     mirrored
       ("Message from " ++ from_number ++ " to " ++ to_number ++ ": " ++ status)
       error
       (written lg "message"
          (message_fields from_number to_number status
             (FileLogger.truncated body) sid error) w)).
Proof.
  intros Hok. unfold FileLogger.log_message, bind.
  fold (message_fields from_number to_number status
          (FileLogger.truncated body) sid error).
  rewrite (write_json_log_enabled lg _ _ w Hon Hok), Hon. apply mirror_eq.
Qed.

End LoggerCalls.

(** ** Calls to the provider under [try]/[except] *)

Section ProviderCalls.

Context {P : Type}.

Lemma call_api_eq {A : Type} r (f : P -> outcome A * P) (w : world P) o p' :
  f (provider w) = (o, p') -> call_api r f w = (o, called r p' w).
Proof. intros H. unfold call_api. now rewrite H. Qed.

Lemma try_call_rejected {A B : Type} r (f : P -> outcome A * P)
    (k : A -> M P B) (h : string -> M P B) (w : world P) e p' :
  f (provider w) = (Raise (TwilioRestException e), p') ->
  try_except (let! x := call_api r f in k x) h w = h e (called r p' w).
Proof.
  intros H. unfold try_except, bind. now rewrite (call_api_eq r f w _ _ H).
Qed.

Lemma try_call_returned {A B : Type} r (f : P -> outcome A * P)
    (k : A -> M P B) (h : string -> M P B) (w : world P) x p' :
  f (provider w) = (Return x, p') ->
  try_except (let! x := call_api r f in k x) h w
  = try_except (k x) h (called r p' w).
Proof.
  intros H. unfold try_except, bind. now rewrite (call_api_eq r f w _ _ H).
Qed.

Lemma try_ret {A : Type} (a : A) (h : string -> M P A) (w : world P) :
  try_except (ret a) h w = (Return a, w).
Proof. reflexivity. Qed.

Lemma try_log_ret {A : Type} (m : M P unit) (a : A) (h : string -> M P A)
    (w w' : world P) :
  m w = (Return tt, w') ->
  try_except (do! m in ret a) h w = (Return a, w').
Proof. intros H. unfold try_except, bind. now rewrite H. Qed.

Lemma log_ret {A : Type} (m : M P unit) (a : A) (w w' : world P) :
  m w = (Return tt, w') -> (do! m in ret a) w = (Return a, w').
Proof. intros H. unfold bind. now rewrite H. Qed.

Lemma fs_emitted lv msg (w : world P) : fs (emitted lv msg w) = fs w.
Proof. reflexivity. Qed.

Lemma fs_mirrored log_msg error (w : world P) :
  fs (mirrored log_msg error w) = fs w.
Proof. unfold mirrored. now destruct (truthy error). Qed.

Lemma record_count_called lg log_type data r p' (w : world P) :
  record_count (fs (written lg log_type data (called r p' w)))
  = S (record_count (fs w)).
Proof. apply (record_count_written lg log_type data (called r p' w)). Qed.

End ProviderCalls.


(** ** Each gateway method, case by case *)

Section Evaluation.

Context {P : Type}.
Variable client : Client P.
Variable lg : FileLogger.t.
Variable self : TwilioGateway.t.
Hypothesis Hon : FileLogger.enabled lg = true.

(** After the provider rejects a request, the handler's log call runs. *)
Ltac rejected log_enabled H Hok :=
  rewrite (try_call_rejected _ _ _ _ _ _ _ H);
  erewrite log_ret by (apply (log_enabled P lg Hon); exact Hok);
  reflexivity.

(** After the provider answers, the body goes on. *)
Ltac answered H :=
  rewrite (try_call_returned _ _ _ _ _ _ _ H); try reflexivity.

Ltac answered_logged log_enabled H Hok :=
  rewrite (try_call_returned _ _ _ _ _ _ _ H);
  erewrite try_log_ret by (apply (log_enabled P lg Hon); exact Hok);
  reflexivity.

Lemma search_rejected country_code area_code contains sms voice limit
    (w : world P) e p' :
  let params := TwilioGateway.search_params area_code contains sms voice in
  appendable (fs w !! log_file_of lg "error" w) = true ->
  available_phone_numbers_local_list client country_code limit params (provider w)
  = (Raise (TwilioRestException e), p') ->
  TwilioGateway.search_phone_numbers client lg country_code area_code contains
    sms voice limit w
  = (Return ([], false),
     error_logged lg "twilio_search" ("Error searching for phone numbers: " ++ e)
       (called (AvailableLocalList country_code limit params) p' w)).
Proof.
  intros params Hok H. unfold TwilioGateway.search_phone_numbers.
  rejected @log_error_enabled H Hok.
Qed.

Lemma search_answered country_code area_code contains sms voice limit
    (w : world P) numbers p' :
  let params := TwilioGateway.search_params area_code contains sms voice in
  available_phone_numbers_local_list client country_code limit params (provider w)
  = (Return numbers, p') ->
  TwilioGateway.search_phone_numbers client lg country_code area_code contains
    sms voice limit w
  = (Return (map TwilioGateway.available_number_dict numbers,
             limit <=? Z.of_nat (length numbers)),
     called (AvailableLocalList country_code limit params) p' w).
Proof.
  intros params H. unfold TwilioGateway.search_phone_numbers. answered H.
Qed.

Lemma release_fetch_rejected sid (w : world P) e p' :
  appendable (fs w !! log_file_of lg "error" w) = true ->
  incoming_phone_numbers_fetch client sid (provider w)
  = (Raise (TwilioRestException e), p') ->
  TwilioGateway.release_phone_number client lg sid w
  = (Return false,
     error_logged lg "twilio_release" ("Error releasing phone number: " ++ e)
       (called (IncomingFetch sid) p' w)).
Proof.
  intros Hok H. unfold TwilioGateway.release_phone_number.
  rejected @log_error_enabled H Hok.
Qed.

Lemma release_delete_rejected sid (w : world P) number p1 e p2 :
  appendable (fs w !! log_file_of lg "error" w) = true ->
  incoming_phone_numbers_fetch client sid (provider w) = (Return number, p1) ->
  incoming_phone_numbers_delete client sid p1
  = (Raise (TwilioRestException e), p2) ->
  TwilioGateway.release_phone_number client lg sid w
  = (Return false,
     error_logged lg "twilio_release" ("Error releasing phone number: " ++ e)
       (called (IncomingDelete sid) p2 (called (IncomingFetch sid) p1 w))).
Proof.
  intros Hok Hfetch Hdel. unfold TwilioGateway.release_phone_number.
  rewrite (try_call_returned _ _ _ _ _ _ _ Hfetch).
  assert (Hdel' : incoming_phone_numbers_delete client sid
                    (provider (called (IncomingFetch sid) p1 w))
                  = (Raise (TwilioRestException e), p2)) by exact Hdel.
  rejected @log_error_enabled Hdel' Hok.
Qed.

Lemma release_answered sid (w : world P) number p1 deleted p2 :
  appendable (fs w !! log_file_of lg "purchase" w) = true ->
  incoming_phone_numbers_fetch client sid (provider w) = (Return number, p1) ->
  incoming_phone_numbers_delete client sid p1 = (Return deleted, p2) ->
  TwilioGateway.release_phone_number client lg sid w
  = (Return true,
     mirrored ("Purchase of " ++ in_phone_number number ++ ": released") None
       (written lg "purchase"
          (purchase_fields (in_phone_number number) "released" (Some sid) None)
          (called (IncomingDelete sid) p2 (called (IncomingFetch sid) p1 w)))).
Proof.
  intros Hok Hfetch Hdel. unfold TwilioGateway.release_phone_number.
  rewrite (try_call_returned _ _ _ _ _ _ _ Hfetch).
  assert (Hdel' : incoming_phone_numbers_delete client sid
                    (provider (called (IncomingFetch sid) p1 w))
                  = (Return deleted, p2)) by exact Hdel.
  answered_logged @log_purchase_enabled Hdel' Hok.
Qed.

Lemma update_rejected sid fname sms_url sms_method voice_url voice_method
    (w : world P) e p' :
  let kwargs :=
    TwilioGateway.update_kwargs fname sms_url sms_method voice_url voice_method in
  let error_msg := "Error updating phone number: " ++ e in
  appendable (fs w !! log_file_of lg "error" w) = true ->
  incoming_phone_numbers_update client sid kwargs (provider w)
  = (Raise (TwilioRestException e), p') ->
  TwilioGateway.update_phone_number client lg sid fname sms_url sms_method
    voice_url voice_method w
  = (Return (VDict [("success", VBool false);
                    ("error", VStr error_msg);
                    ("sid", VStr sid)]),
     error_logged lg "twilio_update" error_msg
       (called (IncomingUpdate sid kwargs) p' w)).
Proof.
  intros kwargs error_msg Hok H. unfold TwilioGateway.update_phone_number.
  rejected @log_error_enabled H Hok.
Qed.

Lemma update_answered sid fname sms_url sms_method voice_url voice_method
    (w : world P) number p' :
  let kwargs :=
    TwilioGateway.update_kwargs fname sms_url sms_method voice_url voice_method in
  incoming_phone_numbers_update client sid kwargs (provider w)
  = (Return number, p') ->
  TwilioGateway.update_phone_number client lg sid fname sms_url sms_method
    voice_url voice_method w
  = (Return (VDict [("success", VBool true);
                    ("sid", VStr (in_sid number));
                    ("phone_number", VStr (in_phone_number number));
                    ("friendly_name", in_friendly_name number);
                    ("voice_url", in_voice_url number);
                    ("sms_url", in_sms_url number);
                    ("voice_method", in_voice_method number);
                    ("sms_method", in_sms_method number)]),
     called (IncomingUpdate sid kwargs) p' w).
Proof.
  intros kwargs H. unfold TwilioGateway.update_phone_number. answered H.
Qed.

Lemma make_call_rejected from_number to_number url twiml (w : world P) e p' :
  let kwargs := TwilioGateway.make_call_kwargs from_number to_number url twiml in
  let error_msg := "Error making call: " ++ e in
  appendable (fs w !! log_file_of lg "call" w) = true ->
  calls_create client kwargs (provider w) = (Raise (TwilioRestException e), p') ->
  TwilioGateway.make_call client lg from_number to_number url twiml w
  = (Return (VDict [("success", VBool false);
                    ("error", VStr error_msg);
                    ("from", VStr from_number);
                    ("to", VStr to_number)]),
     mirrored ("Call from " ++ from_number ++ " to " ++ to_number ++ ": failed")
       (Some error_msg)
       (written lg "call"
          (call_fields from_number to_number "failed" None (Some error_msg))
          (called (CallsCreate kwargs) p' w))).
Proof.
  intros kwargs error_msg Hok H. unfold TwilioGateway.make_call.
  rejected @log_call_enabled H Hok.
Qed.

Lemma make_call_answered from_number to_number url twiml (w : world P) call p' :
  let kwargs := TwilioGateway.make_call_kwargs from_number to_number url twiml in
  appendable (fs w !! log_file_of lg "call" w) = true ->
  calls_create client kwargs (provider w) = (Return call, p') ->
  TwilioGateway.make_call client lg from_number to_number url twiml w
  = (Return (VDict [("success", VBool true);
                    ("sid", VStr (call_sid call));
                    ("status", VStr (call_status call));
                    ("from", VStr from_number);
                    ("to", VStr to_number);
                    ("direction", call_direction call);
                    ("date_created", VStr (call_date_created call))]),
     mirrored ("Call from " ++ from_number ++ " to " ++ to_number ++ ": "
               ++ call_status call) None
       (written lg "call"
          (call_fields from_number to_number (call_status call)
             (Some (call_sid call)) None)
          (called (CallsCreate kwargs) p' w))).
Proof.
  intros kwargs Hok H. unfold TwilioGateway.make_call.
  answered_logged @log_call_enabled H Hok.
Qed.

Lemma send_message_rejected from_number to_number body (w : world P) e p' :
  let error_msg := "Error sending message: " ++ e in
  appendable (fs w !! log_file_of lg "message" w) = true ->
  messages_create client to_number from_number body (provider w)
  = (Raise (TwilioRestException e), p') ->
  TwilioGateway.send_message client lg from_number to_number body w
  = (Return (VDict [("success", VBool false);
                    ("error", VStr error_msg);
                    ("from", VStr from_number);
                    ("to", VStr to_number);
                    ("body", VStr body)]),
     mirrored ("Message from " ++ from_number ++ " to " ++ to_number ++ ": failed")
       (Some error_msg)
       (written lg "message"
          (message_fields from_number to_number "failed"
             (FileLogger.truncated (Some body)) None (Some error_msg))
          (called (MessagesCreate to_number from_number body) p' w))).
Proof.
  intros error_msg Hok H. unfold TwilioGateway.send_message.
  rejected @log_message_enabled H Hok.
Qed.

Lemma send_message_answered from_number to_number body (w : world P)
    message p' :
  appendable (fs w !! log_file_of lg "message" w) = true ->
  messages_create client to_number from_number body (provider w)
  = (Return message, p') ->
  TwilioGateway.send_message client lg from_number to_number body w
  = (Return (VDict [("success", VBool true);
                    ("sid", VStr (msg_sid message));
                    ("status", VStr (msg_status message));
                    ("from", VStr from_number);
                    ("to", VStr to_number);
                    ("body", VStr body);
                    ("date_created", VStr (msg_date_created message))]),
     mirrored ("Message from " ++ from_number ++ " to " ++ to_number ++ ": "
               ++ msg_status message) None
       (written lg "message"
          (message_fields from_number to_number (msg_status message)
             (FileLogger.truncated (Some body)) (Some (msg_sid message)) None)
          (called (MessagesCreate to_number from_number body) p' w))).
Proof.
  intros Hok H. unfold TwilioGateway.send_message.
  answered_logged @log_message_enabled H Hok.
Qed.

Lemma call_logs_rejected limit (w : world P) e p' :
  appendable (fs w !! log_file_of lg "error" w) = true ->
  calls_list client limit (provider w) = (Raise (TwilioRestException e), p') ->
  TwilioGateway.get_call_logs client lg limit w
  = (Return [],
     error_logged lg "twilio_call_logs" ("Error getting call logs: " ++ e)
       (called (CallsList limit) p' w)).
Proof.
  intros Hok H. unfold TwilioGateway.get_call_logs.
  rejected @log_error_enabled H Hok.
Qed.

Lemma call_logs_answered limit (w : world P) calls p' :
  calls_list client limit (provider w) = (Return calls, p') ->
  TwilioGateway.get_call_logs client lg limit w
  = (Return (map TwilioGateway.call_dict calls), called (CallsList limit) p' w).
Proof.
  intros H. unfold TwilioGateway.get_call_logs. answered H.
Qed.

Lemma message_logs_rejected limit (w : world P) e p' :
  appendable (fs w !! log_file_of lg "error" w) = true ->
  messages_list client limit (provider w) = (Raise (TwilioRestException e), p') ->
  TwilioGateway.get_message_logs client lg limit w
  = (Return [],
     error_logged lg "twilio_message_logs" ("Error getting message logs: " ++ e)
       (called (MessagesList limit) p' w)).
Proof.
  intros Hok H. unfold TwilioGateway.get_message_logs.
  rejected @log_error_enabled H Hok.
Qed.

Lemma message_logs_answered limit (w : world P) messages p' :
  messages_list client limit (provider w) = (Return messages, p') ->
  TwilioGateway.get_message_logs client lg limit w
  = (Return (map TwilioGateway.message_dict messages),
     called (MessagesList limit) p' w).
Proof.
  intros H. unfold TwilioGateway.get_message_logs. answered H.
Qed.

Lemma account_info_rejected (w : world P) e p' :
  appendable (fs w !! log_file_of lg "error" w) = true ->
  accounts_fetch client (TwilioGateway.active_sid self) (provider w)
  = (Raise (TwilioRestException e), p') ->
  TwilioGateway.get_account_info client lg self w
  = (Return (VDict [("error", VStr e)]),
     error_logged lg "twilio_account_info" ("Error getting account info: " ++ e)
       (called (AccountFetch (TwilioGateway.active_sid self)) p' w)).
Proof.
  intros Hok H. unfold TwilioGateway.get_account_info.
  rejected @log_error_enabled H Hok.
Qed.

(** The raw search has no handler: whatever [requests.get] raises goes on to
    the caller, and nothing is logged. *)
Lemma search_raw_raised country_code params (w : world P) e p' :
  let url := TwilioGateway.raw_search_url self country_code in
  let auth := (TwilioGateway.account_sid self, TwilioGateway.auth_token self) in
  requests_get client url params auth (provider w) = (Raise e, p') ->
  TwilioGateway.search_phone_numbers_raw client lg self country_code params w
  = (Raise e, called (HttpGet url params auth) p' w).
Proof.
  intros url auth H. unfold TwilioGateway.search_phone_numbers_raw, bind.
  now rewrite (call_api_eq _ _ w _ _ H).
Qed.

End Evaluation.

(** ** Strings *)

Lemma length_append (s t : string) :
  String.length (s ++ t) = (String.length s + String.length t)%nat.
Proof.
  induction s as [|c s IH]; [reflexivity |].
  change (String c s ++ t) with (String c (s ++ t)).
  cbn [String.length Nat.add]. now rewrite IH.
Qed.

Lemma length_str_take (n : nat) (s : string) :
  String.length (str_take n s) = Nat.min n (String.length s).
Proof.
  revert s.
  induction n as [|n IH]; intros [|c s];
    cbn [str_take String.length Nat.min]; try reflexivity.
  now rewrite IH.
Qed.

Lemma truncated_long (body : string) :
  100 < len body ->
  FileLogger.truncated (Some body) = Some (str_take 97 body ++ "...").
Proof.
  intros Hlen. unfold FileLogger.truncated.
  destruct body as [|c body]; [discriminate Hlen |].
  cbn [String.eqb negb andb].
  now rewrite (proj2 (Z.ltb_lt _ _) Hlen).
Qed.

Lemma truncated_short (body : string) :
  len body <= 100 -> FileLogger.truncated (Some body) = Some body.
Proof.
  intros Hlen. unfold FileLogger.truncated.
  rewrite (proj2 (Z.ltb_ge _ _) Hlen). now rewrite andb_false_r.
Qed.

Lemma len_truncated (body : string) :
  100 < len body -> len (str_take 97 body ++ "...") = 100.
Proof.
  unfold len. intros Hlen.
  rewrite length_append, length_str_take. cbn [String.length]. lia.
Qed.

(** ** The logger leaves the provider and the requests alone *)

Section Frame.

Context {P : Type}.
Variable lg : FileLogger.t.

Lemma write_json_log_traffic log_type data (w : world P) :
  let r := FileLogger._write_json_log lg log_type data w in
  same_traffic w (snd r) /\ logger_outcome (fst r).
Proof.
  unfold FileLogger._write_json_log, FileLogger._get_log_file_path,
    same_traffic, logger_outcome.
  destruct (FileLogger.enabled lg); cbn [negb]; [| cbn; auto].
  unfold bind, FileLogger.now, ret, FileLogger.read_logs; cbn [fs clock tick].
  destruct (_ !! _) as [[raw|v]|]; cbn; auto.
  destruct v; cbn; eauto.
Qed.

Lemma mirror_traffic log_msg error (w : world P) :
  let r := FileLogger.mirror log_msg error w in
  same_traffic w (snd r) /\ logger_outcome (fst r).
Proof.
  unfold same_traffic, logger_outcome, FileLogger.mirror.
  destruct (truthy error); cbn; auto.
Qed.

Lemma log_call_traffic from_number to_number status sid duration error
    (w : world P) :
  let r := FileLogger.log_call lg from_number to_number status sid duration
             error w in
  same_traffic w (snd r) /\ logger_outcome (fst r).
Proof.
  unfold FileLogger.log_call, bind.
  pose proof (write_json_log_traffic "call"
    [("from", VStr from_number); ("to", VStr to_number);
     ("status", VStr status); ("sid", opt_str sid);
     ("duration", from_option VInt VNone duration);
     ("error", opt_str error)] w) as Hw.
  cbv zeta in Hw.
  destruct (FileLogger._write_json_log _ _ _ w) as [[[]|e] w1];
    cbn [fst snd] in *; [| exact Hw].
  destruct Hw as [[H3 H4] _].
  destruct (FileLogger.enabled lg);
    [| cbn; unfold same_traffic, logger_outcome; auto].
  destruct (mirror_traffic
              ("Call from " ++ from_number ++ " to " ++ to_number ++ ": " ++ status)
              error w1) as [[H1 H2] Ho].
  split; [split; congruence | exact Ho].
Qed.

End Frame.

(** Closes a goal that counts the records after one write. *)
Ltac count_one :=
  rewrite ?fs_mirrored;
  cbn [fs error_logged emitted written called];
  apply record_count_insert.

(** Whatever the provider and the logger do, make_call sends one request, the
    call with the arguments it built. *)
Lemma make_call_sends {P : Type} (client : Client P) (lg : FileLogger.t)
    (from_number to_number : string) (url twiml : option string) (w : world P) :
  sent (snd (TwilioGateway.make_call client lg from_number to_number url twiml w))
  = (sent w
     ++ [CallsCreate
           (TwilioGateway.make_call_kwargs from_number to_number url twiml)])%list.
Proof.
  unfold TwilioGateway.make_call, try_except, bind, call_api.
  destruct (calls_create client _ (provider w)) as [[call | [e | e | e | e | e]] p'];
    try reflexivity;
    match goal with
    | |- context [FileLogger.log_call ?l ?f ?t ?s ?i ?d ?e ?w0] =>
        destruct (log_call_traffic l f t s i d e w0) as [[Hs _] Ho];
        destruct (FileLogger.log_call l f t s i d e w0) as [o w1];
        cbn [fst snd] in Hs, Ho;
        destruct Ho as [-> | [msg ->]]; exact Hs
    end.
Qed.

(** ** One record per invocation *)

Section OneRecord.

Context {P : Type}.
Variable client : Client P.
Variable lg : FileLogger.t.
Variable self : TwilioGateway.t.
Hypothesis Hon : FileLogger.enabled lg = true.

Ltac one_written :=
  split;
  [ eexists; reflexivity
  | cbn [snd andb answered]; eexists;
    split; [rewrite ?fs_mirrored; reflexivity | count_one] ].

Ltac none_written :=
  split; [eexists; reflexivity | reflexivity].

Lemma release_one_record sid (w : world P) o1 p1 o2 p2 :
  appendable (fs w !! log_file_of lg "purchase" w) = true ->
  appendable (fs w !! log_file_of lg "error" w) = true ->
  incoming_phone_numbers_fetch client sid (provider w) = (o1, p1) ->
  incoming_phone_numbers_delete client sid p1 = (o2, p2) ->
  handled o1 = true ->
  (answered o1 = true -> handled o2 = true) ->
  one_record lg (if answered o1 && answered o2 then "purchase" else "error") w
    (TwilioGateway.release_phone_number client lg sid w).
Proof.
  intros Hokp Hoke H1 H2 Hh1 Hh2.
  destruct o1 as [number | [e | e | e | e | e]]; try discriminate Hh1.
  - specialize (Hh2 eq_refl).
    destruct o2 as [deleted | [e | e | e | e | e]]; try discriminate Hh2.
    + rewrite (release_answered client lg Hon sid w number p1 deleted p2
                 Hokp H1 H2).
      one_written.
    + rewrite (release_delete_rejected client lg Hon sid w number p1 e p2
                 Hoke H1 H2).
      one_written.
  - rewrite (release_fetch_rejected client lg Hon sid w e p1 Hoke H1).
    one_written.
Qed.

Lemma make_call_one_record from_number to_number url twiml (w : world P) o p' :
  appendable (fs w !! log_file_of lg "call" w) = true ->
  calls_create client
    (TwilioGateway.make_call_kwargs from_number to_number url twiml) (provider w)
  = (o, p') ->
  handled o = true ->
  one_record lg "call" w
    (TwilioGateway.make_call client lg from_number to_number url twiml w).
Proof.
  intros Hok H Hh. destruct o as [call | [e | e | e | e | e]]; try discriminate Hh.
  - rewrite (make_call_answered client lg Hon _ _ _ _ w call p' Hok H).
    one_written.
  - rewrite (make_call_rejected client lg Hon _ _ _ _ w e p' Hok H).
    one_written.
Qed.

Lemma send_message_one_record from_number to_number body (w : world P) o p' :
  appendable (fs w !! log_file_of lg "message" w) = true ->
  messages_create client to_number from_number body (provider w) = (o, p') ->
  handled o = true ->
  one_record lg "message" w
    (TwilioGateway.send_message client lg from_number to_number body w).
Proof.
  intros Hok H Hh. destruct o as [message | [e | e | e | e | e]]; try discriminate Hh.
  - rewrite (send_message_answered client lg Hon _ _ _ w message p' Hok H).
    one_written.
  - rewrite (send_message_rejected client lg Hon _ _ _ w e p' Hok H).
    one_written.
Qed.

Lemma update_error_record sid fname sms_url sms_method voice_url voice_method
    (w : world P) o p' :
  let r := TwilioGateway.update_phone_number client lg sid fname sms_url
             sms_method voice_url voice_method w in
  appendable (fs w !! log_file_of lg "error" w) = true ->
  incoming_phone_numbers_update client sid
    (TwilioGateway.update_kwargs fname sms_url sms_method voice_url voice_method)
    (provider w)
  = (o, p') ->
  handled o = true ->
  if answered o then no_record w r else one_record lg "error" w r.
Proof.
  intros r Hok H Hh. subst r.
  destruct o as [number | [e | e | e | e | e]]; try discriminate Hh; cbn [answered].
  - rewrite (update_answered client lg _ _ _ _ _ _ w number p' H).
    none_written.
  - rewrite (update_rejected client lg Hon _ _ _ _ _ _ w e p' Hok H).
    one_written.
Qed.

Lemma search_error_record country_code area_code contains sms voice limit
    (w : world P) o p' :
  let r := TwilioGateway.search_phone_numbers client lg country_code area_code
             contains sms voice limit w in
  appendable (fs w !! log_file_of lg "error" w) = true ->
  available_phone_numbers_local_list client country_code limit
    (TwilioGateway.search_params area_code contains sms voice) (provider w)
  = (o, p') ->
  handled o = true ->
  if answered o then no_record w r else one_record lg "error" w r.
Proof.
  intros r Hok H Hh. subst r.
  destruct o as [numbers | [e | e | e | e | e]]; try discriminate Hh; cbn [answered].
  - rewrite (search_answered client lg _ _ _ _ _ _ w numbers p' H).
    none_written.
  - rewrite (search_rejected client lg Hon _ _ _ _ _ _ w e p' Hok H).
    one_written.
Qed.

Lemma call_logs_error_record limit (w : world P) o p' :
  let r := TwilioGateway.get_call_logs client lg limit w in
  appendable (fs w !! log_file_of lg "error" w) = true ->
  calls_list client limit (provider w) = (o, p') ->
  handled o = true ->
  if answered o then no_record w r else one_record lg "error" w r.
Proof.
  intros r Hok H Hh. subst r.
  destruct o as [calls | [e | e | e | e | e]]; try discriminate Hh; cbn [answered].
  - rewrite (call_logs_answered client lg _ w calls p' H). none_written.
  - rewrite (call_logs_rejected client lg Hon _ w e p' Hok H). one_written.
Qed.

Lemma message_logs_error_record limit (w : world P) o p' :
  let r := TwilioGateway.get_message_logs client lg limit w in
  appendable (fs w !! log_file_of lg "error" w) = true ->
  messages_list client limit (provider w) = (o, p') ->
  handled o = true ->
  if answered o then no_record w r else one_record lg "error" w r.
Proof.
  intros r Hok H Hh. subst r.
  destruct o as [messages | [e | e | e | e | e]]; try discriminate Hh; cbn [answered].
  - rewrite (message_logs_answered client lg _ w messages p' H). none_written.
  - rewrite (message_logs_rejected client lg Hon _ w e p' Hok H). one_written.
Qed.

End OneRecord.

Lemma try_call_raised {P A B : Type} r (f : P -> outcome A * P)
    (k : A -> M P B) (h : string -> M P B) (w : world P) e p' :
  f (provider w) = (Raise e, p') ->
  foreign e = true ->
  try_except (let! x := call_api r f in k x) h w = (Raise e, called r p' w).
Proof.
  intros H Hf. unfold try_except, bind. rewrite (call_api_eq r f w _ _ H).
  now destruct e.
Qed.

Lemma release_delete_raised {P : Type} (client : Client P)
    (lg : FileLogger.t) sid (w : world P) number p1 e p2 :
  incoming_phone_numbers_fetch client sid (provider w) = (Return number, p1) ->
  incoming_phone_numbers_delete client sid p1 = (Raise e, p2) ->
  foreign e = true ->
  TwilioGateway.release_phone_number client lg sid w
  = (Raise e, called (IncomingDelete sid) p2 (called (IncomingFetch sid) p1 w)).
Proof.
  intros H1 H2 Hf. unfold TwilioGateway.release_phone_number.
  rewrite (try_call_returned _ _ _ _ _ _ _ H1).
  unfold try_except, bind.
  rewrite (call_api_eq (IncomingDelete sid) _ (called (IncomingFetch sid) p1 w)
             _ _ H2).
  now destruct e.
Qed.

(** ** The claims *)

(** C1: not every invocation writes a record. With logging enabled, the
    number PN1 is updated and the provider accepts: the method returns its
    success record, and the log directory is as it was, with no record of any
    category. *)
Lemma update_success_writes_no_record :
  let r := TwilioGateway.update_phone_number Demo.client Demo.logger "PN1"
             (Some "Front desk") None None None None Demo.start in
  FileLogger.enabled Demo.logger = true
  /\ fst r = Return (VDict [("success", VBool true);
                            ("sid", VStr "PN1");
                            ("phone_number", VStr "+14155550100");
                            ("friendly_name", VStr "+14155550100");
                            ("voice_url", VNone); ("sms_url", VNone);
                            ("voice_method", VStr "POST");
                            ("sms_method", VStr "POST")])
  /\ fs (snd r) = fs Demo.start
  /\ record_count (fs (snd r)) = 0%nat
  /\ app_log (snd r) = []
  /\ forall log_type, ~ wrote_one Demo.logger log_type Demo.start (snd r).
Proof.
  cbv zeta. repeat split.
  intros log_type [rec [_ Hcount]]. discriminate Hcount.
Qed.

(** C1, as the code has it, with logging enabled. Release, call and
    sendMessage write exactly one record per invocation before they return,
    when the provider accepts the request and when it rejects it: a record
    of their own category (release: a purchase record) on success, and on
    failure a call or message record, for release an error record. Update
    writes exactly one error record when the provider rejects the request
    and none when it accepts. Search and the two log-fetching operations
    write no record when they succeed. *)
Theorem logged_operations_write_one_record {P : Type}
    (client : Client P) (lg : FileLogger.t) (w : world P) :
  FileLogger.enabled lg = true ->
  appendable (fs w !! log_file_of lg "purchase" w) = true ->
  appendable (fs w !! log_file_of lg "call" w) = true ->
  appendable (fs w !! log_file_of lg "message" w) = true ->
  appendable (fs w !! log_file_of lg "error" w) = true ->
  (forall sid o1 p1 o2 p2,
      incoming_phone_numbers_fetch client sid (provider w) = (o1, p1) ->
      incoming_phone_numbers_delete client sid p1 = (o2, p2) ->
      handled o1 = true ->
      (answered o1 = true -> handled o2 = true) ->
      one_record lg (if answered o1 && answered o2 then "purchase" else "error")
        w (TwilioGateway.release_phone_number client lg sid w))
  /\ (forall from_number to_number url twiml o p',
      calls_create client
        (TwilioGateway.make_call_kwargs from_number to_number url twiml)
        (provider w) = (o, p') ->
      handled o = true ->
      one_record lg "call" w
        (TwilioGateway.make_call client lg from_number to_number url twiml w))
  /\ (forall from_number to_number body o p',
      messages_create client to_number from_number body (provider w) = (o, p') ->
      handled o = true ->
      one_record lg "message" w
        (TwilioGateway.send_message client lg from_number to_number body w))
  /\ (forall sid friendly_name sms_url sms_method voice_url voice_method o p',
      incoming_phone_numbers_update client sid
        (TwilioGateway.update_kwargs friendly_name sms_url sms_method voice_url
           voice_method) (provider w) = (o, p') ->
      handled o = true ->
      let r := TwilioGateway.update_phone_number client lg sid friendly_name
                 sms_url sms_method voice_url voice_method w in
      if answered o then no_record w r else one_record lg "error" w r)
  /\ (forall country_code area_code contains sms_enabled voice_enabled limit
             numbers p',
      available_phone_numbers_local_list client country_code limit
        (TwilioGateway.search_params area_code contains sms_enabled
           voice_enabled) (provider w) = (Return numbers, p') ->
      no_record w
        (TwilioGateway.search_phone_numbers client lg country_code area_code
           contains sms_enabled voice_enabled limit w))
  /\ (forall limit calls p',
      calls_list client limit (provider w) = (Return calls, p') ->
      no_record w (TwilioGateway.get_call_logs client lg limit w))
  /\ (forall limit messages p',
      messages_list client limit (provider w) = (Return messages, p') ->
      no_record w (TwilioGateway.get_message_logs client lg limit w)).
Proof.
  intros Hon Hpurchase Hcall Hmessage Herror.
  split; [| split; [| split; [| split; [| split; [| split]]]]].
  - intros. eapply release_one_record; eassumption.
  - intros. eapply make_call_one_record; eassumption.
  - intros. eapply send_message_one_record; eassumption.
  - intros. eapply update_error_record; eassumption.
  - intros ? ? ? ? ? ? numbers p' H.
    exact (search_error_record client lg Hon _ _ _ _ _ _ w (Return numbers) p'
             Herror H eq_refl).
  - intros ? calls p' H.
    exact (call_logs_error_record client lg Hon _ w (Return calls) p'
             Herror H eq_refl).
  - intros ? messages p' H.
    exact (message_logs_error_record client lg Hon _ w (Return messages) p'
             Herror H eq_refl).
Qed.

(** On the small provider: releasing the number the account owns writes one
    purchase record, releasing a number it does not own writes one error
    record, and an update the provider accepts writes none. *)
Lemma logged_operations_witness :
  one_record Demo.logger "purchase" Demo.start
    (TwilioGateway.release_phone_number Demo.client Demo.logger "PN1"
       Demo.start)
  /\ one_record Demo.logger "error" Demo.start
       (TwilioGateway.release_phone_number Demo.client Demo.logger "PN7"
          Demo.start)
  /\ no_record Demo.start
       (TwilioGateway.update_phone_number Demo.client Demo.logger "PN1"
          (Some "Front desk") None None None None Demo.start).
Proof.
  destruct (logged_operations_write_one_record Demo.client Demo.logger
              Demo.start eq_refl eq_refl eq_refl eq_refl eq_refl)
    as (Hrelease & _ & _ & Hupdate & _).
  split; [| split].
  - eapply (Hrelease "PN1" (Return (Demo.incoming "PN1" "+14155550100")) _
              (Return true)); [reflexivity | reflexivity | reflexivity |].
    intros _. reflexivity.
  - eapply (Hrelease "PN7" (Raise (Demo.not_found "PN7")) _
              (Raise (Demo.not_found "PN7")));
      [reflexivity | reflexivity | reflexivity |].
    intros Hno. discriminate Hno.
  - eapply (Hupdate "PN1" (Some "Front desk") None None None None
              (Return (Demo.incoming "PN1" "+14155550100"))); reflexivity.
Defined.

(** C2: on the code the truncation is the other way round. A message of 110
    characters is sent: the record in the message file holds the first 97
    characters and three dots, not the body, and the line of the text log
    has no body and no ellipsis at all. *)
Lemma long_message_record_is_truncated :
  let body := Demo.long_body in
  let short :=
    "Your appointment is confirmed for Thursday at 10:30. Reply YES to keep it, NO to cancel, or call ..." in
  let r := TwilioGateway.send_message Demo.client Demo.logger
             "+14155550100" "+14155550199" body Demo.start in
  len body = 110
  /\ fs (snd r) !! "logs/message_2026-11-04.json"
     = Some (Json (VList
         [VDict [("from", VStr "+14155550100"); ("to", VStr "+14155550199");
                 ("status", VStr "queued"); ("body", VStr short);
                 ("sid", VStr "SM1"); ("error", VNone);
                 ("timestamp", VStr "2026-11-04T09:58:00")]]))
  /\ len short = 100
  /\ short <> body
  /\ app_log (snd r)
     = [LogLine INFO "Message from +14155550100 to +14155550199: queued"]
  /\ endswith "Message from +14155550100 to +14155550199: queued" "..." = false.
Proof.
  cbv zeta. repeat split. discriminate.
Qed.

(** C2, as the code has it: for a body longer than 100 characters, the record
    in the message file holds the first 97 characters of the body followed by
    three dots, 100 characters in all; the line of the text log is made of the
    two numbers, the status and the error text, without the body; the result
    handed to the caller holds the body in full. *)
Theorem message_record_body_is_truncated {P : Type}
    (client : Client P) (lg : FileLogger.t)
    (from_number to_number body : string) (w : world P) :
  100 < len body ->
  FileLogger.enabled lg = true ->
  appendable (fs w !! log_file_of lg "message" w) = true ->
  let r := TwilioGateway.send_message client lg from_number to_number body w in
  let short := str_take 97 body ++ "..." in
  len short = 100
  /\ (forall message p',
        messages_create client to_number from_number body (provider w)
        = (Return message, p') ->
        fst r = Return (VDict [("success", VBool true);
                               ("sid", VStr (msg_sid message));
                               ("status", VStr (msg_status message));
                               ("from", VStr from_number);
                               ("to", VStr to_number);
                               ("body", VStr body);
                               ("date_created", VStr (msg_date_created message))])
        /\ fs (snd r)
           = appended (log_file_of lg "message" w)
               (VDict [("from", VStr from_number); ("to", VStr to_number);
                       ("status", VStr (msg_status message));
                       ("body", VStr short);
                       ("sid", VStr (msg_sid message)); ("error", VNone);
                       ("timestamp", stamp_of w)])
               (fs w)
        /\ app_log (snd r)
           = (app_log w
              ++ [LogLine INFO
                    ("Message from " ++ from_number ++ " to " ++ to_number
                     ++ ": " ++ msg_status message)])%list)
  /\ (forall e p',
        messages_create client to_number from_number body (provider w)
        = (Raise (TwilioRestException e), p') ->
        let error_msg := "Error sending message: " ++ e in
        fst r = Return (VDict [("success", VBool false);
                               ("error", VStr error_msg);
                               ("from", VStr from_number);
                               ("to", VStr to_number);
                               ("body", VStr body)])
        /\ fs (snd r)
           = appended (log_file_of lg "message" w)
               (VDict [("from", VStr from_number); ("to", VStr to_number);
                       ("status", VStr "failed");
                       ("body", VStr short);
                       ("sid", VNone); ("error", VStr error_msg);
                       ("timestamp", stamp_of w)])
               (fs w)
        /\ app_log (snd r)
           = (app_log w
              ++ [LogLine ERROR
                    (("Message from " ++ from_number ++ " to " ++ to_number
                      ++ ": failed") ++ " - Error: " ++ error_msg)])%list).
Proof.
  intros Hlen Hon Hok r short. subst r short.
  split; [now apply len_truncated |]. split.
  - intros message p' Hans.
    rewrite (send_message_answered client lg Hon _ _ _ w message p' Hok Hans).
    rewrite (truncated_long body Hlen). cbn [fst snd]. repeat split.
  - intros e p' Hrej error_msg. subst error_msg.
    rewrite (send_message_rejected client lg Hon _ _ _ w e p' Hok Hrej).
    rewrite (truncated_long body Hlen). cbn [fst snd]. repeat split.
Qed.

Lemma message_record_witness :
  let body := Demo.long_body in
  let short :=
    "Your appointment is confirmed for Thursday at 10:30. Reply YES to keep it, NO to cancel, or call ..." in
  let r := TwilioGateway.send_message Demo.client Demo.logger
             "+14155550100" "+14155550199" body Demo.start in
  fst r = Return (VDict [("success", VBool true);
                         ("sid", VStr "SM1");
                         ("status", VStr "queued");
                         ("from", VStr "+14155550100");
                         ("to", VStr "+14155550199");
                         ("body", VStr body);
                         ("date_created", VStr "2026-11-04 09:58:00+00:00")])
  /\ fs (snd r)
     = {["logs/message_2026-11-04.json" :=
           Json (VList
             [VDict [("from", VStr "+14155550100"); ("to", VStr "+14155550199");
                     ("status", VStr "queued"); ("body", VStr short);
                     ("sid", VStr "SM1"); ("error", VNone);
                     ("timestamp", VStr "2026-11-04T09:58:00")]])]}
  /\ app_log (snd r)
     = [LogLine INFO "Message from +14155550100 to +14155550199: queued"].
Proof.
  refine (proj1 (proj2 (message_record_body_is_truncated Demo.client
                          Demo.logger "+14155550100" "+14155550199"
                          Demo.long_body Demo.start _ eq_refl eq_refl))
            _ (provider Demo.start) eq_refl).
  reflexivity.
Defined.

(** C3: on the code, a failing accountInfo does write an error record. Here
    the provider does not know the active account: the method returns the
    error-shaped record, and the error file of the day, which did not exist,
    holds one record of type twilio_account_info. *)
Lemma account_info_failure_writes_error_record :
  let r := TwilioGateway.get_account_info Demo.client Demo.logger
             Demo.stranger Demo.start in
  fst r = Return (VDict [("error", VStr "HTTP 401 error: Authenticate")])
  /\ fs Demo.start !! "logs/error_2026-11-04.json" = None
  /\ fs (snd r) !! "logs/error_2026-11-04.json"
     = Some (Json (VList
         [VDict [("type", VStr "twilio_account_info");
                 ("message",
                  VStr "Error getting account info: HTTP 401 error: Authenticate");
                 ("details", VDict []);
                 ("timestamp", VStr "2026-11-04T09:58:00")]]))
  /\ ~ wrote_none Demo.start (snd r).
Proof.
  cbv zeta. split; [reflexivity |]. split; [reflexivity |].
  split; [reflexivity |].
  unfold wrote_none. intros Heq.
  apply (f_equal (fun m => m !! "logs/error_2026-11-04.json")) in Heq.
  discriminate Heq.
Qed.

(** C3, as the code has it: when the provider rejects the account fetch,
    accountInfo returns the record that holds the error text alone, and with
    logging enabled it writes one error record, of type twilio_account_info,
    and one error line of the text log. *)
Theorem account_info_failure_is_logged {P : Type}
    (client : Client P) (lg : FileLogger.t) (self : TwilioGateway.t)
    (e : string) (p' : P) (w : world P) :
  FileLogger.enabled lg = true ->
  appendable (fs w !! log_file_of lg "error" w) = true ->
  accounts_fetch client (TwilioGateway.active_sid self) (provider w)
  = (Raise (TwilioRestException e), p') ->
  let r := TwilioGateway.get_account_info client lg self w in
  let message := "Error getting account info: " ++ e in
  fst r = Return (VDict [("error", VStr e)])
  /\ fs (snd r)
     = appended (log_file_of lg "error" w)
         (VDict [("type", VStr "twilio_account_info");
                 ("message", VStr message);
                 ("details", VDict []);
                 ("timestamp", stamp_of w)])
         (fs w)
  /\ record_count (fs (snd r)) = S (record_count (fs w))
  /\ app_log (snd r)
     = (app_log w ++ [LogLine ERROR ("twilio_account_info: " ++ message)])%list.
Proof.
  intros Hon Hok Hrej r message. subst r.
  rewrite (account_info_rejected client lg self Hon w e p' Hok Hrej).
  cbn [fst snd]. split; [reflexivity |]. split; [reflexivity |].
  split; [count_one | reflexivity].
Qed.

Lemma account_info_failure_witness :
  let r := TwilioGateway.get_account_info Demo.client Demo.logger
             Demo.stranger Demo.start in
  let message := "Error getting account info: HTTP 401 error: Authenticate" in
  fst r = Return (VDict [("error", VStr "HTTP 401 error: Authenticate")])
  /\ fs (snd r)
     = {["logs/error_2026-11-04.json" :=
           Json (VList [VDict [("type", VStr "twilio_account_info");
                               ("message", VStr message);
                               ("details", VDict []);
                               ("timestamp", VStr "2026-11-04T09:58:00")]])]}
  /\ record_count (fs (snd r)) = 1%nat
  /\ app_log (snd r) = [LogLine ERROR ("twilio_account_info: " ++ message)].
Proof.
  exact (account_info_failure_is_logged Demo.client Demo.logger Demo.stranger
           "HTTP 401 error: Authenticate" (provider Demo.start) Demo.start
           eq_refl eq_refl eq_refl).
Defined.

(** C4: the flag is not "count equals limit" on the code. With a limit of
    zero the provider lists everything it has; two results come back and the
    flag is true, though two is not the limit. *)
Lemma search_limit_zero_has_more :
  let limit := 0 in
  let r := TwilioGateway.search_phone_numbers Demo.client Demo.logger "US"
             None None false false limit Demo.start in
  exists results,
    fst r = Return (results, true)
    /\ length results = 2%nat
    /\ Z.of_nat (length results) <> limit.
Proof.
  cbv zeta. eexists. split; [reflexivity |]. split; [reflexivity |].
  discriminate.
Qed.

(** C4, as the code has it: on a successful search the flag is true if and
    only if the number of results is at least the limit. So it is false
    whenever fewer results than the limit come back, and when the provider
    returns no more than the limit it is true exactly when the count equals
    the limit. *)
Theorem search_has_more_iff_limit_reached {P : Type}
    (client : Client P) (lg : FileLogger.t)
    (country_code : string) (area_code contains : option string)
    (sms_enabled voice_enabled : bool) (limit : Z)
    (numbers : list AvailableNumber) (p' : P) (w : world P) :
  available_phone_numbers_local_list client country_code limit
    (TwilioGateway.search_params area_code contains sms_enabled voice_enabled)
    (provider w)
  = (Return numbers, p') ->
  let r := TwilioGateway.search_phone_numbers client lg country_code area_code
             contains sms_enabled voice_enabled limit w in
  exists results has_more,
    fst r = Return (results, has_more)
    /\ results = map TwilioGateway.available_number_dict numbers
    /\ (has_more = true <-> limit <= Z.of_nat (length results))
    /\ (Z.of_nat (length results) < limit -> has_more = false)
    /\ (Z.of_nat (length results) <= limit ->
        (has_more = true <-> Z.of_nat (length results) = limit)).
Proof.
  intros Hans r. subst r.
  rewrite (search_answered client lg _ _ _ _ _ _ w numbers p' Hans).
  cbn [fst]. do 2 eexists. split; [reflexivity |]. split; [reflexivity |].
  rewrite length_map.
  destruct (Z.leb_spec limit (Z.of_nat (length numbers))) as [Hle | Hlt].
  - repeat split; intros; try lia; reflexivity.
  - repeat split; intros; try lia; try discriminate; reflexivity.
Qed.

Lemma search_has_more_witness :
  let r := TwilioGateway.search_phone_numbers Demo.client Demo.logger "US"
             None None false false 2 Demo.start in
  let r1 := TwilioGateway.search_phone_numbers Demo.client Demo.logger "US"
              None None false false 3 Demo.start in
  (exists results, fst r = Return (results, true) /\ length results = 2%nat)
  /\ (exists results, fst r1 = Return (results, false) /\ length results = 2%nat).
Proof.
  cbv zeta. split.
  - destruct (search_has_more_iff_limit_reached Demo.client Demo.logger "US"
                None None false false 2
                (map Demo.available ["+14155550101"; "+14155550102"])
                (provider Demo.start) Demo.start eq_refl)
      as (results & has_more & Hres & Hmap & Hiff & _).
    exists results. subst results.
    rewrite Hres. split; [| reflexivity].
    rewrite (proj2 Hiff); [reflexivity | cbn; lia].
  - destruct (search_has_more_iff_limit_reached Demo.client Demo.logger "US"
                None None false false 3
                (map Demo.available ["+14155550101"; "+14155550102"])
                (provider Demo.start) Demo.start eq_refl)
      as (results & has_more & Hres & Hmap & _ & Hfew & _).
    exists results. subst results.
    rewrite Hres. split; [| reflexivity].
    rewrite Hfew; [reflexivity | cbn; lia].
Defined.

(** C5: a purchase does not get as far as the provider. On every purchase
    the gateway names the keyword account_sid in its call of create. The
    SDK method has no such keyword, so the call raises TypeError, which the
    handler for TwilioRestException does not catch: the method raises to its
    caller, returns no result and logs nothing. So it is on the small
    provider for a number that is not in stock, with logging enabled. *)
Theorem purchase_raises_on_the_account_keyword :
  (forall self phone_number friendly_name,
      let kwargs := TwilioGateway.purchase_kwargs self phone_number
                      friendly_name in
      dict_lookup kwargs "account_sid" = Some (TwilioGateway.active_sid self)
      /\ Demo.has "account_sid" Demo.create_keywords = false
      /\ Demo.first_unexpected Demo.create_keywords kwargs
         = Some "account_sid")
  /\ (forall (P : Type) (client : Client P) lg self phone_number
             friendly_name msg p' (w : world P),
      let kwargs := TwilioGateway.purchase_kwargs self phone_number
                      friendly_name in
      incoming_phone_numbers_create client kwargs (provider w)
      = (Raise (TypeError msg), p') ->
      TwilioGateway.purchase_phone_number client lg self phone_number
        friendly_name w
      = (Raise (TypeError msg), called (IncomingCreate kwargs) p' w))
  /\ (let r := TwilioGateway.purchase_phone_number Demo.client Demo.logger
                 Demo.gateway "+14155550100" None Demo.start in
      FileLogger.enabled Demo.logger = true
      /\ Demo.has "+14155550100" (Demo.stock (provider Demo.start)) = false
      /\ fst r
         = Raise (TypeError
                    "IncomingPhoneNumberList.create() got an unexpected keyword argument 'account_sid'")
      /\ provider (snd r) = provider Demo.start
      /\ fs (snd r) = fs Demo.start
      /\ record_count (fs (snd r)) = 0%nat
      /\ app_log (snd r) = []).
Proof.
  split; [| split].
  - intros self phone_number friendly_name. cbv zeta. repeat split.
  - intros P client lg self phone_number friendly_name msg p' w kwargs Hraise.
    now apply try_call_raised.
  - cbv zeta. repeat split.
Qed.

(** C6: release fetches the number, then deletes it. When the provider
    rejects the fetch, the delete is never sent; when it rejects the delete,
    both were sent, in that order. Either way release returns false, writes
    one error record and comes back to the caller. When both succeed, the
    phone number that the fetch gave goes to the 'released' record. *)
Theorem release_failure_returns_false_and_logs {P : Type}
    (client : Client P) (lg : FileLogger.t) (sid : string) (w : world P) :
  FileLogger.enabled lg = true ->
  let r := TwilioGateway.release_phone_number client lg sid w in
  let failure (e : string) :=
    fst r = Return false
    /\ fs (snd r)
       = appended (log_file_of lg "error" w)
           (VDict [("type", VStr "twilio_release");
                   ("message", VStr ("Error releasing phone number: " ++ e));
                   ("details", VDict []);
                   ("timestamp", stamp_of w)])
           (fs w)
    /\ record_count (fs (snd r)) = S (record_count (fs w)) in
  (forall e p1,
      appendable (fs w !! log_file_of lg "error" w) = true ->
      incoming_phone_numbers_fetch client sid (provider w)
      = (Raise (TwilioRestException e), p1) ->
      failure e
      /\ sent (snd r) = (sent w ++ [IncomingFetch sid])%list
      /\ provider (snd r) = p1)
  /\ (forall number p1 e p2,
      appendable (fs w !! log_file_of lg "error" w) = true ->
      incoming_phone_numbers_fetch client sid (provider w) = (Return number, p1) ->
      incoming_phone_numbers_delete client sid p1
      = (Raise (TwilioRestException e), p2) ->
      failure e
      /\ sent (snd r) = (sent w ++ [IncomingFetch sid; IncomingDelete sid])%list
      /\ provider (snd r) = p2)
  /\ (forall number p1 deleted p2,
      appendable (fs w !! log_file_of lg "purchase" w) = true ->
      incoming_phone_numbers_fetch client sid (provider w) = (Return number, p1) ->
      incoming_phone_numbers_delete client sid p1 = (Return deleted, p2) ->
      fst r = Return true
      /\ fs (snd r)
         = appended (log_file_of lg "purchase" w)
             (VDict [("phone_number", VStr (in_phone_number number));
                     ("status", VStr "released");
                     ("price", VNone); ("sid", VStr sid); ("error", VNone);
                     ("timestamp", stamp_of w)])
             (fs w)
      /\ sent (snd r) = (sent w ++ [IncomingFetch sid; IncomingDelete sid])%list
      /\ provider (snd r) = p2).
Proof.
  intros Hon r failure. subst r failure. cbv beta. split; [| split].
  - intros e p1 Hok Hfetch.
    rewrite (release_fetch_rejected client lg Hon sid w e p1 Hok Hfetch).
    cbn [fst snd]. repeat split. count_one.
  - intros number p1 e p2 Hok Hfetch Hdel.
    rewrite (release_delete_rejected client lg Hon sid w number p1 e p2
               Hok Hfetch Hdel).
    cbn [fst snd]. repeat split; [count_one |].
    cbn [sent emitted error_logged written called]. now rewrite <- app_assoc.
  - intros number p1 deleted p2 Hok Hfetch Hdel.
    rewrite (release_answered client lg Hon sid w number p1 deleted p2
               Hok Hfetch Hdel).
    cbn [fst snd]. repeat split.
    cbn [sent mirrored truthy emitted written called]. now rewrite <- app_assoc.
Qed.

(** The number PN1 is released, and released again: the second release finds
    nothing to fetch, returns false, sends no delete, and leaves one record
    in the error file next to the 'released' record of the first. *)
Lemma release_twice_witness :
  let w1 := snd (TwilioGateway.release_phone_number Demo.client Demo.logger
                   "PN1" Demo.start) in
  let r := TwilioGateway.release_phone_number Demo.client Demo.logger "PN1" w1 in
  (fst r = Return false
   /\ fs (snd r)
      = <["logs/error_2026-11-04.json" :=
            Json (VList
              [VDict [("type", VStr "twilio_release");
                      ("message",
                       VStr "Error releasing phone number: HTTP 404 error: The requested resource PN1 was not found");
                      ("details", VDict []);
                      ("timestamp", VStr "2026-11-04T09:58:02")]])]> (fs w1)
   /\ record_count (fs (snd r)) = 2%nat)
  /\ sent (snd r)
     = [IncomingFetch "PN1"; IncomingDelete "PN1"; IncomingFetch "PN1"]
  /\ provider (snd r) = provider w1.
Proof.
  exact (proj1 (release_failure_returns_false_and_logs Demo.client Demo.logger
                  "PN1"
                  (snd (TwilioGateway.release_phone_number Demo.client
                          Demo.logger "PN1" Demo.start))
                  eq_refl)
           "HTTP 404 error: The requested resource PN1 was not found"
           _ eq_refl eq_refl).
Defined.

(** C7: not every malformed day file is taken for an empty one. The call
    file of the day holds a JSON object, which json.load decodes: the write
    raises AttributeError, the file is as it was, and it does not hold
    exactly one record. *)
Lemma write_fails_on_a_json_object_file :
  let w := Demo.with_files
             {["logs/call_2026-11-04.json" := Json (VDict [])]} Demo.start in
  let r := FileLogger._write_json_log Demo.logger "call"
             [("from", VStr "+14155550100"); ("status", VStr "queued")] w in
  FileLogger.enabled Demo.logger = true
  /\ fst r
     = Raise (AttributeError "'dict' object has no attribute 'append'")
  /\ fst r <> Return tt
  /\ fs (snd r) = fs w
  /\ fs (snd r) !! "logs/call_2026-11-04.json" = Some (Json (VDict []))
  /\ length (entries (fs (snd r) !! "logs/call_2026-11-04.json")) <> 1%nat.
Proof.
  cbv zeta. repeat split; discriminate.
Qed.

(** C7, as the code has it. When the day file of the category is missing,
    or holds text that json.load rejects with JSONDecodeError, a write
    succeeds and leaves a file that holds exactly the record just written;
    what the file held is gone, and no other file changes. When the file
    holds a JSON value that is not an array, the write raises
    AttributeError and every file is as it was. *)
Theorem write_recovers_missing_or_malformed_file {P : Type}
    (lg : FileLogger.t) (log_type : string) (data : list (string * value))
    (w : world P) :
  FileLogger.enabled lg = true ->
  let r := FileLogger._write_json_log lg log_type data w in
  let rec := VDict (dict_set data "timestamp" (stamp_of w)) in
  ((fs w !! log_file_of lg log_type w = None
    \/ exists raw, fs w !! log_file_of lg log_type w = Some (Invalid raw)) ->
   fst r = Return tt
   /\ fs (snd r) = <[log_file_of lg log_type w := Json (VList [rec])]> (fs w)
   /\ entries (fs (snd r) !! log_file_of lg log_type w) = [rec]
   /\ length (entries (fs (snd r) !! log_file_of lg log_type w)) = 1%nat)
  /\ (forall v,
      fs w !! log_file_of lg log_type w = Some (Json v) ->
      (forall l, v <> VList l) ->
      fst r
      = Raise (AttributeError
                 ("'" ++ type_name v ++ "' object has no attribute 'append'"))
      /\ fs (snd r) = fs w
      /\ app_log (snd r) = app_log w).
Proof.
  intros Hon r rec. subst r rec. split.
  - intros Hfile.
    assert (Hent : entries (fs w !! log_file_of lg log_type w) = []
                   /\ appendable (fs w !! log_file_of lg log_type w) = true).
    { destruct Hfile as [Hnone | [raw Hraw]].
      - now rewrite Hnone.
      - now rewrite Hraw. }
    destruct Hent as [Hent Hok].
    rewrite (write_json_log_enabled lg log_type data w Hon Hok).
    unfold written. cbn [fst snd fs]. rewrite Hent. cbn [app].
    rewrite lookup_insert_eq. cbn [entries length]. repeat split.
  - intros v Hfile Hv.
    unfold FileLogger._write_json_log, FileLogger._get_log_file_path.
    rewrite Hon. cbn [negb].
    unfold bind, FileLogger.now, ret, FileLogger.read_logs; cbn [fs clock tick].
    fold (log_file_of lg log_type w). rewrite Hfile.
    destruct v as [| b | n | q | s | l | d];
      try (now destruct (Hv l)); cbn; repeat split.
Qed.

Lemma write_recovers_witness :
  let w := Demo.with_files
             {["logs/call_2026-11-04.json" := Invalid "[{'from': "]} Demo.start in
  let r := FileLogger._write_json_log Demo.logger "call"
             [("from", VStr "+14155550100"); ("status", VStr "queued")] w in
  let rec := VDict [("from", VStr "+14155550100"); ("status", VStr "queued");
                    ("timestamp", VStr "2026-11-04T09:58:00")] in
  fst r = Return tt
  /\ fs (snd r) = <["logs/call_2026-11-04.json" := Json (VList [rec])]> (fs w)
  /\ entries (fs (snd r) !! "logs/call_2026-11-04.json") = [rec]
  /\ length (entries (fs (snd r) !! "logs/call_2026-11-04.json")) = 1%nat.
Proof.
  apply (write_recovers_missing_or_malformed_file Demo.logger "call"
           [("from", VStr "+14155550100"); ("status", VStr "queued")]
           (Demo.with_files
              {["logs/call_2026-11-04.json" := Invalid "[{'from': "]}
              Demo.start)).
  - reflexivity.
  - right. exists "[{'from': ". reflexivity.
Defined.

(** C8: a search that the provider rejects is not normalised. When a page
    of a listing is refused the SDK raises TwilioException, the base class
    and not TwilioRestException, and the handler of search_phone_numbers is
    for the latter only: the search raises to its caller, returns no result
    and logs nothing. So it is on the small provider for a country it does
    not serve, with logging enabled. *)
Theorem rejected_search_raises_to_the_caller :
  (forall (P : Type) (client : Client P) lg country_code area_code contains
          sms_enabled voice_enabled limit msg p' (w : world P),
      let params := TwilioGateway.search_params area_code contains sms_enabled
                      voice_enabled in
      available_phone_numbers_local_list client country_code limit params
        (provider w) = (Raise (TwilioException msg), p') ->
      TwilioGateway.search_phone_numbers client lg country_code area_code
        contains sms_enabled voice_enabled limit w
      = (Raise (TwilioException msg),
         called (AvailableLocalList country_code limit params) p' w))
  /\ (let r := TwilioGateway.search_phone_numbers Demo.client Demo.logger "ZZ"
                 None None false false 20 Demo.start in
      FileLogger.enabled Demo.logger = true
      /\ fst r = Raise (TwilioException "Unable to fetch page")
      /\ fst r <> Return ([], false)
      /\ sent (snd r) = [AvailableLocalList "ZZ" 20 []]
      /\ fs (snd r) = fs Demo.start
      /\ record_count (fs (snd r)) = 0%nat
      /\ app_log (snd r) = []).
Proof.
  split.
  - intros P client lg country_code area_code contains sms_enabled
      voice_enabled limit msg p' w params Hraise.
    now apply try_call_raised.
  - cbv zeta. repeat split. discriminate.
Qed.

(** C9: the search through the SDK does not normalise a transport failure
    either. The network is down: the search through the SDK raises the
    exception of the transport to its caller, as the raw search does; it
    does not return the empty result, and nothing is logged. *)
Lemma sdk_search_transport_failure_propagates :
  let r := TwilioGateway.search_phone_numbers Unreachable.client Demo.logger
             "US" None None false false 20 Unreachable.start in
  let raw := TwilioGateway.search_phone_numbers_raw Unreachable.client
               Demo.logger Demo.gateway "US" [] Unreachable.start in
  fst raw = Raise (RequestException "Connection refused")
  /\ fst r = Raise (RequestException "Connection refused")
  /\ fst r <> Return ([], false)
  /\ sent (snd r) = [AvailableLocalList "US" 20 []]
  /\ fs (snd r) = fs Unreachable.start
  /\ app_log (snd r) = [].
Proof.
  cbv zeta. repeat split. discriminate.
Qed.

(** C9, as the code has it: the raw HTTP search has no handler around
    requests.get. Whatever that call raises reaches the caller as it is,
    after the request went out and with nothing logged. The search through
    the SDK is no different on a transport failure: its handler is for
    TwilioRestException only, and any other exception of the SDK call
    reaches the caller in the same way, after the request went out and with
    nothing logged. *)
Theorem raw_search_transport_failure_propagates {P : Type}
    (client : Client P) (lg : FileLogger.t) (self : TwilioGateway.t)
    (country_code : string) (e : exn) (p' : P) (w : world P) :
  (forall params,
      let url := TwilioGateway.raw_search_url self country_code in
      let auth :=
        (TwilioGateway.account_sid self, TwilioGateway.auth_token self) in
      requests_get client url params auth (provider w) = (Raise e, p') ->
      TwilioGateway.search_phone_numbers_raw client lg self country_code
        params w
      = (Raise e,
         World p' (sent w ++ [HttpGet url params auth]) (fs w) (app_log w)
           (clock w) (tick w)))
  /\ (forall area_code contains sms_enabled voice_enabled limit,
      let params := TwilioGateway.search_params area_code contains sms_enabled
                      voice_enabled in
      foreign e = true ->
      available_phone_numbers_local_list client country_code limit params
        (provider w) = (Raise e, p') ->
      TwilioGateway.search_phone_numbers client lg country_code area_code
        contains sms_enabled voice_enabled limit w
      = (Raise e,
         World p' (sent w ++ [AvailableLocalList country_code limit params])
           (fs w) (app_log w) (clock w) (tick w))).
Proof.
  split.
  - intros params url auth Hraise.
    exact (search_raw_raised client lg self country_code params w e p' Hraise).
  - intros area_code contains sms_enabled voice_enabled limit params Hf Hraise.
    now apply try_call_raised.
Qed.

Lemma raw_search_unplugged_witness :
  let url :=
    "https://api.twilio.com/2010-04-01/Accounts/AC1/AvailablePhoneNumbers/US/Local.json" in
  TwilioGateway.search_phone_numbers_raw Unreachable.client Demo.logger
    Demo.gateway "US" [("AreaCode", VStr "415")] Unreachable.start
  = (Raise (RequestException "Connection refused"),
     World tt [HttpGet url [("AreaCode", VStr "415")] ("AC1", "secret")] ∅ []
       Demo.morning O)
  /\ TwilioGateway.search_phone_numbers Unreachable.client Demo.logger "US"
       None None false false 20 Unreachable.start
     = (Raise (RequestException "Connection refused"),
        World tt [AvailableLocalList "US" 20 []] ∅ [] Demo.morning O).
Proof.
  cbv zeta.
  destruct (raw_search_transport_failure_propagates Unreachable.client
              Demo.logger Demo.gateway "US"
              (RequestException "Connection refused") tt Unreachable.start)
    as [Hraw Hsdk].
  split.
  - apply (Hraw [("AreaCode", VStr "415")]). reflexivity.
  - apply (Hsdk None None false false 20); reflexivity.
Defined.

(** C10: when make_call is given a url and twiml, the request carries the
    url and no twiml: the twiml has no effect on what is sent, on the result
    or on the logs, and the call is sent, not refused. *)
Theorem make_call_url_takes_precedence {P : Type}
    (client : Client P) (lg : FileLogger.t)
    (from_number to_number url twiml : string) (w : world P) :
  url <> EmptyString ->
  let kwargs := [("to", to_number); ("from_", from_number); ("url", url)] in
  TwilioGateway.make_call_kwargs from_number to_number (Some url) (Some twiml)
  = kwargs
  /\ dict_lookup kwargs "twiml" = None
  /\ sent (snd (TwilioGateway.make_call client lg from_number to_number
                  (Some url) (Some twiml) w))
     = (sent w ++ [CallsCreate kwargs])%list
  /\ TwilioGateway.make_call client lg from_number to_number
       (Some url) (Some twiml) w
     = TwilioGateway.make_call client lg from_number to_number
         (Some url) None w.
Proof.
  intros Hurl kwargs.
  assert (Hk : forall t,
             TwilioGateway.make_call_kwargs from_number to_number (Some url) t
             = kwargs).
  { intros t. unfold TwilioGateway.make_call_kwargs, truthy.
    rewrite (proj2 (String.eqb_neq url EmptyString) Hurl). reflexivity. }
  split; [apply Hk |]. split; [reflexivity |]. split.
  - rewrite make_call_sends. now rewrite Hk.
  - unfold TwilioGateway.make_call. now rewrite !Hk.
Qed.

Lemma make_call_url_witness :
  let kwargs :=
    [("to", "+14155550199"); ("from_", "+14155550100");
     ("url", "https://example.com/voice.xml")] in
  TwilioGateway.make_call_kwargs "+14155550100" "+14155550199"
    (Some "https://example.com/voice.xml")
    (Some "<Response><Say>Hello</Say></Response>")
  = kwargs
  /\ dict_lookup kwargs "twiml" = None
  /\ sent (snd (TwilioGateway.make_call Demo.client Demo.logger
                  "+14155550100" "+14155550199"
                  (Some "https://example.com/voice.xml")
                  (Some "<Response><Say>Hello</Say></Response>") Demo.start))
     = [CallsCreate kwargs]
  /\ TwilioGateway.make_call Demo.client Demo.logger
       "+14155550100" "+14155550199"
       (Some "https://example.com/voice.xml")
       (Some "<Response><Say>Hello</Say></Response>") Demo.start
     = TwilioGateway.make_call Demo.client Demo.logger
         "+14155550100" "+14155550199"
         (Some "https://example.com/voice.xml") None Demo.start.
Proof.
  apply (make_call_url_takes_precedence Demo.client Demo.logger
           "+14155550100" "+14155550199" "https://example.com/voice.xml"
           "<Response><Say>Hello</Say></Response>" Demo.start).
  discriminate.
Defined.

(** * Further properties of the code *)

(** ** The file logger *)

Section LoggerMore.

Context {P : Type}.
Variable lg : FileLogger.t.

Lemma dict_lookup_set_eq {A : Type} (d : list (string * A)) k v :
  dict_lookup (dict_set d k v) k = Some v.
Proof.
  induction d as [|[k' v'] d IH]; cbn [dict_set dict_lookup].
  - now rewrite String.eqb_refl.
  - destruct (String.eqb k' k) eqn:Hk; cbn [dict_lookup]; rewrite Hk;
      [reflexivity | exact IH].
Qed.

Lemma dict_lookup_set_ne {A : Type} (d : list (string * A)) k k' v :
  k' <> k -> dict_lookup (dict_set d k v) k' = dict_lookup d k'.
Proof.
  intros Hne. induction d as [|[k0 v0] d IH]; cbn [dict_set dict_lookup].
  - now rewrite (proj2 (String.eqb_neq k k') (not_eq_sym Hne)).
  - destruct (String.eqb k0 k) eqn:Hk; cbn [dict_lookup].
    + apply String.eqb_eq in Hk. subst k0.
      now rewrite (proj2 (String.eqb_neq k k') (not_eq_sym Hne)).
    + now rewrite IH.
Qed.

Lemma entries_appended path rec (files : gmap string file_content) :
  entries (appended path rec files !! path) = (entries (files !! path) ++ [rec])%list.
Proof. unfold appended. now rewrite lookup_insert_eq. Qed.

Lemma appended_other path path' rec (files : gmap string file_content) :
  path' <> path -> appended path rec files !! path' = files !! path'.
Proof. intros Hne. unfold appended. now rewrite lookup_insert_ne. Qed.

(** With a day file that decodes to something else than an array, the write
    raises and touches neither the files nor the text log. *)
Lemma write_json_log_refused log_type data (w : world P) :
  FileLogger.enabled lg = true ->
  appendable (fs w !! log_file_of lg log_type w) = false ->
  exists msg w',
    FileLogger._write_json_log lg log_type data w = (Raise (AttributeError msg), w')
    /\ fs w' = fs w /\ app_log w' = app_log w
    /\ sent w' = sent w /\ provider w' = provider w.
Proof.
  intros Hon Hbad.
  unfold FileLogger._write_json_log, FileLogger._get_log_file_path.
  rewrite Hon. cbn [negb].
  unfold bind, FileLogger.now, ret, FileLogger.read_logs; cbn [fs clock tick].
  fold (log_file_of lg log_type w).
  destruct (fs w !! log_file_of lg log_type w) as [[raw|v]|]; try discriminate Hbad.
  destruct v; try discriminate Hbad; cbn; eauto 10.
Qed.

Hypothesis Hoff : FileLogger.enabled lg = false.

Lemma log_call_off from_number to_number status sid duration error (w : world P) :
  FileLogger.log_call lg from_number to_number status sid duration error w
  = (Return tt, w).
Proof.
  unfold FileLogger.log_call, bind.
  now rewrite (write_json_log_disabled lg _ _ w Hoff), Hoff.
Qed.

Lemma log_message_off from_number to_number status body sid error (w : world P) :
  FileLogger.log_message lg from_number to_number status body sid error w
  = (Return tt, w).
Proof.
  unfold FileLogger.log_message, bind.
  now rewrite (write_json_log_disabled lg _ _ w Hoff), Hoff.
Qed.

Lemma log_purchase_off phone_number status price sid error (w : world P) :
  FileLogger.log_purchase lg phone_number status price sid error w
  = (Return tt, w).
Proof.
  unfold FileLogger.log_purchase, bind.
  now rewrite (write_json_log_disabled lg _ _ w Hoff), Hoff.
Qed.

Lemma log_error_off error_type message details (w : world P) :
  FileLogger.log_error lg error_type message details w = (Return tt, w).
Proof.
  unfold FileLogger.log_error, bind.
  now rewrite (write_json_log_disabled lg _ _ w Hoff), Hoff.
Qed.

End LoggerMore.

(** X1: with logging turned off, every logging call returns at once and the
    world is exactly as before: no file, no text line, no clock read. *)
Theorem disabled_logger_is_a_no_op {P : Type} (lg : FileLogger.t) (w : world P) :
  FileLogger.enabled lg = false ->
  (forall log_type data,
      FileLogger._write_json_log lg log_type data w = (Return tt, w))
  /\ (forall from_number to_number status sid duration error,
      FileLogger.log_call lg from_number to_number status sid duration error w
      = (Return tt, w))
  /\ (forall from_number to_number status body sid error,
      FileLogger.log_message lg from_number to_number status body sid error w
      = (Return tt, w))
  /\ (forall phone_number status price sid error,
      FileLogger.log_purchase lg phone_number status price sid error w
      = (Return tt, w))
  /\ (forall error_type message details,
      FileLogger.log_error lg error_type message details w = (Return tt, w)).
Proof.
  intros Hoff. split; [| split; [| split; [| split]]]; intros.
  - now apply write_json_log_disabled.
  - now apply log_call_off.
  - now apply log_message_off.
  - now apply log_purchase_off.
  - now apply log_error_off.
Qed.

Lemma disabled_logger_witness :
  let lg := FileLogger.Make false "logs" in
  FileLogger.log_error lg "twilio_search" "Error" None Demo.start
  = (Return tt, Demo.start).
Proof.
  exact (proj2 (proj2 (proj2 (proj2
           (disabled_logger_is_a_no_op (FileLogger.Make false "logs")
              Demo.start eq_refl))))
           "twilio_search" "Error" None).
Defined.

(** X2: when the day file holds an array of records, a write puts the new
    record after them: the earlier records stay as they are and in their
    order, and every other file is left alone. *)
Theorem write_keeps_earlier_records {P : Type} (lg : FileLogger.t)
    (log_type : string) (data : list (string * value)) (l : list value)
    (w : world P) :
  FileLogger.enabled lg = true ->
  fs w !! log_file_of lg log_type w = Some (Json (VList l)) ->
  let r := FileLogger._write_json_log lg log_type data w in
  let rec := VDict (dict_set data "timestamp" (stamp_of w)) in
  fst r = Return tt
  /\ fs (snd r) !! log_file_of lg log_type w = Some (Json (VList (l ++ [rec])))
  /\ (forall path, path <> log_file_of lg log_type w ->
                   fs (snd r) !! path = fs w !! path)
  /\ app_log (snd r) = app_log w.
Proof.
  intros Hon Hfile r rec. subst r rec.
  rewrite (write_json_log_enabled lg log_type data w Hon)
    by now rewrite Hfile.
  unfold written. cbn [fst snd fs app_log]. rewrite Hfile. cbn [entries].
  split; [reflexivity |]. split; [apply lookup_insert_eq |].
  split; [| reflexivity].
  intros path Hne. now apply lookup_insert_ne.
Qed.

Lemma write_keeps_earlier_witness :
  let old := VDict [("type", VStr "twilio_search")] in
  let w := Demo.with_files
             {["logs/error_2026-11-04.json" := Json (VList [old])]} Demo.start in
  let r := FileLogger._write_json_log Demo.logger "error"
             [("type", VStr "twilio_update")] w in
  fst r = Return tt
  /\ fs (snd r) !! "logs/error_2026-11-04.json"
     = Some (Json (VList
         [old;
          VDict [("type", VStr "twilio_update");
                 ("timestamp", VStr "2026-11-04T09:58:00")]])).
Proof.
  cbv zeta.
  destruct (write_keeps_earlier_records Demo.logger "error"
              [("type", VStr "twilio_update")]
              [VDict [("type", VStr "twilio_search")]]
              (Demo.with_files
                 {["logs/error_2026-11-04.json" :=
                     Json (VList [VDict [("type", VStr "twilio_search")]])]}
                 Demo.start)) as (Hret & Hfile & _); [reflexivity .. |].
  split; [exact Hret | exact Hfile].
Defined.

(** X3: two writes of one category that fall in the same day file leave both
    records after what the file held, the first before the second. *)
Theorem two_writes_accumulate {P : Type} (lg : FileLogger.t)
    (log_type : string) (data1 data2 : list (string * value)) (w : world P) :
  FileLogger.enabled lg = true ->
  appendable (fs w !! log_file_of lg log_type w) = true ->
  let w1 := snd (FileLogger._write_json_log lg log_type data1 w) in
  log_file_of lg log_type w1 = log_file_of lg log_type w ->
  let r := FileLogger._write_json_log lg log_type data2 w1 in
  fst r = Return tt
  /\ entries (fs (snd r) !! log_file_of lg log_type w)
     = (entries (fs w !! log_file_of lg log_type w)
        ++ [VDict (dict_set data1 "timestamp" (stamp_of w));
            VDict (dict_set data2 "timestamp" (stamp_of w1))])%list
  /\ record_count (fs (snd r)) = S (S (record_count (fs w))).
Proof.
  intros Hon Hok w1 Hsame r. subst r.
  assert (Hw1 : w1 = written lg log_type data1 w)
    by (subst w1; now rewrite (write_json_log_enabled lg log_type data1 w Hon Hok)).
  assert (Hfile : fs w1 !! log_file_of lg log_type w
                  = Some (Json (VList (entries (fs w !! log_file_of lg log_type w)
                                       ++ [VDict (dict_set data1 "timestamp"
                                                    (stamp_of w))]))))
    by (rewrite Hw1; unfold written; cbn [fs]; apply lookup_insert_eq).
  assert (Hok1 : appendable (fs w1 !! log_file_of lg log_type w1) = true)
    by now rewrite Hsame, Hfile.
  rewrite (write_json_log_enabled lg log_type data2 w1 Hon Hok1).
  cbn [fst snd]. split; [reflexivity |]. split.
  - unfold written at 1. cbn [fs]. rewrite Hsame, lookup_insert_eq, Hfile.
    cbn [entries]. now rewrite <- app_assoc.
  - rewrite (record_count_written lg log_type data2 w1). f_equal.
    rewrite Hw1. apply record_count_written.
Qed.

Lemma two_writes_witness :
  let r := FileLogger._write_json_log Demo.logger "call" [("to", VStr "+1")]
             (snd (FileLogger._write_json_log Demo.logger "call"
                     [("to", VStr "+2")] Demo.start)) in
  fst r = Return tt
  /\ entries (fs (snd r) !! "logs/call_2026-11-04.json")
     = [VDict [("to", VStr "+2"); ("timestamp", VStr "2026-11-04T09:58:00")];
        VDict [("to", VStr "+1"); ("timestamp", VStr "2026-11-04T09:58:02")]]
  /\ record_count (fs (snd r)) = 2%nat.
Proof.
  apply (two_writes_accumulate Demo.logger "call" [("to", VStr "+2")]
           [("to", VStr "+1")] Demo.start); reflexivity.
Defined.

(** X4: when the day file decodes to a value that is not an array, every
    logging call raises AttributeError; no file changes and the line of the
    text log is not written either. *)
Theorem logging_refused_on_non_array_file {P : Type} (lg : FileLogger.t)
    (w : world P) :
  FileLogger.enabled lg = true ->
  (forall from_number to_number status sid duration error,
      appendable (fs w !! log_file_of lg "call" w) = false ->
      refused w (FileLogger.log_call lg from_number to_number status sid
                   duration error w))
  /\ (forall from_number to_number status body sid error,
      appendable (fs w !! log_file_of lg "message" w) = false ->
      refused w (FileLogger.log_message lg from_number to_number status body
                   sid error w))
  /\ (forall phone_number status price sid error,
      appendable (fs w !! log_file_of lg "purchase" w) = false ->
      refused w (FileLogger.log_purchase lg phone_number status price sid
                   error w))
  /\ (forall error_type message details,
      appendable (fs w !! log_file_of lg "error" w) = false ->
      refused w (FileLogger.log_error lg error_type message details w)).
Proof.
  intros Hon.
  repeat split; intros;
    unfold FileLogger.log_call, FileLogger.log_message, FileLogger.log_purchase,
      FileLogger.log_error, bind, refused;
    match goal with
    | H : appendable _ = false
      |- context [FileLogger._write_json_log lg ?t ?d w] =>
        destruct (write_json_log_refused lg t d w Hon H)
          as (msg & w' & -> & Hfs & Hlog & _)
    end;
    exists msg; cbn [fst snd]; auto.
Qed.

Lemma logging_refused_witness :
  let w := Demo.with_files
             {["logs/error_2026-11-04.json" := Json (VDict [])]} Demo.start in
  refused w (FileLogger.log_error Demo.logger "twilio_search" "Error" None w).
Proof.
  apply (logging_refused_on_non_array_file Demo.logger
           (Demo.with_files
              {["logs/error_2026-11-04.json" := Json (VDict [])]} Demo.start));
    reflexivity.
Defined.

(** X5: the record that is written holds the fresh timestamp under the key
    timestamp, also when the data already had that key, and every other key
    of the data with its value. *)
Theorem written_record_is_stamped {P : Type} (lg : FileLogger.t)
    (log_type : string) (data : list (string * value)) (w : world P) :
  FileLogger.enabled lg = true ->
  appendable (fs w !! log_file_of lg log_type w) = true ->
  let r := FileLogger._write_json_log lg log_type data w in
  exists rec,
    entries (fs (snd r) !! log_file_of lg log_type w)
    = (entries (fs w !! log_file_of lg log_type w) ++ [rec])%list
    /\ field "timestamp" rec = Some (VStr (isoformat (clock w (tick w))))
    /\ (forall k, k <> "timestamp" -> field k rec = dict_lookup data k).
Proof.
  intros Hon Hok r. subst r.
  rewrite (write_json_log_enabled lg log_type data w Hon Hok).
  eexists. cbn [snd]. unfold written. cbn [fs].
  rewrite lookup_insert_eq. cbn [entries field].
  split; [reflexivity |]. split.
  - apply dict_lookup_set_eq.
  - intros k Hk. now apply dict_lookup_set_ne.
Qed.

Lemma written_record_witness :
  let r := FileLogger._write_json_log Demo.logger "call"
             [("timestamp", VStr "yesterday"); ("to", VStr "+1")] Demo.start in
  exists rec,
    entries (fs (snd r) !! "logs/call_2026-11-04.json") = [rec]
    /\ field "timestamp" rec = Some (VStr "2026-11-04T09:58:00")
    /\ (forall k, k <> "timestamp" ->
                  field k rec
                  = dict_lookup
                      [("timestamp", VStr "yesterday"); ("to", VStr "+1")] k).
Proof.
  apply (written_record_is_stamped Demo.logger "call"
           [("timestamp", VStr "yesterday"); ("to", VStr "+1")] Demo.start);
    reflexivity.
Defined.

Lemma truncated_at_most_100 (body b : string) :
  FileLogger.truncated (Some body) = Some b ->
  len b <= 100 /\ (len body <= 100 -> b = body).
Proof.
  destruct (Z.le_gt_cases (len body) 100) as [Hshort | Hlong].
  - rewrite (truncated_short body Hshort). intros Heq.
    assert (b = body) by congruence. subst b. now split.
  - rewrite (truncated_long body Hlong). intros Heq.
    assert (b = str_take 97 body ++ "...") by congruence. subst b.
    pose proof (len_truncated body Hlong). split; [lia | intros; lia].
Qed.

(** X6: the body that log_message puts in the record is never longer than
    100 characters, and a body of at most 100 characters is recorded as it
    is; without a body the field is None. *)
Theorem logged_body_at_most_100 {P : Type} (lg : FileLogger.t)
    (from_number to_number status : string) (body sid error : option string)
    (w : world P) :
  FileLogger.enabled lg = true ->
  appendable (fs w !! log_file_of lg "message" w) = true ->
  let r := FileLogger.log_message lg from_number to_number status body sid
             error w in
  exists logged,
    fs (snd r)
    = appended (log_file_of lg "message" w)
        (VDict [("from", VStr from_number); ("to", VStr to_number);
                ("status", VStr status); ("body", opt_str logged);
                ("sid", opt_str sid); ("error", opt_str error);
                ("timestamp", stamp_of w)])
        (fs w)
    /\ match body, logged with
       | Some original, Some b =>
           len b <= 100 /\ (len original <= 100 -> b = original)
       | None, None => True
       | _, _ => False
       end.
Proof.
  intros Hon Hok r. subst r.
  rewrite (log_message_enabled lg Hon _ _ _ _ _ _ w Hok).
  exists (FileLogger.truncated body). cbn [snd]. rewrite fs_mirrored.
  split; [reflexivity |].
  destruct body as [original |]; [| exact I].
  destruct (FileLogger.truncated (Some original)) as [b |] eqn:Hb.
  - now apply truncated_at_most_100.
  - unfold FileLogger.truncated in Hb. now destruct (_ && _).
Qed.

Lemma logged_body_witness :
  let r := FileLogger.log_message Demo.logger "+14155550100" "+14155550199"
             "queued" (Some "See you at 10") (Some "SM1") None Demo.start in
  exists logged,
    fs (snd r)
    = {["logs/message_2026-11-04.json" :=
          Json (VList
            [VDict [("from", VStr "+14155550100"); ("to", VStr "+14155550199");
                    ("status", VStr "queued"); ("body", opt_str logged);
                    ("sid", VStr "SM1"); ("error", VNone);
                    ("timestamp", VStr "2026-11-04T09:58:00")]])]}
    /\ match logged with
       | Some b => len b <= 100 /\ (13 <= 100 -> b = "See you at 10")
       | None => False
       end.
Proof.
  apply (logged_body_at_most_100 Demo.logger "+14155550100" "+14155550199"
           "queued" (Some "See you at 10") (Some "SM1") None Demo.start);
    reflexivity.
Defined.

(** X7: with logging enabled, a call, message or purchase log call adds
    exactly one line to the text log. The line starts with the text of the
    operation and its status; for a purchase the price follows in brackets
    when one is given. When an error text that is not empty was passed, the
    line is an error line and ends with that text; otherwise it is an info
    line and ends there, and an empty error text counts as no error.
    log_error always adds one error line. *)
Theorem text_line_severity {P : Type} (lg : FileLogger.t) (w : world P) :
  FileLogger.enabled lg = true ->
  let line (log_msg : string) (error : option string) : log_line :=
    LogLine (severity error)
      (if truthy error
       then log_msg ++ " - Error: " ++ default EmptyString error
       else log_msg) in
  (forall from_number to_number status sid duration error,
      appendable (fs w !! log_file_of lg "call" w) = true ->
      app_log (snd (FileLogger.log_call lg from_number to_number status sid
                      duration error w))
      = (app_log w
         ++ [line ("Call from " ++ from_number ++ " to " ++ to_number ++ ": "
                   ++ status)%string error])%list)
  /\ (forall from_number to_number status body sid error,
      appendable (fs w !! log_file_of lg "message" w) = true ->
      app_log (snd (FileLogger.log_message lg from_number to_number status
                      body sid error w))
      = (app_log w
         ++ [line ("Message from " ++ from_number ++ " to " ++ to_number
                   ++ ": " ++ status)%string error])%list)
  /\ (forall phone_number status price sid error,
      appendable (fs w !! log_file_of lg "purchase" w) = true ->
      let log_msg := "Purchase of " ++ phone_number ++ ": " ++ status in
      app_log (snd (FileLogger.log_purchase lg phone_number status price sid
                      error w))
      = (app_log w
         ++ [line match price with
                  | Some p => (log_msg ++ " ($" ++ format_2f p ++ ")")%string
                  | None => log_msg
                  end error])%list)
  /\ (forall error_type message details,
      appendable (fs w !! log_file_of lg "error" w) = true ->
      app_log (snd (FileLogger.log_error lg error_type message details w))
      = (app_log w ++ [LogLine ERROR (error_type ++ ": " ++ message)])%list)
  /\ severity (Some EmptyString) = INFO
  /\ severity None = INFO
  /\ (forall e, e <> EmptyString -> severity (Some e) = ERROR).
Proof.
  intros Hon line. subst line.
  split; [| split; [| split; [| split]]].
  - intros from_number to_number status sid duration error Hok.
    unfold FileLogger.log_call, bind.
    rewrite (write_json_log_enabled lg _ _ w Hon Hok), Hon, mirror_eq.
    unfold mirrored, severity. cbn [snd].
    now destruct (truthy error).
  - intros from_number to_number status body sid error Hok.
    unfold FileLogger.log_message, bind.
    rewrite (write_json_log_enabled lg _ _ w Hon Hok), Hon, mirror_eq.
    unfold mirrored, severity. cbn [snd].
    now destruct (truthy error).
  - intros phone_number status price sid error Hok log_msg. subst log_msg.
    unfold FileLogger.log_purchase, bind.
    rewrite (write_json_log_enabled lg _ _ w Hon Hok), Hon, mirror_eq.
    unfold mirrored, severity. cbn [snd].
    now destruct (truthy error), price.
  - intros error_type message details Hok.
    unfold FileLogger.log_error, bind.
    now rewrite (write_json_log_enabled lg _ _ w Hon Hok), Hon.
  - split; [reflexivity |]. split; [reflexivity |].
    intros e He. unfold severity, truthy.
    now rewrite (proj2 (String.eqb_neq e EmptyString) He).
Qed.

Lemma text_line_witness :
  app_log (snd (FileLogger.log_purchase Demo.logger "+14155550100" "purchased"
                  (Some (Qmake 1 1)) (Some "PN1") (Some EmptyString)
                  Demo.start))
  = [LogLine INFO "Purchase of +14155550100: purchased ($1.00)"]
  /\ app_log (snd (FileLogger.log_call Demo.logger "+14155550100"
                     "+14155550199" "failed" None None (Some "busy")
                     Demo.start))
     = [LogLine ERROR
          "Call from +14155550100 to +14155550199: failed - Error: busy"].
Proof.
  destruct (text_line_severity Demo.logger Demo.start eq_refl)
    as (Hcall & _ & Hpurchase & _).
  split.
  - etransitivity;
      [exact (Hpurchase "+14155550100" "purchased" (Some (Qmake 1 1))
                (Some "PN1") (Some EmptyString) eq_refl) | reflexivity].
  - etransitivity;
      [exact (Hcall "+14155550100" "+14155550199" "failed" None None
                (Some "busy") eq_refl) | reflexivity].
Defined.

(** ** The gateway *)

Section Traffic.

Context {P : Type}.

Lemma sends_call_api {A : Type} r (f : P -> outcome A * P) :
  sends [r] (call_api r f).
Proof. intros w. unfold call_api. now destruct (f (provider w)). Qed.

Lemma sends_bind {A B : Type} l (m : M P A) (k : A -> M P B) :
  sends l m -> (forall a, sends [] (k a)) -> sends l (let! a := m in k a).
Proof.
  intros Hm Hk w. unfold bind. specialize (Hm w).
  destruct (m w) as [[a | e] w1]; cbn [snd] in *; [| exact Hm].
  rewrite (Hk a w1), Hm. now rewrite app_nil_r.
Qed.

Lemma sends_ret {A : Type} (a : A) : sends [] (ret (P := P) a).
Proof. intros w. cbn. now rewrite app_nil_r. Qed.

Lemma sends_raise {A : Type} (e : exn) : sends [] (raise (P := P) (A := A) e).
Proof. intros w. cbn. now rewrite app_nil_r. Qed.

Lemma sends_nothing {A : Type} (m : M P A) : keeps_traffic m -> sends [] m.
Proof. intros H w. destruct (H w) as [-> _]. now rewrite app_nil_r. Qed.

(** A handled call: the request goes out, then what the body sends when the
    provider answered. *)
Lemma sends_try_call {A B : Type} r (f : P -> outcome A * P) l
    (k : A -> M P B) (h : string -> M P B) (w : world P) :
  (forall a, sends l (k a)) ->
  (forall e, sends [] (h e)) ->
  sent (snd (try_except (let! a := call_api r f in k a) h w))
  = (sent w ++ r :: (if answered (fst (f (provider w))) then l else []))%list.
Proof.
  intros Hk Hh. unfold try_except, bind, call_api.
  destruct (f (provider w)) as [[a | e] p'] eqn:Hf; cbn [fst answered].
  - match goal with
    | |- context [k a ?w0] =>
        pose proof (Hk a w0) as Hs; destruct (k a w0) as [[b | [e | e | e | e | e]] w1]
    end; cbn [snd sent] in *;
      rewrite ?Hh, ?app_nil_r, Hs; now rewrite <- app_assoc.
  - destruct e as [e | e | e | e | e]; cbn [snd sent]; rewrite ?Hh, ?app_nil_r;
      reflexivity.
Qed.

Variable lg : FileLogger.t.

Lemma keeps_traffic_bind {A B : Type} (m : M P A) (k : A -> M P B) :
  keeps_traffic m -> (forall a, keeps_traffic (k a)) ->
  keeps_traffic (let! a := m in k a).
Proof.
  intros Hm Hk w. unfold bind. specialize (Hm w).
  destruct (m w) as [[a | e] w1]; cbn [snd] in *; [| exact Hm].
  destruct (Hk a w1) as [H1 H2], Hm as [H3 H4]. split; congruence.
Qed.

Lemma keeps_traffic_ret {A : Type} (a : A) : keeps_traffic (ret (P := P) a).
Proof. intros w. now split. Qed.

Lemma keeps_traffic_write log_type data :
  keeps_traffic (P := P) (FileLogger._write_json_log lg log_type data).
Proof. intros w. apply write_json_log_traffic. Qed.

Lemma keeps_traffic_mirror log_msg error :
  keeps_traffic (P := P) (FileLogger.mirror log_msg error).
Proof. intros w. apply mirror_traffic. Qed.

Lemma keeps_traffic_emit lv msg : keeps_traffic (P := P) (FileLogger.emit lv msg).
Proof. intros w. now split. Qed.

Lemma keeps_traffic_if {A : Type} (b : bool) (m1 m2 : M P A) :
  keeps_traffic m1 -> keeps_traffic m2 -> keeps_traffic (if b then m1 else m2).
Proof. now destruct b. Qed.

Lemma keeps_traffic_log_call from_number to_number status sid duration error :
  keeps_traffic (P := P)
    (FileLogger.log_call lg from_number to_number status sid duration error).
Proof.
  apply keeps_traffic_bind; [apply keeps_traffic_write |].
  intros _. apply keeps_traffic_if;
    [apply keeps_traffic_mirror | apply keeps_traffic_ret].
Qed.

Lemma keeps_traffic_log_message from_number to_number status body sid error :
  keeps_traffic (P := P)
    (FileLogger.log_message lg from_number to_number status body sid error).
Proof.
  apply keeps_traffic_bind; [apply keeps_traffic_write |].
  intros _. apply keeps_traffic_if;
    [apply keeps_traffic_mirror | apply keeps_traffic_ret].
Qed.

Lemma keeps_traffic_log_purchase phone_number status price sid error :
  keeps_traffic (P := P)
    (FileLogger.log_purchase lg phone_number status price sid error).
Proof.
  apply keeps_traffic_bind; [apply keeps_traffic_write |].
  intros _. apply keeps_traffic_if;
    [apply keeps_traffic_mirror | apply keeps_traffic_ret].
Qed.

Lemma keeps_traffic_log_error error_type message details :
  keeps_traffic (P := P) (FileLogger.log_error lg error_type message details).
Proof.
  apply keeps_traffic_bind; [apply keeps_traffic_write |].
  intros _. apply keeps_traffic_if;
    [apply keeps_traffic_emit | apply keeps_traffic_ret].
Qed.

End Traffic.

(** Shows that a body made of logging calls and a return sends nothing. *)
Ltac silent :=
  repeat match goal with
  | |- sends _ (ret _) => apply sends_ret
  | |- sends _ (raise _) => apply sends_raise
  | |- sends _ (call_api _ _) => apply sends_call_api
  | |- sends _ (FileLogger.log_call _ _ _ _ _ _ _) =>
      apply sends_nothing, keeps_traffic_log_call
  | |- sends _ (FileLogger.log_message _ _ _ _ _ _ _) =>
      apply sends_nothing, keeps_traffic_log_message
  | |- sends _ (FileLogger.log_purchase _ _ _ _ _ _) =>
      apply sends_nothing, keeps_traffic_log_purchase
  | |- sends _ (FileLogger.log_error _ _ _ _) =>
      apply sends_nothing, keeps_traffic_log_error
  | |- sends _ (bind _ _) => apply sends_bind; [| intros ?]
  end.

(** Unfolds the gateway's methods. *)
Ltac methods :=
  unfold TwilioGateway.search_phone_numbers,
    TwilioGateway.search_phone_numbers_raw,
    TwilioGateway.purchase_phone_number,
    TwilioGateway.get_account_phone_numbers,
    TwilioGateway.release_phone_number,
    TwilioGateway.update_phone_number, TwilioGateway.make_call,
    TwilioGateway.send_message, TwilioGateway.get_call_logs,
    TwilioGateway.get_message_logs, TwilioGateway.get_account_info,
    TwilioGateway.get_subaccounts, TwilioGateway.create_subaccount.

Lemma sends_try_call_once {P A B : Type} r (f : P -> outcome A * P)
    (k : A -> M P B) (h : string -> M P B) (w : world P) :
  (forall a, sends [] (k a)) ->
  (forall e, sends [] (h e)) ->
  sent (snd (try_except (let! a := call_api r f in k a) h w))
  = (sent w ++ [r])%list.
Proof.
  intros Hk Hh. rewrite (sends_try_call r f [] k h w Hk Hh).
  now destruct (answered _).
Qed.

(** X8: no method retries or sends anything on the side. Whatever the
    provider answers and whatever state the logs are in, every method but
    release sends exactly one request, the one built from its arguments;
    release sends the fetch, and the delete only when the fetch returned. *)
Theorem one_request_per_invocation {P : Type}
    (client : Client P) (lg : FileLogger.t) (self : TwilioGateway.t)
    (w : world P) :
  (forall country_code area_code contains sms_enabled voice_enabled limit,
      sent (snd (TwilioGateway.search_phone_numbers client lg country_code
                   area_code contains sms_enabled voice_enabled limit w))
      = (sent w
         ++ [AvailableLocalList country_code limit
               (TwilioGateway.search_params area_code contains sms_enabled
                  voice_enabled)])%list)
  /\ (forall country_code params,
      sent (snd (TwilioGateway.search_phone_numbers_raw client lg self
                   country_code params w))
      = (sent w
         ++ [HttpGet (TwilioGateway.raw_search_url self country_code) params
               (TwilioGateway.account_sid self, TwilioGateway.auth_token self)])%list)
  /\ (forall phone_number friendly_name,
      sent (snd (TwilioGateway.purchase_phone_number client lg self
                   phone_number friendly_name w))
      = (sent w
         ++ [IncomingCreate
               (TwilioGateway.purchase_kwargs self phone_number friendly_name)])%list)
  /\ sent (snd (TwilioGateway.get_account_phone_numbers client lg self w))
     = (sent w ++ [IncomingList (TwilioGateway.active_sid self)])%list
  /\ (forall sid,
      sent (snd (TwilioGateway.release_phone_number client lg sid w))
      = (sent w
         ++ IncomingFetch sid
            :: (if answered (fst (incoming_phone_numbers_fetch client sid
                                    (provider w)))
                then [IncomingDelete sid] else []))%list)
  /\ (forall sid friendly_name sms_url sms_method voice_url voice_method,
      sent (snd (TwilioGateway.update_phone_number client lg sid friendly_name
                   sms_url sms_method voice_url voice_method w))
      = (sent w
         ++ [IncomingUpdate sid
               (TwilioGateway.update_kwargs friendly_name sms_url sms_method
                  voice_url voice_method)])%list)
  /\ (forall from_number to_number url twiml,
      sent (snd (TwilioGateway.make_call client lg from_number to_number url
                   twiml w))
      = (sent w
         ++ [CallsCreate
               (TwilioGateway.make_call_kwargs from_number to_number url twiml)])%list)
  /\ (forall from_number to_number body,
      sent (snd (TwilioGateway.send_message client lg from_number to_number
                   body w))
      = (sent w ++ [MessagesCreate to_number from_number body])%list)
  /\ (forall limit,
      sent (snd (TwilioGateway.get_call_logs client lg limit w))
      = (sent w ++ [CallsList limit])%list)
  /\ (forall limit,
      sent (snd (TwilioGateway.get_message_logs client lg limit w))
      = (sent w ++ [MessagesList limit])%list)
  /\ sent (snd (TwilioGateway.get_account_info client lg self w))
     = (sent w ++ [AccountFetch (TwilioGateway.active_sid self)])%list
  /\ (forall friendly_name,
      sent (snd (TwilioGateway.create_subaccount client lg friendly_name w))
      = (sent w ++ [AccountsCreate friendly_name])%list).
Proof.
  repeat split; intros; methods;
    try (apply sends_try_call_once; intros ?; now silent).
  - apply sends_bind; [apply sends_call_api |]. intros response.
    destruct (status_code response =? 200); [destruct (json response) |];
      now silent.
  - apply sends_try_call; intros ?; now silent.
Qed.

(** X9: the handlers catch TwilioRestException and nothing else. When an
    SDK call raises any other exception, the method raises it to the caller
    as it is: the request went out, and nothing is logged. So it is for each
    of the twelve methods with a handler; for release it holds at the fetch
    and at the delete, for get_subaccounts on the main account, where the
    listing is sent. Among these exceptions are the failures of the
    transport, the TwilioException of a listing whose page is refused, and
    the TypeError of a keyword that the SDK method does not have. *)
Theorem other_exceptions_pass_through {P : Type}
    (client : Client P) (lg : FileLogger.t) (self : TwilioGateway.t)
    (e : exn) (p' : P) (w : world P) :
  foreign e = true ->
  (forall country_code area_code contains sms_enabled voice_enabled limit,
      let params := TwilioGateway.search_params area_code contains sms_enabled
                      voice_enabled in
      available_phone_numbers_local_list client country_code limit params
        (provider w) = (Raise e, p') ->
      TwilioGateway.search_phone_numbers client lg country_code area_code
        contains sms_enabled voice_enabled limit w
      = (Raise e, called (AvailableLocalList country_code limit params) p' w))
  /\ (forall phone_number friendly_name,
      let kwargs := TwilioGateway.purchase_kwargs self phone_number
                      friendly_name in
      incoming_phone_numbers_create client kwargs (provider w) = (Raise e, p') ->
      TwilioGateway.purchase_phone_number client lg self phone_number
        friendly_name w
      = (Raise e, called (IncomingCreate kwargs) p' w))
  /\ (incoming_phone_numbers_list client (TwilioGateway.active_sid self)
        (provider w) = (Raise e, p') ->
      TwilioGateway.get_account_phone_numbers client lg self w
      = (Raise e, called (IncomingList (TwilioGateway.active_sid self)) p' w))
  /\ (forall sid,
      incoming_phone_numbers_fetch client sid (provider w) = (Raise e, p') ->
      TwilioGateway.release_phone_number client lg sid w
      = (Raise e, called (IncomingFetch sid) p' w))
  /\ (forall sid number p1,
      incoming_phone_numbers_fetch client sid (provider w) = (Return number, p1) ->
      incoming_phone_numbers_delete client sid p1 = (Raise e, p') ->
      TwilioGateway.release_phone_number client lg sid w
      = (Raise e,
         called (IncomingDelete sid) p' (called (IncomingFetch sid) p1 w)))
  /\ (forall sid friendly_name sms_url sms_method voice_url voice_method,
      let kwargs := TwilioGateway.update_kwargs friendly_name sms_url
                      sms_method voice_url voice_method in
      incoming_phone_numbers_update client sid kwargs (provider w)
      = (Raise e, p') ->
      TwilioGateway.update_phone_number client lg sid friendly_name sms_url
        sms_method voice_url voice_method w
      = (Raise e, called (IncomingUpdate sid kwargs) p' w))
  /\ (forall from_number to_number url twiml,
      let kwargs := TwilioGateway.make_call_kwargs from_number to_number url
                      twiml in
      calls_create client kwargs (provider w) = (Raise e, p') ->
      TwilioGateway.make_call client lg from_number to_number url twiml w
      = (Raise e, called (CallsCreate kwargs) p' w))
  /\ (forall from_number to_number body,
      messages_create client to_number from_number body (provider w)
      = (Raise e, p') ->
      TwilioGateway.send_message client lg from_number to_number body w
      = (Raise e, called (MessagesCreate to_number from_number body) p' w))
  /\ (forall limit,
      calls_list client limit (provider w) = (Raise e, p') ->
      TwilioGateway.get_call_logs client lg limit w
      = (Raise e, called (CallsList limit) p' w))
  /\ (forall limit,
      messages_list client limit (provider w) = (Raise e, p') ->
      TwilioGateway.get_message_logs client lg limit w
      = (Raise e, called (MessagesList limit) p' w))
  /\ (accounts_fetch client (TwilioGateway.active_sid self) (provider w)
      = (Raise e, p') ->
      TwilioGateway.get_account_info client lg self w
      = (Raise e, called (AccountFetch (TwilioGateway.active_sid self)) p' w))
  /\ (TwilioGateway.active_sid self = TwilioGateway.account_sid self ->
      accounts_list client (provider w) = (Raise e, p') ->
      TwilioGateway.get_subaccounts client lg self w
      = (Raise e, called AccountsList p' w))
  /\ (forall friendly_name,
      accounts_create client friendly_name (provider w) = (Raise e, p') ->
      TwilioGateway.create_subaccount client lg friendly_name w
      = (Raise e, called (AccountsCreate friendly_name) p' w)).
Proof.
  intros Hf.
  repeat split; intros;
    try (cbv zeta in *; now apply try_call_raised).
  - eapply release_delete_raised; eassumption.
  - unfold TwilioGateway.get_subaccounts.
    match goal with
    | H : TwilioGateway.active_sid _ = _ |- _ =>
        rewrite H, String.eqb_refl
    end.
    now apply try_call_raised.
Qed.

Lemma other_exceptions_witness :
  TwilioGateway.send_message Unreachable.client Demo.logger
    "+14155550100" "+14155550199" "Hello" Unreachable.start
  = (Raise (RequestException "Connection refused"),
     called (MessagesCreate "+14155550199" "+14155550100" "Hello") tt
       Unreachable.start)
  /\ TwilioGateway.get_account_phone_numbers Demo.client Demo.logger
       Demo.gateway Demo.start
     = (Raise (Demo.unexpected "IncomingPhoneNumberList.list" "account_sid"),
        called (IncomingList "AC1") (provider Demo.start) Demo.start).
Proof.
  split.
  - apply (other_exceptions_pass_through Unreachable.client Demo.logger
             Demo.gateway (RequestException "Connection refused") tt
             Unreachable.start eq_refl).
    reflexivity.
  - apply (other_exceptions_pass_through Demo.client Demo.logger
             Demo.gateway
             (Demo.unexpected "IncomingPhoneNumberList.list" "account_sid")
             (provider Demo.start) Demo.start eq_refl).
    reflexivity.
Defined.

Section Alike.

Context {P : Type}.

Lemma well_kept_insert (files : gmap string file_content) path l :
  well_kept files -> well_kept (<[path := Json (VList l)]> files).
Proof.
  intros H path'. destruct (decide (path = path')) as [-> | Hne].
  - now rewrite lookup_insert_eq.
  - rewrite lookup_insert_ne by exact Hne. apply H.
Qed.

Lemma harmless_ret : harmless (P := P) (ret tt).
Proof. intros w H. now repeat split. Qed.

Lemma harmless_bind (m k : M P unit) :
  harmless m -> harmless k -> harmless (do! m in k).
Proof.
  intros Hm Hk w H. unfold bind. destruct (Hm w H) as (Hr & Hp & Hw).
  destruct (m w) as [o w1]; cbn [fst snd] in *. subst o.
  destruct (Hk w1 Hw) as (Hr' & Hp' & Hw'). repeat split; congruence.
Qed.

Lemma harmless_if (b : bool) (m1 m2 : M P unit) :
  harmless m1 -> harmless m2 -> harmless (if b then m1 else m2).
Proof. now destruct b. Qed.

Lemma harmless_emit lv msg : harmless (P := P) (FileLogger.emit lv msg).
Proof. intros w H. now repeat split. Qed.

Lemma harmless_mirror log_msg error :
  harmless (P := P) (FileLogger.mirror log_msg error).
Proof. apply harmless_if; apply harmless_emit. Qed.

Lemma harmless_write lg log_type data :
  harmless (P := P) (FileLogger._write_json_log lg log_type data).
Proof.
  intros w H. destruct (FileLogger.enabled lg) eqn:Hon.
  - rewrite (write_json_log_enabled lg log_type data w Hon (H _)).
    unfold written. cbn [fst snd fs provider].
    repeat split. now apply well_kept_insert.
  - rewrite (write_json_log_disabled lg log_type data w Hon). now repeat split.
Qed.

Lemma harmless_log_call lg from_number to_number status sid duration error :
  harmless (P := P)
    (FileLogger.log_call lg from_number to_number status sid duration error).
Proof.
  apply harmless_bind; [apply harmless_write |].
  apply harmless_if; [apply harmless_mirror | apply harmless_ret].
Qed.

Lemma harmless_log_message lg from_number to_number status body sid error :
  harmless (P := P)
    (FileLogger.log_message lg from_number to_number status body sid error).
Proof.
  apply harmless_bind; [apply harmless_write |].
  apply harmless_if; [apply harmless_mirror | apply harmless_ret].
Qed.

Lemma harmless_log_purchase lg phone_number status price sid error :
  harmless (P := P)
    (FileLogger.log_purchase lg phone_number status price sid error).
Proof.
  apply harmless_bind; [apply harmless_write |].
  apply harmless_if; [apply harmless_mirror | apply harmless_ret].
Qed.

Lemma harmless_log_error lg error_type message details :
  harmless (P := P) (FileLogger.log_error lg error_type message details).
Proof.
  apply harmless_bind; [apply harmless_write |].
  apply harmless_if; [apply harmless_emit | apply harmless_ret].
Qed.

Lemma alike_ret {A : Type} (a : A) : alike (P := P) (ret a) (ret a).
Proof. intros w1 w2 H. now split. Qed.

Lemma alike_raise {A : Type} (e : exn) :
  alike (P := P) (A := A) (raise e) (raise e).
Proof. intros w1 w2 H. now split. Qed.

Lemma alike_call {A : Type} r (f : P -> outcome A * P) :
  alike (call_api r f) (call_api r f).
Proof.
  intros w1 w2 (Hp & H1 & H2). unfold call_api. rewrite Hp.
  destruct (f (provider w2)) as [o p']. cbn. now repeat split.
Qed.

Lemma alike_bind {A B : Type} (m1 m2 : M P A) (k1 k2 : A -> M P B) :
  alike m1 m2 -> (forall a, alike (k1 a) (k2 a)) ->
  alike (let! a := m1 in k1 a) (let! a := m2 in k2 a).
Proof.
  intros Hm Hk w1 w2 H. unfold bind. destruct (Hm w1 w2 H) as [Ho Ha].
  destruct (m1 w1) as [o1 v1], (m2 w2) as [o2 v2]; cbn [fst snd] in *.
  subst o2. destruct o1 as [a | e]; [now apply Hk | now split].
Qed.

Lemma alike_try {A : Type} (m1 m2 : M P A) (h1 h2 : string -> M P A) :
  alike m1 m2 -> (forall e, alike (h1 e) (h2 e)) ->
  alike (try_except m1 h1) (try_except m2 h2).
Proof.
  intros Hm Hh w1 w2 H. unfold try_except. destruct (Hm w1 w2 H) as [Ho Ha].
  destruct (m1 w1) as [o1 v1], (m2 w2) as [o2 v2]; cbn [fst snd] in *.
  subst o2. destruct o1 as [a | [e | e | e | e | e]]; try now split.
  now apply Hh.
Qed.

Lemma alike_harmless (m1 m2 : M P unit) :
  harmless m1 -> harmless m2 -> alike m1 m2.
Proof.
  intros H1 H2 w1 w2 (Hp & Hw1 & Hw2).
  destruct (H1 w1 Hw1) as (Hr1 & Hp1 & Hk1), (H2 w2 Hw2) as (Hr2 & Hp2 & Hk2).
  split; [congruence |]. repeat split; congruence.
Qed.

End Alike.

(** Relates one method run with two loggers, piece by piece. *)
Ltac relate :=
  repeat match goal with
  | |- alike (ret _) (ret _) => apply alike_ret
  | |- alike (raise _) (raise _) => apply alike_raise
  | |- alike (call_api _ _) (call_api _ _) => apply alike_call
  | |- alike (FileLogger.log_call _ _ _ _ _ _ _) _ =>
      apply alike_harmless; apply harmless_log_call
  | |- alike (FileLogger.log_message _ _ _ _ _ _ _) _ =>
      apply alike_harmless; apply harmless_log_message
  | |- alike (FileLogger.log_purchase _ _ _ _ _ _) _ =>
      apply alike_harmless; apply harmless_log_purchase
  | |- alike (FileLogger.log_error _ _ _ _) _ =>
      apply alike_harmless; apply harmless_log_error
  | |- alike (try_except _ _) (try_except _ _) => apply alike_try; [| intros ?]
  | |- alike (bind _ _) (bind _ _) => apply alike_bind; [| intros ?]
  end.

(** X10: the logger has no say in what a method returns. Run with any two
    loggers, enabled or not, from worlds that have the same provider state
    and log directories in which every file is missing, undecodable or an
    array, a method gives the same outcome and leaves the provider in the
    same state. *)
Theorem results_do_not_depend_on_logging {P : Type}
    (client : Client P) (lg1 lg2 : FileLogger.t) (self : TwilioGateway.t) :
  (forall country_code area_code contains sms_enabled voice_enabled limit,
      alike
        (TwilioGateway.search_phone_numbers client lg1 country_code area_code
           contains sms_enabled voice_enabled limit)
        (TwilioGateway.search_phone_numbers client lg2 country_code area_code
           contains sms_enabled voice_enabled limit))
  /\ (forall country_code params,
      alike
        (TwilioGateway.search_phone_numbers_raw client lg1 self country_code
           params)
        (TwilioGateway.search_phone_numbers_raw client lg2 self country_code
           params))
  /\ (forall phone_number friendly_name,
      alike
        (TwilioGateway.purchase_phone_number client lg1 self phone_number
           friendly_name)
        (TwilioGateway.purchase_phone_number client lg2 self phone_number
           friendly_name))
  /\ alike (TwilioGateway.get_account_phone_numbers client lg1 self)
       (TwilioGateway.get_account_phone_numbers client lg2 self)
  /\ (forall sid,
      alike (TwilioGateway.release_phone_number client lg1 sid)
        (TwilioGateway.release_phone_number client lg2 sid))
  /\ (forall sid friendly_name sms_url sms_method voice_url voice_method,
      alike
        (TwilioGateway.update_phone_number client lg1 sid friendly_name
           sms_url sms_method voice_url voice_method)
        (TwilioGateway.update_phone_number client lg2 sid friendly_name
           sms_url sms_method voice_url voice_method))
  /\ (forall from_number to_number url twiml,
      alike (TwilioGateway.make_call client lg1 from_number to_number url twiml)
        (TwilioGateway.make_call client lg2 from_number to_number url twiml))
  /\ (forall from_number to_number body,
      alike (TwilioGateway.send_message client lg1 from_number to_number body)
        (TwilioGateway.send_message client lg2 from_number to_number body))
  /\ (forall limit,
      alike (TwilioGateway.get_call_logs client lg1 limit)
        (TwilioGateway.get_call_logs client lg2 limit))
  /\ (forall limit,
      alike (TwilioGateway.get_message_logs client lg1 limit)
        (TwilioGateway.get_message_logs client lg2 limit))
  /\ alike (TwilioGateway.get_account_info client lg1 self)
       (TwilioGateway.get_account_info client lg2 self)
  /\ alike (TwilioGateway.get_subaccounts client lg1 self)
       (TwilioGateway.get_subaccounts client lg2 self)
  /\ (forall friendly_name,
      alike (TwilioGateway.create_subaccount client lg1 friendly_name)
        (TwilioGateway.create_subaccount client lg2 friendly_name)).
Proof.
  repeat match goal with |- _ /\ _ => split end;
    repeat match goal with |- forall _, _ => intro end;
    methods; try (now relate).
  - apply alike_bind; [apply alike_call |]. intros response.
    destruct (status_code response =? 200); [destruct (json response) |];
      now relate.
  - apply alike_try; [| intros ?; now relate].
    destruct (String.eqb _ _); now relate.
Qed.

Lemma results_do_not_depend_witness :
  fst (TwilioGateway.release_phone_number Demo.client Demo.logger "PN1"
         Demo.start)
  = fst (TwilioGateway.release_phone_number Demo.client
           (FileLogger.Make false "elsewhere") "PN1"
           (Demo.with_files
              {["elsewhere/purchase_2026-11-04.json" := Invalid "oops"]}
              Demo.start)).
Proof.
  refine (proj1 (proj1 (proj2 (proj2 (proj2 (proj2
            (results_do_not_depend_on_logging Demo.client Demo.logger
               (FileLogger.Make false "elsewhere") Demo.gateway)))))
            "PN1" Demo.start
            (Demo.with_files
               {["elsewhere/purchase_2026-11-04.json" := Invalid "oops"]}
               Demo.start) _)).
  split; [reflexivity |]. split; intros path.
  - reflexivity.
  - cbn [fs Demo.with_files].
    destruct (decide ("elsewhere/purchase_2026-11-04.json" = path)) as [<- | Hne].
    + reflexivity.
    + now rewrite lookup_singleton_ne.
Defined.

Section KeepsLogs.

Context {P : Type}.
Variable lg : FileLogger.t.
Hypothesis Hoff : FileLogger.enabled lg = false.

Lemma keeps_logs_ret {A : Type} (a : A) : keeps_logs (P := P) (ret a).
Proof. intros w. now repeat split. Qed.

Lemma keeps_logs_raise {A : Type} (e : exn) :
  keeps_logs (P := P) (A := A) (raise e).
Proof. intros w. now repeat split. Qed.

Lemma keeps_logs_call {A : Type} r (f : P -> outcome A * P) :
  keeps_logs (call_api r f).
Proof.
  intros w. unfold call_api. destruct (f (provider w)). now repeat split.
Qed.

Lemma keeps_logs_bind {A B : Type} (m : M P A) (k : A -> M P B) :
  keeps_logs m -> (forall a, keeps_logs (k a)) ->
  keeps_logs (let! a := m in k a).
Proof.
  intros Hm Hk w. unfold bind. specialize (Hm w).
  destruct (m w) as [[a | e] w1]; cbn [snd] in *; [| exact Hm].
  destruct (Hk a w1) as (H1 & H2 & H3), Hm as (H4 & H5 & H6).
  repeat split; congruence.
Qed.

Lemma keeps_logs_try {A : Type} (m : M P A) (h : string -> M P A) :
  keeps_logs m -> (forall e, keeps_logs (h e)) -> keeps_logs (try_except m h).
Proof.
  intros Hm Hh w. unfold try_except. specialize (Hm w).
  destruct (m w) as [[a | [e | e | e | e | e]] w1]; cbn [snd] in *; try exact Hm.
  destruct (Hh e w1) as (H1 & H2 & H3), Hm as (H4 & H5 & H6).
  repeat split; congruence.
Qed.

Lemma keeps_logs_log_call from_number to_number status sid duration error :
  keeps_logs (P := P)
    (FileLogger.log_call lg from_number to_number status sid duration error).
Proof.
  intros w.
  rewrite (log_call_off lg Hoff).
  now repeat split.
Qed.

Lemma keeps_logs_log_message from_number to_number status body sid error :
  keeps_logs (P := P)
    (FileLogger.log_message lg from_number to_number status body sid error).
Proof.
  intros w.
  rewrite (log_message_off lg Hoff).
  now repeat split.
Qed.

Lemma keeps_logs_log_purchase phone_number status price sid error :
  keeps_logs (P := P)
    (FileLogger.log_purchase lg phone_number status price sid error).
Proof.
  intros w.
  rewrite (log_purchase_off lg Hoff).
  now repeat split.
Qed.

Lemma keeps_logs_log_error error_type message details :
  keeps_logs (P := P) (FileLogger.log_error lg error_type message details).
Proof.
  intros w.
  rewrite (log_error_off lg Hoff).
  now repeat split.
Qed.

End KeepsLogs.

(** Shows that a method leaves the logs alone, piece by piece. *)
Ltac untouched Hoff :=
  repeat match goal with
  | |- keeps_logs (ret _) => apply keeps_logs_ret
  | |- keeps_logs (raise _) => apply keeps_logs_raise
  | |- keeps_logs (call_api _ _) => apply keeps_logs_call
  | |- keeps_logs (FileLogger.log_call _ _ _ _ _ _ _) =>
      apply keeps_logs_log_call, Hoff
  | |- keeps_logs (FileLogger.log_message _ _ _ _ _ _ _) =>
      apply keeps_logs_log_message, Hoff
  | |- keeps_logs (FileLogger.log_purchase _ _ _ _ _ _) =>
      apply keeps_logs_log_purchase, Hoff
  | |- keeps_logs (FileLogger.log_error _ _ _ _) =>
      apply keeps_logs_log_error, Hoff
  | |- keeps_logs (try_except _ _) => apply keeps_logs_try; [| intros ?]
  | |- keeps_logs (bind _ _) => apply keeps_logs_bind; [| intros ?]
  end.

(** X11: with logging turned off, no method writes a file or a line of the
    text log, or reads the clock, whatever the provider does. *)
Theorem disabled_logging_touches_nothing {P : Type}
    (client : Client P) (lg : FileLogger.t) (self : TwilioGateway.t) :
  FileLogger.enabled lg = false ->
  (forall country_code area_code contains sms_enabled voice_enabled limit,
      keeps_logs
        (TwilioGateway.search_phone_numbers client lg country_code area_code
           contains sms_enabled voice_enabled limit))
  /\ (forall country_code params,
      keeps_logs
        (TwilioGateway.search_phone_numbers_raw client lg self country_code
           params))
  /\ (forall phone_number friendly_name,
      keeps_logs
        (TwilioGateway.purchase_phone_number client lg self phone_number
           friendly_name))
  /\ keeps_logs (TwilioGateway.get_account_phone_numbers client lg self)
  /\ (forall sid, keeps_logs (TwilioGateway.release_phone_number client lg sid))
  /\ (forall sid friendly_name sms_url sms_method voice_url voice_method,
      keeps_logs
        (TwilioGateway.update_phone_number client lg sid friendly_name sms_url
           sms_method voice_url voice_method))
  /\ (forall from_number to_number url twiml,
      keeps_logs
        (TwilioGateway.make_call client lg from_number to_number url twiml))
  /\ (forall from_number to_number body,
      keeps_logs
        (TwilioGateway.send_message client lg from_number to_number body))
  /\ (forall limit, keeps_logs (TwilioGateway.get_call_logs client lg limit))
  /\ (forall limit, keeps_logs (TwilioGateway.get_message_logs client lg limit))
  /\ keeps_logs (TwilioGateway.get_account_info client lg self)
  /\ keeps_logs (TwilioGateway.get_subaccounts client lg self)
  /\ (forall friendly_name,
      keeps_logs (TwilioGateway.create_subaccount client lg friendly_name)).
Proof.
  intros Hoff.
  repeat match goal with |- _ /\ _ => split end;
    repeat match goal with |- forall _, _ => intro end;
    methods; try (now untouched Hoff).
  - apply keeps_logs_bind; [apply keeps_logs_call |]. intros response.
    destruct (status_code response =? 200); [destruct (json response) |];
      now untouched Hoff.
  - apply keeps_logs_try; [| intros ?; now untouched Hoff].
    destruct (String.eqb _ _); now untouched Hoff.
Qed.

Lemma disabled_logging_witness :
  logs_untouched Demo.start
    (snd (TwilioGateway.release_phone_number Demo.client
            (FileLogger.Make false "logs") "PN1" Demo.start)).
Proof.
  apply (proj1 (proj2 (proj2 (proj2 (proj2
           (disabled_logging_touches_nothing Demo.client
              (FileLogger.Make false "logs") Demo.gateway eq_refl)))))
           "PN1" Demo.start).
Defined.

Section LoggerRaises.

Context {P : Type}.
Variable lg : FileLogger.t.
Hypothesis Hon : FileLogger.enabled lg = true.

(** A logging call starts with the write; when the write raises, so does the
    call, and so does the method around it. *)
Lemma refused_in_handler {A : Type} log_type data (rest : M P unit) (a : A)
    (w0 w : world P) reqs :
  appendable (fs w !! log_file_of lg log_type w) = false ->
  sent w = (sent w0 ++ reqs)%list ->
  fs w = fs w0 -> app_log w = app_log w0 ->
  raised_by_logger w0 reqs (provider w)
    ((do! (do! FileLogger._write_json_log lg log_type data in rest) in ret a) w).
Proof.
  intros Hbad Hsent Hfs Hlog.
  destruct (write_json_log_refused lg log_type data w Hon Hbad)
    as (msg & w' & Heq & Hfs' & Hlog' & Hsent' & Hprov').
  exists msg. unfold bind. rewrite Heq. cbn [fst snd].
  repeat split; congruence.
Qed.

Lemma refused_in_body {A : Type} log_type data (rest : M P unit) (a : A)
    (h : string -> M P A) (w0 w : world P) reqs :
  appendable (fs w !! log_file_of lg log_type w) = false ->
  sent w = (sent w0 ++ reqs)%list ->
  fs w = fs w0 -> app_log w = app_log w0 ->
  raised_by_logger w0 reqs (provider w)
    (try_except
       (do! (do! FileLogger._write_json_log lg log_type data in rest) in ret a)
       h w).
Proof.
  intros Hbad Hsent Hfs Hlog.
  destruct (write_json_log_refused lg log_type data w Hon Hbad)
    as (msg & w' & Heq & Hfs' & Hlog' & Hsent' & Hprov').
  exists msg. unfold try_except, bind. rewrite Heq. cbn [fst snd].
  repeat split; congruence.
Qed.

End LoggerRaises.

(** X12: logging can make a method raise after the provider has done its
    part. When the day file of the category decodes to something that is not
    an array, a release, call or message that the provider accepted ends in
    AttributeError instead of the success result, though the number is
    released, the call placed, the message sent; and an update that the
    provider rejected ends in AttributeError instead of the failure
    result. *)
Theorem logging_failure_reaches_the_caller {P : Type}
    (client : Client P) (lg : FileLogger.t) (w : world P) :
  FileLogger.enabled lg = true ->
  (forall sid number p1 deleted p2,
      appendable (fs w !! log_file_of lg "purchase" w) = false ->
      incoming_phone_numbers_fetch client sid (provider w) = (Return number, p1) ->
      incoming_phone_numbers_delete client sid p1 = (Return deleted, p2) ->
      raised_by_logger w [IncomingFetch sid; IncomingDelete sid] p2
        (TwilioGateway.release_phone_number client lg sid w))
  /\ (forall from_number to_number url twiml call p',
      let kwargs := TwilioGateway.make_call_kwargs from_number to_number url
                      twiml in
      appendable (fs w !! log_file_of lg "call" w) = false ->
      calls_create client kwargs (provider w) = (Return call, p') ->
      raised_by_logger w [CallsCreate kwargs] p'
        (TwilioGateway.make_call client lg from_number to_number url twiml w))
  /\ (forall from_number to_number body message p',
      appendable (fs w !! log_file_of lg "message" w) = false ->
      messages_create client to_number from_number body (provider w)
      = (Return message, p') ->
      raised_by_logger w [MessagesCreate to_number from_number body] p'
        (TwilioGateway.send_message client lg from_number to_number body w))
  /\ (forall sid friendly_name sms_url sms_method voice_url voice_method e p',
      let kwargs := TwilioGateway.update_kwargs friendly_name sms_url
                      sms_method voice_url voice_method in
      appendable (fs w !! log_file_of lg "error" w) = false ->
      incoming_phone_numbers_update client sid kwargs (provider w)
      = (Raise (TwilioRestException e), p') ->
      raised_by_logger w [IncomingUpdate sid kwargs] p'
        (TwilioGateway.update_phone_number client lg sid friendly_name sms_url
           sms_method voice_url voice_method w)).
Proof.
  intros Hon.
  split; [| split; [| split]]; intros; methods;
    repeat match goal with x := _ |- _ => subst x end; cbv zeta;
    repeat match goal with
    | H : _ = (Return _, _) |- _ =>
        rewrite (try_call_returned _ _ _ _ _ _ _ H); clear H
    | H : _ = (Raise (TwilioRestException _), _) |- _ =>
        rewrite (try_call_rejected _ _ _ _ _ _ _ H); clear H
    end.
  - assert (H1' : incoming_phone_numbers_delete client sid
                    (provider (called (IncomingFetch sid) p1 w))
                  = (Return deleted, p2)) by assumption.
    rewrite (try_call_returned _ _ _ _ _ _ _ H1').
    apply (refused_in_body lg Hon "purchase" _ _ true _ w);
      [assumption | | reflexivity | reflexivity].
    cbn [sent called]. now rewrite <- app_assoc.
  - now apply (refused_in_body lg Hon).
  - now apply (refused_in_body lg Hon).
  - now apply (refused_in_handler lg Hon).
Qed.

Lemma logging_failure_witness :
  let w := Demo.with_files
             {["logs/purchase_2026-11-04.json" := Json (VDict [])]} Demo.start in
  raised_by_logger w [IncomingFetch "PN1"; IncomingDelete "PN1"]
    (Demo.State [] ["+14155550101"; "+14155550102"] false)
    (TwilioGateway.release_phone_number Demo.client Demo.logger "PN1" w).
Proof.
  apply (proj1 (logging_failure_reaches_the_caller Demo.client Demo.logger
                  (Demo.with_files
                     {["logs/purchase_2026-11-04.json" := Json (VDict [])]}
                     Demo.start) eq_refl)
           "PN1" (Demo.incoming "PN1" "+14155550100")
           (provider Demo.start) true); reflexivity.
Defined.

Lemma get_subaccounts_off_main {P : Type}
    (client : Client P) (lg : FileLogger.t) (self : TwilioGateway.t)
    (w : world P) :
  TwilioGateway.active_sid self <> TwilioGateway.account_sid self ->
  TwilioGateway.get_subaccounts client lg self w = (Return [], w).
Proof.
  intros Hne. unfold TwilioGateway.get_subaccounts.
  now rewrite (proj2 (String.eqb_neq _ _) Hne).
Qed.

Lemma get_subaccounts_on_main {P : Type}
    (client : Client P) (lg : FileLogger.t) (self : TwilioGateway.t)
    (w : world P) accounts p' :
  TwilioGateway.active_sid self = TwilioGateway.account_sid self ->
  accounts_list client (provider w) = (Return accounts, p') ->
  TwilioGateway.get_subaccounts client lg self w
  = (Return (map TwilioGateway.subaccount_dict accounts),
     called AccountsList p' w).
Proof.
  intros Heq Hans. unfold TwilioGateway.get_subaccounts.
  rewrite Heq, String.eqb_refl.
  now rewrite (try_call_returned _ _ _ _ _ _ _ Hans).
Qed.

(** X13: subaccounts are listed from the main account only. When the
    active account is not the main account, get_subaccounts returns the empty
    list at once: no request goes out and nothing is logged. On the main
    account it sends the one listing request and returns one record per
    account, in the provider's order. *)
Theorem subaccounts_only_from_main_account {P : Type}
    (client : Client P) (lg : FileLogger.t) (self : TwilioGateway.t)
    (w : world P) :
  (TwilioGateway.active_sid self <> TwilioGateway.account_sid self ->
   TwilioGateway.get_subaccounts client lg self w = (Return [], w))
  /\ (TwilioGateway.active_sid self = TwilioGateway.account_sid self ->
      forall accounts p',
        accounts_list client (provider w) = (Return accounts, p') ->
        TwilioGateway.get_subaccounts client lg self w
        = (Return (map TwilioGateway.subaccount_dict accounts),
           called AccountsList p' w)).
Proof.
  split.
  - apply get_subaccounts_off_main.
  - intros Heq accounts p'. now apply get_subaccounts_on_main.
Qed.

Lemma subaccounts_witness :
  TwilioGateway.get_subaccounts Demo.client Demo.logger Demo.stranger Demo.start
  = (Return [], Demo.start)
  /\ TwilioGateway.get_subaccounts Demo.client Demo.logger Demo.gateway Demo.start
     = (Return [], called AccountsList (provider Demo.start) Demo.start).
Proof.
  destruct (subaccounts_only_from_main_account Demo.client Demo.logger
              Demo.stranger Demo.start) as [Hsub _].
  destruct (subaccounts_only_from_main_account Demo.client Demo.logger
              Demo.gateway Demo.start) as [_ Hmain].
  split.
  - apply Hsub. discriminate.
  - apply (Hmain eq_refl [] (provider Demo.start)). reflexivity.
Defined.

(** X14: an update sends the fields that were given and no others. Each of
    the five names is in the request exactly when its argument is not None,
    with the value as given, the empty string included; the request has as
    many fields as there are arguments given. *)
Theorem update_sends_the_fields_given
    (friendly_name sms_url sms_method voice_url voice_method : option string) :
  let kwargs := TwilioGateway.update_kwargs friendly_name sms_url sms_method
                  voice_url voice_method in
  let given (o : option string) : nat :=
    match o with Some _ => 1%nat | None => 0%nat end in
  dict_lookup kwargs "friendly_name" = friendly_name
  /\ dict_lookup kwargs "sms_url" = sms_url
  /\ dict_lookup kwargs "sms_method" = sms_method
  /\ dict_lookup kwargs "voice_url" = voice_url
  /\ dict_lookup kwargs "voice_method" = voice_method
  /\ length kwargs
     = (given friendly_name + given sms_url + given sms_method
        + given voice_url + given voice_method)%nat
  /\ dict_lookup
       (TwilioGateway.update_kwargs (Some EmptyString) None None None None)
       "friendly_name" = Some EmptyString.
Proof.
  destruct friendly_name, sms_url, sms_method, voice_url, voice_method;
    cbv zeta; repeat split.
Qed.

(** X15: the arguments of a call always hold the two numbers, and at most
    one of url and twiml: the url when it is given and not empty; otherwise
    the twiml when it is given and not empty; otherwise neither. *)
Theorem call_arguments_hold_url_or_twiml
    (from_number to_number : string) (url twiml : option string) :
  let kwargs := TwilioGateway.make_call_kwargs from_number to_number url twiml in
  dict_lookup kwargs "to" = Some to_number
  /\ dict_lookup kwargs "from_" = Some from_number
  /\ dict_lookup kwargs "url" = (if truthy url then url else None)
  /\ dict_lookup kwargs "twiml"
     = (if truthy url then None else if truthy twiml then twiml else None)
  /\ (dict_lookup kwargs "url" = None \/ dict_lookup kwargs "twiml" = None)
  /\ (truthy url = false -> truthy twiml = false ->
      kwargs = [("to", to_number); ("from_", from_number)]).
Proof.
  unfold TwilioGateway.make_call_kwargs.
  destruct (truthy url) eqn:Hu; [| destruct (truthy twiml) eqn:Ht].
  - destruct url as [u |]; [| discriminate Hu]. cbn. repeat split; auto.
    discriminate.
  - destruct twiml as [t |]; [| discriminate Ht]. cbn. repeat split; auto.
    discriminate.
  - cbn. repeat split; auto.
Qed.

Lemma call_arguments_witness :
  TwilioGateway.make_call_kwargs "+14155550100" "+14155550199"
    (Some EmptyString) (Some "<Response/>")
  = [("to", "+14155550199"); ("from_", "+14155550100");
     ("twiml", "<Response/>")]
  /\ TwilioGateway.make_call_kwargs "+14155550100" "+14155550199" None None
     = [("to", "+14155550199"); ("from_", "+14155550100")].
Proof.
  split; [reflexivity |].
  apply (call_arguments_hold_url_or_twiml "+14155550100" "+14155550199"
           None None); reflexivity.
Defined.

Lemma search_raw_answered {P : Type}
    (client : Client P) (lg : FileLogger.t) (self : TwilioGateway.t)
    (country_code : string) (params : list (string * value))
    (response : Response) (p' : P) (w : world P) :
  let url := TwilioGateway.raw_search_url self country_code in
  let auth := (TwilioGateway.account_sid self, TwilioGateway.auth_token self) in
  requests_get client url params auth (provider w) = (Return response, p') ->
  TwilioGateway.search_phone_numbers_raw client lg self country_code params w
  = (if status_code response =? 200 then
       match json response with
       | Return v => ret v
       | Raise e => raise e
       end
     else
       do! FileLogger.log_error lg "twilio_search_raw"
             ("Error " ++ pretty (status_code response) ++ ": "
              ++ text response) None in
       ret (VDict [("available_phone_numbers", VList [])]))
      (called (HttpGet url params auth) p' w).
Proof.
  intros url auth Hget. unfold TwilioGateway.search_phone_numbers_raw, bind at 1.
  now rewrite (call_api_eq _ _ w _ _ Hget).
Qed.

(** X16: the raw search goes by the status code. With status 200 it gives
    what the body decodes to, or raises what the decoding raises, and logs
    nothing. With any other status it returns the record with an empty list
    of numbers and writes one error record that holds the status code and the
    body text. *)
Theorem raw_search_goes_by_status {P : Type}
    (client : Client P) (lg : FileLogger.t) (self : TwilioGateway.t)
    (country_code : string) (params : list (string * value))
    (response : Response) (p' : P) (w : world P) :
  let url := TwilioGateway.raw_search_url self country_code in
  let auth := (TwilioGateway.account_sid self, TwilioGateway.auth_token self) in
  requests_get client url params auth (provider w) = (Return response, p') ->
  let r := TwilioGateway.search_phone_numbers_raw client lg self country_code
             params w in
  (status_code response = 200 ->
   r = (json response, called (HttpGet url params auth) p' w))
  /\ (status_code response <> 200 ->
      FileLogger.enabled lg = true ->
      appendable (fs w !! log_file_of lg "error" w) = true ->
      let message :=
        "Error " ++ pretty (status_code response) ++ ": " ++ text response in
      fst r = Return (VDict [("available_phone_numbers", VList [])])
      /\ fs (snd r)
         = appended (log_file_of lg "error" w)
             (VDict [("type", VStr "twilio_search_raw");
                     ("message", VStr message);
                     ("details", VDict []);
                     ("timestamp", stamp_of w)])
             (fs w)
      /\ app_log (snd r)
         = (app_log w ++ [LogLine ERROR ("twilio_search_raw: " ++ message)])%list).
Proof.
  intros url auth Hget r. subst r url auth.
  rewrite (search_raw_answered client lg self country_code params response p'
             w Hget).
  split.
  - intros ->. cbn [Z.eqb Pos.eqb]. now destruct (json response).
  - intros Hne Hon Hok. cbv zeta.
    rewrite (proj2 (Z.eqb_neq _ _) Hne).
    erewrite log_ret by (apply (log_error_enabled lg Hon); exact Hok).
    cbn [fst snd]. repeat split.
Qed.

Lemma raw_search_status_witness :
  let r := TwilioGateway.search_phone_numbers_raw Demo.client Demo.logger
             Demo.gateway "US" [("AreaCode", VStr "415")] Demo.start in
  fst r = Return (VDict [("available_phone_numbers", VList [])])
  /\ fs (snd r)
     = {["logs/error_2026-11-04.json" :=
           Json (VList [VDict [("type", VStr "twilio_search_raw");
                               ("message", VStr "Error 401: Authenticate");
                               ("details", VDict []);
                               ("timestamp", VStr "2026-11-04T09:58:00")]])]}
  /\ app_log (snd r)
     = [LogLine ERROR "twilio_search_raw: Error 401: Authenticate"].
Proof.
  refine (proj2 (raw_search_goes_by_status Demo.client Demo.logger Demo.gateway
                   "US" [("AreaCode", VStr "415")]
                   {| status_code := 401; text := "Authenticate";
                      json := Return (VDict []) |}
                   (provider Demo.start) Demo.start eq_refl) _ eq_refl eq_refl).
  discriminate.
Defined.

(** ** The configuration *)

(** X17: the gateway follows the active account of the configuration. A
    new gateway is scoped to the subaccount when one is set and not empty,
    to the main account otherwise; after a switch and refresh_client it is
    scoped to the account switched to, with its own credentials unchanged.
    So on a subaccount get_subaccounts sends nothing, and after switching
    back to the main account it sends the listing again. *)
Theorem gateway_follows_the_active_account {P : Type}
    (client : Client P) (lg : FileLogger.t) (c : Config.AppConfig)
    (subaccount : string) (w : world P) :
  subaccount <> EmptyString ->
  subaccount <> Config.account_sid (Config.twilio c) ->
  let main := Config.account_sid (Config.twilio c) in
  let g := Config.gateway c in
  let g1 := Config.refresh_client
              (Config.switch_subaccount (Some subaccount) c) g in
  let g2 := Config.refresh_client (Config.switch_subaccount None c) g1 in
  TwilioGateway.active_sid g = Config.active_sid (Config.twilio c)
  /\ TwilioGateway.active_sid g1 = subaccount
  /\ TwilioGateway.active_sid g2 = main
  /\ TwilioGateway.account_sid g2 = main
  /\ TwilioGateway.auth_token g2 = Config.auth_token (Config.twilio c)
  /\ TwilioGateway.get_subaccounts client lg g1 w = (Return [], w)
  /\ sent (snd (TwilioGateway.get_subaccounts client lg g2 w))
     = (sent w ++ [AccountsList])%list
  /\ Config.refresh_client (Config.switch_subaccount (Some EmptyString) c) g
     = g2.
Proof.
  intros Hne Hsub main g g1 g2.
  assert (H1 : TwilioGateway.active_sid g1 = subaccount).
  { subst g1. cbn. unfold Config.active_sid. cbn. unfold truthy.
    now rewrite (proj2 (String.eqb_neq _ _) Hne). }
  split; [reflexivity |]. split; [exact H1 |].
  split; [reflexivity |]. split; [reflexivity |]. split; [reflexivity |].
  split; [| split; [| reflexivity]].
  - apply get_subaccounts_off_main. rewrite H1. exact Hsub.
  - unfold TwilioGateway.get_subaccounts.
    change (TwilioGateway.active_sid g2) with main.
    change (TwilioGateway.account_sid g2) with main.
    rewrite String.eqb_refl. apply sends_try_call_once; intros ?; now silent.
Qed.

Lemma gateway_follows_witness :
  let c := Config.MakeApp (Config.MakeTwilio "AC1" "secret" None) true None
             false in
  let g1 := Config.refresh_client
              (Config.switch_subaccount (Some "AC7") c) (Config.gateway c) in
  TwilioGateway.active_sid g1 = "AC7"
  /\ TwilioGateway.get_subaccounts Demo.client Demo.logger g1 Demo.start
     = (Return [], Demo.start).
Proof.
  destruct (gateway_follows_the_active_account Demo.client Demo.logger
              (Config.MakeApp (Config.MakeTwilio "AC1" "secret" None) true None
                 false) "AC7" Demo.start)
    as (_ & H1 & _ & _ & _ & H2 & _); [discriminate | discriminate |].
  split; [exact H1 | exact H2].
Defined.

(** X18: load_config needs both credentials. It raises ValueError exactly
    when the account identifier or the secret is missing or empty in the
    environment as the file has left it; otherwise the configuration holds
    the values of the environment, the two flags are true only for a value
    that reads true in any letter case, and the gateway built from it is
    scoped to the subaccount only when that one is not empty. Without a file
    the environment is not changed and nothing is printed. *)
Theorem load_config_needs_both_credentials
    (dotenv : option (list string)) (environ : gmap string string) :
  let r := Config.load_config dotenv environ in
  let get name := Config.environ_after r !! name in
  (Config.result r = None
   <-> truthy (get "TWILIO_ACCOUNT_SID") = false
       \/ truthy (get "TWILIO_AUTH_TOKEN") = false)
  /\ (forall c,
      Config.result r = Some c ->
      Some (Config.account_sid (Config.twilio c)) = get "TWILIO_ACCOUNT_SID"
      /\ Some (Config.auth_token (Config.twilio c)) = get "TWILIO_AUTH_TOKEN"
      /\ Config.subaccount_sid (Config.twilio c) = get "TWILIO_SUBACCOUNT_SID"
      /\ Config.log_path c = get "LOG_PATH"
      /\ (Config.log_to_file c = true
          <-> exists v, get "LOG_TO_FILE" = Some v /\ lower v = "true")
      /\ (Config.debug_mode c = true
          <-> exists v, get "DEBUG_MODE" = Some v /\ lower v = "true")
      /\ TwilioGateway.active_sid (Config.gateway c)
         = (if truthy (get "TWILIO_SUBACCOUNT_SID")
            then default EmptyString (get "TWILIO_SUBACCOUNT_SID")
            else Config.account_sid (Config.twilio c)))
  /\ (dotenv = None ->
      Config.environ_after r = environ /\ Config.printed r = []).
Proof.
  assert (Hflag : forall name (e : gmap string string),
             Config.flag name e = true
             <-> exists v, e !! name = Some v /\ lower v = "true").
  { intros name e. unfold Config.flag. destruct (e !! name) as [v |]; cbn.
    - rewrite String.eqb_eq. split; [eauto | now intros (v' & [= <-] & H)].
    - split; [discriminate | now intros (v' & H & _)]. }
  cbv zeta. unfold Config.load_config.
  destruct (match dotenv with
            | Some lines => Config.load_lines lines environ
            | None => (environ, None)
            end) as [e warning] eqn:He.
  destruct (truthy (e !! "TWILIO_ACCOUNT_SID")) eqn:Hsid;
    destruct (truthy (e !! "TWILIO_AUTH_TOKEN")) eqn:Htok;
    cbn [negb orb Config.result Config.environ_after Config.printed];
    rewrite ?Hsid, ?Htok.
  2-4: split; [split; auto | split; [discriminate |]];
       intros ->; injection He as <- <-; now split.
  split; [split; [discriminate | intros [H | H]; discriminate H] |].
  split.
  - intros c [= <-]. cbn.
    destruct (e !! "TWILIO_ACCOUNT_SID") as [sid |]; [| discriminate Hsid].
    destruct (e !! "TWILIO_AUTH_TOKEN") as [tok |]; [| discriminate Htok].
    repeat split; try apply Hflag.
  - intros ->. injection He as <- <-. now split.
Qed.

Lemma load_config_witness :
  let environ : gmap string string :=
    {["TWILIO_ACCOUNT_SID" := "AC1"; "TWILIO_AUTH_TOKEN" := "secret";
      "TWILIO_SUBACCOUNT_SID" := EmptyString; "LOG_TO_FILE" := "True"]} in
  exists c,
    Config.result (Config.load_config None environ) = Some c
    /\ Config.log_to_file c = true
    /\ TwilioGateway.active_sid (Config.gateway c) = "AC1".
Proof.
  intros environ.
  destruct (load_config_needs_both_credentials None environ)
    as (_ & Hsome & _).
  assert (Hc : Config.result (Config.load_config None environ)
               = Some (Config.MakeApp
                         (Config.MakeTwilio "AC1" "secret" (Some EmptyString))
                         true None false)) by reflexivity.
  eexists. split; [exact Hc |].
  destruct (Hsome _ Hc) as (Hsid & _ & _ & _ & Hlog & _ & Hactive).
  split.
  - apply Hlog. exists "True". split; reflexivity.
  - rewrite Hactive. reflexivity.
Defined.

Section Dotenv.

Lemma load_lines_app (l1 l2 : list string) (environ : gmap string string) :
  Config.load_lines (l1 ++ l2) environ
  = match Config.load_lines l1 environ with
    | (environ', None) => Config.load_lines l2 environ'
    | (environ', Some e) => (environ', Some e)
    end.
Proof.
  revert environ. induction l1 as [| line l1 IH]; intros environ;
    cbn [app Config.load_lines]; [reflexivity |].
  destruct (_ && _); [| apply IH].
  destruct (Config.split_eq (strip line)) as [[key value] |]; [| reflexivity].
  destruct (Config.setenv _ _ environ) as [e | environ']; [reflexivity | apply IH].
Qed.

Lemma lstrip_by_blank p (ws s : string) :
  all_chars p ws = true -> lstrip_by p (ws ++ s) = lstrip_by p s.
Proof.
  induction ws as [| c ws IH]; [reflexivity |].
  cbn [all_chars]. intros [Hc Hws]%andb_prop.
  change (String c ws ++ s) with (String c (ws ++ s)).
  cbn [lstrip_by]. rewrite Hc. now apply IH.
Qed.

Lemma rstrip_by_all p (ws : string) :
  all_chars p ws = true -> rstrip_by p ws = EmptyString.
Proof.
  induction ws as [| c ws IH]; [reflexivity |].
  cbn [all_chars rstrip_by]. intros [Hc Hws]%andb_prop.
  now rewrite (IH Hws), Hc.
Qed.

Lemma rstrip_by_blank p (s ws : string) :
  all_chars p ws = true -> rstrip_by p (s ++ ws) = rstrip_by p s.
Proof.
  intros Hws. induction s as [| c s IH].
  - change (EmptyString ++ ws) with ws. now apply rstrip_by_all.
  - change (String c s ++ ws) with (String c (s ++ ws)).
    cbn [rstrip_by]. now rewrite IH.
Qed.

Lemma lstrip_by_head p (s t : string) :
  lstrip_by p s = s -> s <> EmptyString -> lstrip_by p (s ++ t) = s ++ t.
Proof.
  destruct s as [| c s]; [congruence |]. intros H _.
  change (String c s ++ t) with (String c (s ++ t)).
  cbn [lstrip_by] in *. destruct (p c); [| reflexivity].
  exfalso. assert (Hlen : forall u, (String.length (lstrip_by p u)
                                     <= String.length u)%nat).
  { induction u as [| d u IHu]; cbn [lstrip_by String.length]; [lia |].
    destruct (p d); cbn [String.length]; lia. }
  specialize (Hlen s). rewrite H in Hlen. cbn [String.length] in Hlen. lia.
Qed.

(** Stripping takes the blanks off both ends of a trimmed string. *)
Lemma strip_by_padded p (ws1 s ws2 : string) :
  all_chars p ws1 = true -> all_chars p ws2 = true -> trimmed p s ->
  strip_by p (ws1 ++ s ++ ws2) = s.
Proof.
  intros H1 H2 [Hl Hr]. unfold strip_by. rewrite (lstrip_by_blank p ws1 _ H1).
  destruct s as [| c s].
  - change (EmptyString ++ ws2) with ws2.
    replace (lstrip_by p ws2) with EmptyString; [reflexivity |].
    clear -H2. induction ws2 as [| d ws IH]; [reflexivity |].
    cbn [all_chars lstrip_by] in *. apply andb_prop in H2 as [-> H2]. auto.
  - rewrite (lstrip_by_head p _ ws2 Hl) by discriminate.
    now rewrite (rstrip_by_blank p _ ws2 H2).
Qed.

Lemma split_eq_at (k rest : string) :
  Config.split_eq k = None ->
  Config.split_eq (k ++ String (Ascii.ascii_of_nat 61) rest) = Some (k, rest).
Proof.
  induction k as [| c k IH]; intros Hk.
  - reflexivity.
  - change (String c k ++ String (Ascii.ascii_of_nat 61) rest)
      with (String c (k ++ String (Ascii.ascii_of_nat 61) rest)).
    cbn [Config.split_eq] in *.
    destruct (Ascii.eqb c (Ascii.ascii_of_nat 61)); [discriminate Hk |].
    destruct (Config.split_eq k) as [[a b] |]; [discriminate Hk |].
    now rewrite (IH eq_refl).
Qed.

Lemma split_eq_blank (ws k : string) :
  all_chars isspace ws = true ->
  Config.split_eq k = None -> Config.split_eq (k ++ ws) = None.
Proof.
  intros Hws Hk. induction k as [| c k IH].
  - change (EmptyString ++ ws) with ws. clear Hk.
    induction ws as [| d ws IHw]; [reflexivity |].
    cbn [all_chars Config.split_eq] in *. apply andb_prop in Hws as [Hd Hws].
    destruct (Ascii.eqb_spec d (Ascii.ascii_of_nat 61)) as [-> | _];
      [discriminate Hd |].
    now rewrite (IHw Hws).
  - change (String c k ++ ws) with (String c (k ++ ws)).
    cbn [Config.split_eq] in *.
    destruct (Ascii.eqb c (Ascii.ascii_of_nat 61)); [discriminate Hk |].
    destruct (Config.split_eq k) as [[a b] |]; [discriminate Hk |].
    now rewrite (IH eq_refl).
Qed.

Lemma append_assoc (a b c : string) : (a ++ b) ++ c = a ++ b ++ c.
Proof.
  induction a as [| x a IH]; [reflexivity |].
  change ((String x a ++ b) ++ c) with (String x ((a ++ b) ++ c)).
  now rewrite IH.
Qed.

Lemma append_empty_r (a : string) : a ++ EmptyString = a.
Proof.
  induction a as [| x a IH]; [reflexivity |].
  change (String x a ++ EmptyString) with (String x (a ++ EmptyString)).
  now rewrite IH.
Qed.

End Dotenv.

Section DotenvLine.

Lemma rstrip_by_app p (a b : string) :
  rstrip_by p (a ++ b)
  = if String.eqb (rstrip_by p b) EmptyString then rstrip_by p a
    else a ++ rstrip_by p b.
Proof.
  induction a as [| x a IH].
  - change (EmptyString ++ b) with b. cbn [rstrip_by].
    destruct (String.eqb_spec (rstrip_by p b) EmptyString) as [-> | _];
      reflexivity.
  - change (String x a ++ b) with (String x (a ++ b)).
    cbn [rstrip_by]. rewrite IH.
    destruct (String.eqb_spec (rstrip_by p b) EmptyString) as [Hb | Hb];
      [reflexivity |].
    change (String x a ++ rstrip_by p b) with (String x (a ++ rstrip_by p b)).
    replace (String.eqb (a ++ rstrip_by p b) EmptyString) with false;
      [now rewrite andb_false_r |].
    symmetry. apply String.eqb_neq. intros Heq.
    destruct a; [now apply Hb | discriminate Heq].
Qed.

Lemma has_nul_lstrip p (s : string) :
  Config.has_nul s = false -> Config.has_nul (lstrip_by p s) = false.
Proof.
  induction s as [| c s IH]; [reflexivity |]. intros H.
  cbn [lstrip_by]. destruct (p c); [| exact H].
  cbn [Config.has_nul] in H. apply orb_false_elim in H as [_ H]. auto.
Qed.

Lemma has_nul_rstrip p (s : string) :
  Config.has_nul s = false -> Config.has_nul (rstrip_by p s) = false.
Proof.
  induction s as [| c s IH]; [reflexivity |].
  cbn [Config.has_nul rstrip_by]. intros [Hc Hs]%orb_false_elim.
  destruct (_ && _); [reflexivity |].
  cbn [Config.has_nul]. now rewrite Hc, (IH Hs).
Qed.

Lemma trimmed_empty p (s : string) :
  trimmed p s -> String.eqb (rstrip_by p s) EmptyString = true ->
  s = EmptyString.
Proof. intros [_ Hr] H. apply String.eqb_eq in H. congruence. Qed.

(** What is left of the line after [strip], for a line made of a key, the
    equals sign and a value, with blanks anywhere around them. *)
Lemma strip_assignment (lead key mid1 mid2 raw trail : string) :
  all_chars isspace lead = true -> all_chars isspace trail = true ->
  trimmed isspace key -> key <> EmptyString ->
  strip (lead ++ key ++ mid1
         ++ String (Ascii.ascii_of_nat 61) (mid2 ++ raw ++ trail))
  = (key ++ mid1)
    ++ String (Ascii.ascii_of_nat 61) (rstrip_by isspace (mid2 ++ raw)).
Proof.
  intros Hlead Htrail Hkey Hne. unfold strip, strip_by.
  rewrite (lstrip_by_blank isspace lead _ Hlead).
  rewrite (lstrip_by_head isspace key _ (proj1 Hkey) Hne).
  replace (key ++ mid1 ++ String (Ascii.ascii_of_nat 61) (mid2 ++ raw ++ trail))
    with (((key ++ mid1) ++ String (Ascii.ascii_of_nat 61) (mid2 ++ raw))
          ++ trail).
  2:{ rewrite !append_assoc. do 2 f_equal.
      change (String (Ascii.ascii_of_nat 61) (mid2 ++ raw) ++ trail)
        with (String (Ascii.ascii_of_nat 61) ((mid2 ++ raw) ++ trail)).
      now rewrite append_assoc. }
  rewrite (rstrip_by_blank isspace _ trail Htrail).
  rewrite rstrip_by_app. reflexivity.
Qed.

Lemma strip_value (mid2 raw : string) :
  all_chars isspace mid2 = true -> trimmed isspace raw ->
  strip (rstrip_by isspace (mid2 ++ raw)) = raw.
Proof.
  intros Hmid Hraw. rewrite rstrip_by_app.
  destruct (String.eqb (rstrip_by isspace raw) EmptyString) eqn:He.
  - rewrite (trimmed_empty isspace raw Hraw He).
    now rewrite (rstrip_by_all isspace mid2 Hmid).
  - rewrite (proj2 Hraw).
    rewrite <- (append_empty_r raw) at 1.
    now apply (strip_by_padded isspace mid2 raw EmptyString).
Qed.

End DotenvLine.

(** X19: the file is read in order and the first line that cannot be read
    ends the reading. A line that is not blank, is not a comment and has no
    equals sign stops the load: the variables set by the lines before it
    stay set, the lines after it are not read, one warning is printed, and
    the configuration is built from the environment as it then is. Blank
    lines and comment lines are passed over. *)
Theorem dotenv_stops_at_the_first_bad_line
    (before after : list string) (bad : string)
    (environ : gmap string string) :
  strip bad <> EmptyString ->
  Config.startswith_hash (strip bad) = false ->
  Config.split_eq (strip bad) = None ->
  snd (Config.load_lines before environ) = None ->
  let set := fst (Config.load_lines before environ) in
  let r := Config.load_config (Some (before ++ bad :: after)%list) environ in
  Config.environ_after r = set
  /\ Config.printed r
     = ["Warning: Error loading .env file: not enough values to unpack (expected 2, got 1)"]
  /\ Config.result r = Config.result (Config.load_config None set)
  /\ (forall line rest e,
      strip line = EmptyString \/ Config.startswith_hash (strip line) = true ->
      Config.load_lines (line :: rest) e = Config.load_lines rest e).
Proof.
  intros Hne Hhash Hsplit Hbefore set r. subst set r.
  assert (Hload : Config.load_lines (before ++ bad :: after)%list environ
                  = (fst (Config.load_lines before environ),
                     Some "not enough values to unpack (expected 2, got 1)")).
  { rewrite load_lines_app.
    destruct (Config.load_lines before environ) as [e warning].
    cbn [fst snd] in *. subst warning. cbn [Config.load_lines].
    rewrite (proj2 (String.eqb_neq _ _) Hne), Hhash, Hsplit. reflexivity. }
  unfold Config.load_config. rewrite Hload.
  split; [| split; [| split]].
  - now destruct (_ || _).
  - now destruct (_ || _).
  - now destruct (_ || _).
  - intros line rest e Hskip. cbn [Config.load_lines].
    destruct Hskip as [-> | ->]; [reflexivity | now rewrite andb_false_r].
Qed.

Lemma dotenv_stops_witness :
  let r := Config.load_config
             (Some ["TWILIO_ACCOUNT_SID=AC1"; "TWILIO_AUTH_TOKEN=secret";
                    "LOG_TO_FILE"; "LOG_TO_FILE=true"]) ∅ in
  Config.environ_after r
  = {["TWILIO_ACCOUNT_SID" := "AC1"; "TWILIO_AUTH_TOKEN" := "secret"]}
  /\ Config.printed r
     = ["Warning: Error loading .env file: not enough values to unpack (expected 2, got 1)"]
  /\ Config.result r
     = Some (Config.MakeApp (Config.MakeTwilio "AC1" "secret" None) false None
               false).
Proof.
  destruct (dotenv_stops_at_the_first_bad_line
              ["TWILIO_ACCOUNT_SID=AC1"; "TWILIO_AUTH_TOKEN=secret"]
              ["LOG_TO_FILE=true"] "LOG_TO_FILE" ∅)
    as (Henv & Hprint & Hres & _); [discriminate | reflexivity .. |].
  split; [| split].
  - etransitivity; [exact Henv | reflexivity].
  - exact Hprint.
  - etransitivity; [exact Hres | reflexivity].
Defined.

(** X20: a line of the file sets its variable. For a line made of a key,
    the equals sign and a value, with blanks before, between and after, the
    variable named by the key is set to the value with the quote characters
    taken off its two ends, over whatever the environment held; equals signs
    inside the value are kept. A quoted value comes out without its
    quotes. *)
Theorem dotenv_line_sets_the_variable
    (lead key mid1 mid2 raw trail : string) (rest : list string)
    (environ : gmap string string) :
  all_chars isspace lead = true -> all_chars isspace mid1 = true ->
  all_chars isspace mid2 = true -> all_chars isspace trail = true ->
  trimmed isspace key -> key <> EmptyString ->
  Config.startswith_hash key = false ->
  Config.split_eq key = None ->
  Config.has_nul key = false ->
  trimmed isspace raw -> Config.has_nul raw = false ->
  Config.load_lines
    ((lead ++ key ++ mid1
      ++ String (Ascii.ascii_of_nat 61) (mid2 ++ raw ++ trail)) :: rest)
    environ
  = Config.load_lines rest (<[key := strip_by Config.is_quote raw]> environ)
  /\ (forall q1 v q2,
      all_chars Config.is_quote q1 = true ->
      all_chars Config.is_quote q2 = true ->
      trimmed Config.is_quote v ->
      strip_by Config.is_quote (q1 ++ v ++ q2) = v).
Proof.
  intros Hlead Hmid1 Hmid2 Htrail Hkey Hne Hhash Hsplit Hnul Hraw Hnulraw.
  split; [| intros q1 v q2 H1 H2 Hv; now apply strip_by_padded].
  cbn [Config.load_lines].
  rewrite (strip_assignment lead key mid1 mid2 raw trail Hlead Htrail Hkey Hne).
  assert (Hstart : forall t, Config.startswith_hash ((key ++ mid1) ++ t) = false).
  { intros t. destruct key as [| c key]; [congruence |]. exact Hhash. }
  assert (Hnonempty : forall t,
             String.eqb ((key ++ mid1) ++ t) EmptyString = false).
  { intros t. destruct key as [| c key]; [congruence |]. reflexivity. }
  rewrite Hstart, Hnonempty. cbn [negb andb].
  rewrite (split_eq_at (key ++ mid1) _ (split_eq_blank mid1 key Hmid1 Hsplit)).
  replace (strip (key ++ mid1)) with key.
  2:{ symmetry.
      apply (strip_by_padded isspace EmptyString key mid1 eq_refl Hmid1 Hkey). }
  rewrite (strip_value mid2 raw Hmid2 Hraw).
  unfold Config.setenv. rewrite Hnul.
  unfold strip_by.
  rewrite (has_nul_rstrip _ _ (has_nul_lstrip Config.is_quote raw Hnulraw)).
  cbn [orb]. now rewrite (proj2 (String.eqb_neq _ _) Hne).
Qed.

Lemma dotenv_line_witness :
  Config.load_lines [" LOG_PATH = '/var/log/twilio=x' "]
    {["LOG_PATH" := "logs"]}
  = ({["LOG_PATH" := "/var/log/twilio=x"]}, None).
Proof.
  etransitivity;
    [ exact (proj1 (dotenv_line_sets_the_variable " " "LOG_PATH" " " " "
                      "'/var/log/twilio=x'" " " [] {["LOG_PATH" := "logs"]}
                      eq_refl eq_refl eq_refl eq_refl
                      (conj eq_refl eq_refl) ltac:(discriminate) eq_refl
                      eq_refl eq_refl (conj eq_refl eq_refl) eq_refl))
    | reflexivity ].
Defined.

(** ** The menu *)

Section Choice.

Lemma choice_loop_range allow_back n lines shown i c' :
  Menu.choice_loop allow_back n lines shown = (Menu.Ok i, c') ->
  (i = -1 /\ allow_back = true) \/ (0 <= i < Z.of_nat n).
Proof.
  revert shown. induction lines as [| line rest IH]; intros shown;
    cbn [Menu.choice_loop]; [discriminate |].
  destruct (Menu.py_int line) as [choice |]; [| apply IH].
  destruct allow_back; cbn [andb].
  - destruct (choice =? 0); [intros [= <- _]; now left |].
    destruct (Z.leb_spec 1 choice); cbn [andb]; [| apply IH].
    destruct (Z.leb_spec choice (Z.of_nat n)); [| apply IH].
    intros [= <- _]. right. lia.
  - destruct (Z.leb_spec 1 choice); cbn [andb]; [| apply IH].
    destruct (Z.leb_spec choice (Z.of_nat n)); [| apply IH].
    intros [= <- _]. right. lia.
Qed.

Lemma choice_loop_nothing_to_choose lines shown :
  exists c', Menu.choice_loop false 0 lines shown = (Menu.Fail Menu.EOFError, c')
             /\ Menu.stdin c' = [].
Proof.
  revert shown. induction lines as [| line rest IH]; intros shown;
    cbn [Menu.choice_loop]; [eexists; split; reflexivity |].
  destruct (Menu.py_int line) as [choice |]; [| apply IH].
  cbn [andb]. change (Z.of_nat 0) with 0.
  destruct (Z.leb_spec 1 choice); cbn [andb]; [| apply IH].
  destruct (Z.leb_spec choice 0); [lia | apply IH].
Qed.

Lemma print_all_ok lines (c : Menu.console) :
  Menu.print_all lines c
  = (Menu.Ok tt,
     Menu.Console (Menu.stdin c) (Menu.stdout c ++ map Menu.Print lines)).
Proof.
  revert c. induction lines as [| l lines IH]; intros [stdin stdout];
    cbn [Menu.print_all map].
  - now rewrite app_nil_r.
  - unfold Menu.seq, Menu.print. cbn [Menu.stdin Menu.stdout].
    rewrite IH. cbn [Menu.stdin Menu.stdout]. now rewrite <- app_assoc.
Qed.

(** What is on the screen when the loop of prompt_for_choice starts. *)
Lemma prompt_for_choice_eq message options allow_back (c : Menu.console) :
  Menu.prompt_for_choice message options allow_back c
  = Menu.choice_loop allow_back (length options) (Menu.stdin c)
      (Menu.stdout c
       ++ Menu.Print (message ++ ":")
          :: map Menu.Print (Menu.numbered 1 options)
       ++ (if allow_back then [Menu.Print "0. Back"] else [])).
Proof.
  destruct c as [stdin stdout].
  unfold Menu.prompt_for_choice, Menu.seq at 1, Menu.print.
  cbn [Menu.stdin Menu.stdout]. unfold Menu.seq at 1. rewrite print_all_ok.
  cbn [Menu.stdin Menu.stdout]. unfold Menu.seq, Menu.print.
  destruct allow_back; cbn [Menu.stdin Menu.stdout];
    rewrite <- ?app_assoc; cbn [app]; rewrite ?app_nil_r; reflexivity.
Qed.

End Choice.

(** X21: prompt_for_choice returns the index of an option or the code for
    back. Whenever it returns, the value is -1 with back allowed, or an index
    from 0 up to the last option; with back not allowed it is never -1. With
    no option to choose and back not allowed it accepts no line at all: it
    reads the whole input and ends in EOFError. *)
Theorem choice_is_an_option_or_back (message : string) (options : list string)
    (allow_back : bool) (c : Menu.console) :
  (forall i c',
      Menu.prompt_for_choice message options allow_back c = (Menu.Ok i, c') ->
      (i = -1 /\ allow_back = true) \/ (0 <= i < Z.of_nat (length options)))
  /\ (forall i c',
      allow_back = false ->
      Menu.prompt_for_choice message options allow_back c = (Menu.Ok i, c') ->
      exists option, options !! Z.to_nat i = Some option)
  /\ (exists c',
      Menu.prompt_for_choice message [] false c = (Menu.Fail Menu.EOFError, c')
      /\ Menu.stdin c' = []).
Proof.
  split; [| split].
  - intros i c'. rewrite prompt_for_choice_eq. apply choice_loop_range.
  - intros i c' -> H. rewrite prompt_for_choice_eq in H.
    apply choice_loop_range in H as [[_ H] | H]; [discriminate H |].
    apply lookup_lt_is_Some. lia.
  - rewrite prompt_for_choice_eq. apply choice_loop_nothing_to_choose.
Qed.

Lemma choice_witness :
  let r := Menu.prompt_for_choice "Pick" ["Search"; "Purchase"] false
             (Menu.Console ["0"; "2"; "1"] []) in
  fst r = Menu.Ok 1
  /\ Menu.stdin (snd r) = ["1"]
  /\ exists option, ["Search"; "Purchase"] !! Z.to_nat 1 = Some option.
Proof.
  cbv zeta. split; [reflexivity |]. split; [reflexivity |].
  apply (proj1 (proj2 (choice_is_an_option_or_back "Pick"
                         ["Search"; "Purchase"] false
                         (Menu.Console ["0"; "2"; "1"] [])))
           1 (Menu.Console ["1"]
                [Menu.Print "Pick:"; Menu.Print "1. Search";
                 Menu.Print "2. Purchase";
                 Menu.Input Menu.enter_your_choice;
                 Menu.Print "Please enter a number between 1 and 2";
                 Menu.Input Menu.enter_your_choice]));
    reflexivity.
Defined.

(** X22: the first line that is accepted decides. Lines that are not
    numbers are passed over, each with one prompt and one message; the number
    that follows, when it names an option, is returned as its index, and the
    lines after it are left unread. When the input holds no acceptable line
    the method ends in EOFError. *)
Theorem choice_skips_what_is_not_a_number
    (allow_back : bool) (n : nat) (bad : list string) (good : string)
    (rest : list string) (choice : Z) (shown : list Menu.event) :
  Forall (fun line => Menu.py_int line = None) bad ->
  Menu.py_int good = Some choice ->
  1 <= choice <= Z.of_nat n ->
  let retry :=
    [Menu.Input Menu.enter_your_choice;
     Menu.Print "Please enter a valid number"] in
  Menu.choice_loop allow_back n (bad ++ good :: rest) shown
  = (Menu.Ok (choice - 1),
     Menu.Console rest
       (shown ++ flat_map (fun _ => retry) bad
        ++ [Menu.Input Menu.enter_your_choice]))
  /\ Menu.choice_loop allow_back n bad shown
     = (Menu.Fail Menu.EOFError,
        Menu.Console []
          (shown ++ flat_map (fun _ => retry) bad
           ++ [Menu.Input Menu.enter_your_choice])).
Proof.
  intros Hbad Hgood Hrange retry. subst retry. revert shown.
  induction Hbad as [| line bad Hline Hbad IH]; intros shown.
  - cbn [app flat_map Menu.choice_loop]. rewrite Hgood.
    replace (choice =? 0) with false by (symmetry; apply Z.eqb_neq; lia).
    rewrite andb_false_r.
    rewrite (proj2 (Z.leb_le 1 choice)) by lia.
    rewrite (proj2 (Z.leb_le choice (Z.of_nat n))) by lia.
    now split.
  - cbn [app flat_map Menu.choice_loop]. rewrite Hline.
    destruct (IH ((shown ++ [Menu.Input Menu.enter_your_choice])
                  ++ [Menu.Print "Please enter a valid number"])%list)
      as [-> ->].
    rewrite <- !app_assoc. now split.
Qed.

Lemma choice_skips_witness :
  Menu.choice_loop true 3 ["abc"; EmptyString; "1__0"; " 2 "; "3"] []
  = (Menu.Ok 1,
     Menu.Console ["3"]
       [Menu.Input Menu.enter_your_choice;
        Menu.Print "Please enter a valid number";
        Menu.Input Menu.enter_your_choice;
        Menu.Print "Please enter a valid number";
        Menu.Input Menu.enter_your_choice;
        Menu.Print "Please enter a valid number";
        Menu.Input Menu.enter_your_choice]).
Proof.
  apply (proj1 (choice_skips_what_is_not_a_number true 3
                  ["abc"; EmptyString; "1__0"] " 2 " ["3"] 2 []
                  ltac:(repeat constructor) eq_refl ltac:(lia))).
Defined.

(** X23: prompt_for_input with a default never returns an empty answer. With
    a default that is not empty, the prompt shows it, and the answer is the
    line typed without the blanks around it, or the default when nothing but
    blanks was typed; without a default the answer is the stripped line, which
    may be empty. At the end of the input it raises EOFError. *)
Theorem prompt_for_input_falls_back_on_default
    (message line : string) (rest : list string) (shown : list Menu.event) :
  (forall default,
      default <> EmptyString ->
      exists answer,
        Menu.prompt_for_input message (Some default)
          (Menu.Console (line :: rest) shown)
        = (Menu.Ok answer,
           Menu.Console rest
             (shown ++ [Menu.Input (message ++ " [" ++ default ++ "]: ")]))
        /\ answer <> EmptyString
        /\ (strip line = EmptyString -> answer = default)
        /\ (strip line <> EmptyString -> answer = strip line))
  /\ (forall default,
      truthy default = false ->
      Menu.prompt_for_input message default (Menu.Console (line :: rest) shown)
      = (Menu.Ok (strip line),
         Menu.Console rest (shown ++ [Menu.Input (message ++ ": ")])))
  /\ (forall default,
      fst (Menu.prompt_for_input message default (Menu.Console [] shown))
      = Menu.Fail Menu.EOFError).
Proof.
  split; [| split].
  - intros default Hne. unfold Menu.prompt_for_input, truthy.
    rewrite (proj2 (String.eqb_neq _ _) Hne). cbn [negb].
    unfold Menu.seq, Menu.input. cbn [Menu.stdin Menu.stdout from_option id].
    destruct (String.eqb_spec (strip line) EmptyString) as [He | He];
      cbn [negb]; eexists; (split; [reflexivity |]); repeat split;
      congruence.
  - intros default Hd. unfold Menu.prompt_for_input. now rewrite Hd.
  - intros default. unfold Menu.prompt_for_input.
    now destruct (truthy default).
Qed.

Lemma prompt_for_input_witness :
  exists answer,
    Menu.prompt_for_input "Country" (Some "US")
      (Menu.Console ["   "; "next"] [])
    = (Menu.Ok answer,
       Menu.Console ["next"] [Menu.Input "Country [US]: "])
    /\ answer <> EmptyString
    /\ (strip "   " = EmptyString -> answer = "US")
    /\ (strip "   " <> EmptyString -> answer = strip "   ").
Proof.
  apply (proj1 (prompt_for_input_falls_back_on_default "Country" "   "
                  ["next"] []) "US").
  discriminate.
Defined.

Section Table.

Lemma len_append (s t : string) : len (s ++ t) = len s + len t.
Proof. unfold len. rewrite length_append. lia. Qed.

Lemma len_times c (n : Z) : len (times c n) = Z.max 0 n.
Proof.
  unfold len, times.
  assert (H : forall k, String.length (repeat_char c k) = k)
    by (induction k; cbn [repeat_char String.length]; congruence).
  rewrite H. lia.
Qed.

Lemma len_ljust (cell : string) (w : Z) :
  len cell <= w -> len (ljust cell w) = w.
Proof. intros H. unfold ljust. rewrite len_append, len_times. lia. Qed.

Lemma widen_length row : forall ws i ws',
  Menu.widen ws i row = Some ws' -> length ws' = length ws.
Proof.
  induction row as [| cell rest IH]; intros ws i ws'; cbn [Menu.widen].
  - now intros [= <-].
  - destruct (ws !! i) as [w |]; [| discriminate].
    intros H. apply IH in H. now rewrite length_insert in H.
Qed.

Lemma widen_fits row : forall (ws : list Z) i,
  (i + length row <= length ws)%nat ->
  exists ws',
    Menu.widen ws i row = Some ws'
    /\ (forall j w, ws !! j = Some w -> exists w', ws' !! j = Some w' /\ w <= w')
    /\ (forall k cell, row !! k = Some cell ->
                       exists w', ws' !! (i + k)%nat = Some w' /\ len cell <= w').
Proof.
  induction row as [| cell rest IH]; intros ws i Hlen; cbn [Menu.widen].
  - exists ws. split; [reflexivity |]. split.
    + intros j w Hj. exists w. split; [exact Hj | lia].
    + intros k c Hk. destruct k; discriminate Hk.
  - cbn [length] in Hlen.
    destruct (lookup_lt_is_Some_2 ws i ltac:(lia)) as [w Hw]. rewrite Hw.
    destruct (IH (<[i := Z.max w (len cell)]> ws) (S i)) as (ws' & Heq & Hmono & Hcells);
      [rewrite length_insert; lia |].
    exists ws'. split; [exact Heq |]. split.
    + intros j v Hj. destruct (decide (i = j)) as [<- | Hne].
      * destruct (Hmono i (Z.max w (len cell))) as (w' & Hw' & Hle);
          [apply list_lookup_insert_eq; now apply lookup_lt_Some in Hw |].
        exists w'. split; [exact Hw' |]. rewrite Hw in Hj. injection Hj as <-.
        lia.
      * apply Hmono. now rewrite list_lookup_insert_ne.
    + intros [| k] c Hk.
      * injection Hk as <-. rewrite Nat.add_0_r.
        destruct (Hmono i (Z.max w (len cell))) as (w' & Hw' & Hle);
          [apply list_lookup_insert_eq; now apply lookup_lt_Some in Hw |].
        exists w'. split; [exact Hw' | lia].
      * cbn [lookup] in Hk. destruct (Hcells k c Hk) as (w' & Hw' & Hle).
        exists w'. rewrite <- Hw'. split; [f_equal; lia | exact Hle].
Qed.

Lemma widen_too_long row : forall (ws : list Z) i,
  (i <= length ws < i + length row)%nat -> Menu.widen ws i row = None.
Proof.
  induction row as [| cell rest IH]; intros ws i Hlen; cbn [Menu.widen length] in *.
  - lia.
  - destruct (ws !! i) as [w |] eqn:Hw; [| reflexivity].
    apply IH. rewrite length_insert. apply lookup_lt_Some in Hw. lia.
Qed.

Lemma widen_all_fits rows : forall (ws : list Z),
  Forall (fun row => (length row <= length ws)%nat) rows ->
  exists ws',
    Menu.widen_all ws rows = Some ws'
    /\ length ws' = length ws
    /\ (forall j w, ws !! j = Some w -> exists w', ws' !! j = Some w' /\ w <= w')
    /\ Forall (fun row : list string =>
                 forall k cell, row !! k = Some cell ->
                                exists w', ws' !! k = Some w' /\ len cell <= w')
         rows.
Proof.
  induction rows as [| row rows IH]; intros ws Hrows; cbn [Menu.widen_all].
  - exists ws. repeat split; [| constructor].
    intros j w Hj. exists w. split; [exact Hj | lia].
  - inversion Hrows as [| ? ? Hrow Hrest]; subst.
    destruct (widen_fits row ws 0 ltac:(lia)) as (ws1 & Heq & Hmono1 & Hcells).
    rewrite Heq. pose proof (widen_length row ws 0 ws1 Heq) as Hlen1.
    destruct (IH ws1) as (ws' & Heq' & Hlen' & Hmono' & Hall);
      [now rewrite Hlen1 |].
    exists ws'. split; [exact Heq' |]. split; [congruence |]. split.
    + intros j w Hj. destruct (Hmono1 j w Hj) as (w1 & Hw1 & Hle1).
      destruct (Hmono' j w1 Hw1) as (w' & Hw' & Hle').
      exists w'. split; [exact Hw' | lia].
    + constructor; [| exact Hall].
      intros k cell Hk. destruct (Hcells k cell Hk) as (w1 & Hw1 & Hle1).
      destruct (Hmono' k w1 Hw1) as (w' & Hw' & Hle').
      exists w'. split; [exact Hw' | lia].
Qed.

Lemma widen_all_too_long rows : forall (ws : list Z),
  Exists (fun row => (length ws < length row)%nat) rows ->
  Menu.widen_all ws rows = None.
Proof.
  induction rows as [| row rows IH]; intros ws Hrows; cbn [Menu.widen_all].
  - inversion Hrows.
  - destruct (Menu.widen ws 0 row) as [ws1 |] eqn:Heq; [| reflexivity].
    inversion Hrows as [? ? Hrow | ? ? Hrest]; subst.
    + rewrite (widen_too_long row ws 0) in Heq by lia. discriminate Heq.
    + apply IH. now rewrite (widen_length row ws 0 ws1 Heq).
Qed.

Lemma sum_drop (ws : list Z) i w :
  ws !! i = Some w -> Menu.sum (drop i ws) = w + Menu.sum (drop (S i) ws).
Proof.
  revert i. induction ws as [| x ws IH]; intros [| i] H; try discriminate H.
  - injection H as ->. reflexivity.
  - cbn [drop]. now apply IH.
Qed.

(** A row with a cell for every column: the cells fit, and the line is as
    wide as the columns from [i] on and the bars between them. *)
Lemma cells_width (ws : list Z) row : forall i,
  (i + length row = length ws)%nat ->
  (forall k cell, row !! k = Some cell ->
                  exists w, ws !! (i + k)%nat = Some w /\ len cell <= w) ->
  exists s,
    Menu.cells ws (length ws) i row = Some s
    /\ len s = Menu.sum (drop i ws) + Z.of_nat (pred (length row)).
Proof.
  induction row as [| cell rest IH]; intros i Hlen Hfit; cbn [Menu.cells].
  - exists EmptyString. split; [reflexivity |].
    cbn [length] in *. rewrite Nat.add_0_r in Hlen. subst i.
    now rewrite drop_all.
  - cbn [length] in Hlen.
    destruct (Hfit 0%nat cell eq_refl) as (w & Hw & Hle).
    rewrite Nat.add_0_r in Hw. rewrite Hw.
    destruct (IH (S i)) as (s & Hs & Hlens); [lia | |].
    { intros k c Hk. destruct (Hfit (S k) c Hk) as (w' & Hw' & Hle').
      exists w'. rewrite <- Hw'. split; [f_equal; lia | exact Hle']. }
    rewrite Hs. eexists. split; [reflexivity |].
    rewrite !len_append, (len_ljust cell w Hle), Hlens, (sum_drop ws i w Hw).
    cbn [length pred].
    destruct (Z.ltb_spec (Z.of_nat i) (Z.of_nat (length ws) - 1)) as [Hlt | Hge].
    + change (len "|") with 1. destruct rest; cbn [length pred] in *; lia.
    + change (len EmptyString) with 0. destruct rest; cbn [length pred] in *; lia.
Qed.

Lemma print_rows_ok (ws : list Z) rows (c : Menu.console) :
  Forall (fun row => length row = length ws
                     /\ forall k cell, row !! k = Some cell ->
                          exists w, ws !! k = Some w /\ len cell <= w) rows ->
  exists lines,
    Menu.print_rows ws rows c
    = (Menu.Ok tt,
       Menu.Console (Menu.stdin c) (Menu.stdout c ++ map Menu.Print lines))
    /\ length lines = length rows
    /\ Forall (fun s => len s = Menu.sum ws + Z.of_nat (pred (length ws))) lines.
Proof.
  intros Hrows. revert c.
  induction Hrows as [| row rows [Hlen Hfit] Hrest IH]; intros c;
    cbn [Menu.print_rows].
  - exists []. cbn [map]. rewrite app_nil_r. destruct c. now repeat split.
  - destruct (cells_width ws row 0) as (s & Hs & Hlens);
      [cbn; lia | exact Hfit |].
    rewrite Hlen, Hs. unfold Menu.seq, Menu.print.
    destruct (IH (Menu.Console (Menu.stdin c) (Menu.stdout c ++ [Menu.Print s])))
      as (lines & Heq & Hn & Hall).
    rewrite Heq. cbn [Menu.stdin Menu.stdout]. exists (s :: lines).
    cbn [map length]. rewrite <- app_assoc.
    split; [reflexivity |]. split; [congruence |].
    constructor; [| exact Hall]. rewrite Hlens, Hlen. reflexivity.
Qed.

End Table.

Lemma sum_nonneg (ws : list Z) : Forall (fun w => 0 <= w) ws -> 0 <= Menu.sum ws.
Proof.
  induction 1 as [| w ws Hw Hws IH]; cbn [Menu.sum foldr]; [lia |].
  fold (Menu.sum ws). lia.
Qed.

Lemma len_nonneg (s : string) : 0 <= len s.
Proof. unfold len. lia. Qed.

(** X24: the table is aligned. When there is at least one row and every
    row has one cell for each header, render_table prints the header line,
    a rule and one line for each row, and all these lines have the same
    width; the rule under a title has that width too. *)
Theorem table_lines_have_one_width
    (headers : list string) (rows : list (list string))
    (title : option string) (c : Menu.console) :
  rows <> [] ->
  Forall (fun row => length row = length headers) rows ->
  exists width header_row rule row_lines,
    Menu.render_table headers rows title c
    = (Menu.Ok tt,
       Menu.Console (Menu.stdin c)
         (Menu.stdout c
          ++ (if truthy title
              then [Menu.Print (newline ++ default EmptyString title);
                    Menu.Print rule]
              else [])
          ++ Menu.Print header_row :: Menu.Print rule
             :: map Menu.Print row_lines))
    /\ length row_lines = length rows
    /\ len header_row = width
    /\ len rule = width
    /\ Forall (fun s => len s = width) row_lines.
Proof.
  intros Hne Hrows. unfold Menu.render_table.
  destruct rows as [| row0 rows0]; [congruence |].
  set (rows := row0 :: rows0) in *. clearbody rows. clear Hne.
  destruct (widen_all_fits rows (map len headers))
    as (ws & Hw & Hlen & Hmono & Hfit).
  { eapply Forall_impl; [exact Hrows |]. cbn. intros row ->.
    now rewrite length_map. }
  rewrite length_map in Hlen. rewrite Hw.
  set (ws2 := map (fun w => w + 2) ws).
  assert (Hlen2 : length ws2 = length headers)
    by (subst ws2; now rewrite length_map).
  assert (Hpos : Forall (fun w => 0 <= w) ws2).
  { subst ws2. apply Forall_map, Forall_lookup. intros j w' Hj. cbn.
    destruct (lookup_lt_is_Some_2 (map len headers) j) as [w Hwj].
    - rewrite length_map, <- Hlen. now apply lookup_lt_Some in Hj.
    - destruct (Hmono j w Hwj) as (w1 & Hw1 & Hle).
      rewrite list_lookup_fmap in Hwj.
      destruct (headers !! j) as [h |]; [| discriminate Hwj].
      injection Hwj as <-. pose proof (len_nonneg h).
      assert (w1 = w') by congruence. lia. }
  assert (Hwidth : Menu.sum ws2 + Z.of_nat (pred (length headers))
                   = Z.max 0 (Menu.sum ws2 + Z.of_nat (length headers) - 1)).
  { pose proof (sum_nonneg ws2 Hpos).
    destruct (length headers) as [| n] eqn:Hn; [| cbn [pred]; lia].
    destruct ws2; [cbn; lia | discriminate Hlen2]. }
  destruct (cells_width ws2 headers 0) as (hs & Hhs & Hlens).
  { cbn. now rewrite Hlen2. }
  { intros k h Hk. cbn [Nat.add].
    destruct (Hmono k (len h)) as (w1 & Hw1 & Hle);
      [now rewrite list_lookup_fmap, Hk |].
    exists (w1 + 2). subst ws2. rewrite list_lookup_fmap, Hw1.
    split; [reflexivity | lia]. }
  rewrite Hlen2 in Hhs. rewrite Hhs.
  destruct (truthy title) eqn:Ht.
  - unfold Menu.seq at 1. rewrite print_all_ok. cbn [Menu.stdin Menu.stdout].
    unfold Menu.seq at 1. rewrite print_all_ok. cbn [Menu.stdin Menu.stdout].
    destruct (print_rows_ok ws2 rows
                (Menu.Console (Menu.stdin c)
                   ((Menu.stdout c
                     ++ map Menu.Print
                          [newline ++ default EmptyString title;
                           times (Ascii.ascii_of_nat 45)
                             (Menu.sum ws2 + Z.of_nat (length headers) - 1)])
                    ++ map Menu.Print
                         [hs; times (Ascii.ascii_of_nat 45)
                                (Menu.sum ws2 + Z.of_nat (length headers) - 1)])))
      as (lines & Heq & Hn & Hall).
    { apply Forall_forall. intros row Hin.
      rewrite Forall_forall in Hrows, Hfit. split; [rewrite Hlen2; auto |].
      intros k cell Hk. destruct (Hfit row Hin k cell Hk) as (w1 & Hw1 & Hle).
      exists (w1 + 2). subst ws2. rewrite list_lookup_fmap, Hw1.
      split; [reflexivity | lia]. }
    rewrite Heq. cbn [Menu.stdin Menu.stdout map].
    exists (Z.max 0 (Menu.sum ws2 + Z.of_nat (length headers) - 1)), hs,
      (times (Ascii.ascii_of_nat 45)
         (Menu.sum ws2 + Z.of_nat (length headers) - 1)), lines.
    split; [now rewrite <- !app_assoc |]. split; [exact Hn |].
    split; [now rewrite Hlens, drop_0 |]. split; [apply len_times |].
    eapply Forall_impl; [exact Hall |]. cbn. intros s ->.
    now rewrite Hlen2.
  - unfold Menu.seq at 1. cbn beta iota.
    unfold Menu.seq at 1. rewrite print_all_ok. cbn [Menu.stdin Menu.stdout].
    destruct (print_rows_ok ws2 rows
                (Menu.Console (Menu.stdin c)
                   (Menu.stdout c
                    ++ map Menu.Print
                         [hs; times (Ascii.ascii_of_nat 45)
                                (Menu.sum ws2 + Z.of_nat (length headers) - 1)])))
      as (lines & Heq & Hn & Hall).
    { apply Forall_forall. intros row Hin.
      rewrite Forall_forall in Hrows, Hfit. split; [rewrite Hlen2; auto |].
      intros k cell Hk. destruct (Hfit row Hin k cell Hk) as (w1 & Hw1 & Hle).
      exists (w1 + 2). subst ws2. rewrite list_lookup_fmap, Hw1.
      split; [reflexivity | lia]. }
    rewrite Heq. cbn [Menu.stdin Menu.stdout map].
    exists (Z.max 0 (Menu.sum ws2 + Z.of_nat (length headers) - 1)), hs,
      (times (Ascii.ascii_of_nat 45)
         (Menu.sum ws2 + Z.of_nat (length headers) - 1)), lines.
    split; [now rewrite <- !app_assoc |]. split; [exact Hn |].
    split; [now rewrite Hlens, drop_0 |]. split; [apply len_times |].
    eapply Forall_impl; [exact Hall |]. cbn. intros s ->.
    now rewrite Hlen2.
Qed.

Lemma table_witness :
  exists width header_row rule row_lines,
    Menu.render_table ["SID"; "Number"]
      [["PN1"; "+14155550100"]; ["PN22"; "+1"]] (Some "Numbers")
      (Menu.Console [] [])
    = (Menu.Ok tt,
       Menu.Console []
         ([Menu.Print (newline ++ "Numbers"); Menu.Print rule]
          ++ Menu.Print header_row :: Menu.Print rule
             :: map Menu.Print row_lines))
    /\ length row_lines = 2%nat
    /\ len header_row = width
    /\ len rule = width
    /\ Forall (fun s => len s = width) row_lines.
Proof.
  apply (table_lines_have_one_width ["SID"; "Number"]
           [["PN1"; "+14155550100"]; ["PN22"; "+1"]] (Some "Numbers")
           (Menu.Console [] [])).
  - discriminate.
  - repeat constructor.
Defined.

(** X25: a row with more cells than there are headers stops the table.
    render_table then ends in IndexError while it measures the columns,
    before anything is printed: no title, no header line, no row. *)
Theorem table_row_longer_than_headers_fails
    (headers : list string) (rows : list (list string))
    (title : option string) (c : Menu.console) :
  Exists (fun row => (length headers < length row)%nat) rows ->
  Menu.render_table headers rows title c = (Menu.Fail Menu.IndexError, c).
Proof.
  intros Hrows. unfold Menu.render_table.
  destruct rows as [| row rows]; [inversion Hrows |].
  rewrite widen_all_too_long; [reflexivity |].
  now rewrite length_map.
Qed.

Lemma table_row_longer_witness :
  Menu.render_table ["SID"] [["PN1"]; ["PN2"; "+14155550100"]]
    (Some "Numbers") (Menu.Console [] [Menu.Clear])
  = (Menu.Fail Menu.IndexError, Menu.Console [] [Menu.Clear]).
Proof.
  apply (table_row_longer_than_headers_fails ["SID"]
           [["PN1"]; ["PN2"; "+14155550100"]] (Some "Numbers")
           (Menu.Console [] [Menu.Clear])).
  apply Exists_cons_tl, Exists_cons_hd. cbn. lia.
Defined.

(** X26: the header keeps the whole title. render_header clears the screen
    and prints a rule of 60 signs, the title line, the rule again and an
    empty line; the title line is the title between spaces, as many on the
    left as on the right or one more on the right, and is 60 wide, or as
    wide as the title when that is longer: the title is never cut. *)
Theorem header_centres_the_whole_title (title : string) (c : Menu.console) :
  exists l r line,
    Menu.render_header title c
    = (Menu.Ok tt,
       Menu.Console (Menu.stdin c)
         (Menu.stdout c
          ++ [Menu.Clear;
              Menu.Print (times (Ascii.ascii_of_nat 61) 60);
              Menu.Print line;
              Menu.Print (times (Ascii.ascii_of_nat 61) 60);
              Menu.Print EmptyString]))
    /\ len (times (Ascii.ascii_of_nat 61) 60) = 60
    /\ line = times space l ++ title ++ times space r
    /\ 0 <= l /\ l <= r <= l + 1
    /\ len line = Z.max 60 (len title).
Proof.
  pose proof (len_nonneg title) as Hlen.
  assert (Hrun : forall line,
            Menu.seq Menu.clear_screen (fun _ =>
              Menu.print_all [times (Ascii.ascii_of_nat 61) 60; line;
                              times (Ascii.ascii_of_nat 61) 60; EmptyString]) c
            = (Menu.Ok tt,
               Menu.Console (Menu.stdin c)
                 (Menu.stdout c
                  ++ [Menu.Clear;
                      Menu.Print (times (Ascii.ascii_of_nat 61) 60);
                      Menu.Print line;
                      Menu.Print (times (Ascii.ascii_of_nat 61) 60);
                      Menu.Print EmptyString]))).
  { intros line. unfold Menu.seq, Menu.clear_screen. rewrite print_all_ok.
    cbn [Menu.stdin Menu.stdout map]. now rewrite <- app_assoc. }
  unfold Menu.render_header, center.
  destruct (60 - len title <=? 0) eqn:Hm.
  - apply Z.leb_le in Hm. exists 0, 0, title.
    split; [apply Hrun |]. split; [apply len_times |].
    split; [cbn; now rewrite append_empty_r |]. lia.
  - apply Z.leb_gt in Hm. cbv zeta.
    rewrite <- Z.land_assoc. change (Z.land 60 1) with 0.
    rewrite Z.land_0_r, Z.add_0_r.
    exists ((60 - len title) / 2), (60 - len title - (60 - len title) / 2).
    eexists. split; [apply Hrun |]. split; [apply len_times |].
    split; [reflexivity |].
    pose proof (Z.div_mod (60 - len title) 2 ltac:(lia)) as Hdiv.
    pose proof (Z.mod_pos_bound (60 - len title) 2 ltac:(lia)) as Hmod.
    rewrite !len_append, !len_times. lia.
Qed.
